(** * The PascalVOC to YOLO dataset converter, [scripts/convert_voc_to_yolo.py]

    A shallow embedding of the converter and the proofs of its documented
    behaviour.

    Conventions of the model.
    - Python [float] is IEEE binary64: Rocq's primitive [float], whose
      operations round to nearest, ties to even, as CPython's do.
    - Python [int] is [Z].
    - Exceptions are the constructors of [exn]; a computation that can raise
      returns a [result].
    - A path is the list of its components from the root, none of them [.]
      or [..]; [os.path.join p n] is [p ++ [n]] for a name [n], and a path
      given on the command line says whether it is absolute.
    - The file system is a finite map from paths to nodes.  Calls that read a
      path of the wrong kind raise as Python does, and [os.makedirs] raises
      when a regular file stands at the directory or on the way to it.
      Permission modes (which [shutil.copy] carries over to the copy),
      capacity, and what the operating system answers when a file is written
      where a directory stands or below a directory that is missing are
      outside the model: [shutil.copy] and [open(_, 'w')] succeed whenever
      the source can be read, so the model returns on every run that the code
      completes, and a statement about the runs that return covers them all.
    - [print] appends a [message] to the console log of the [world].
    - The functions of Python's library whose results depend on text syntax or
      on chance ([ET.parse], [int], [float], [random.shuffle]), and what
      [glob.glob] finds for a directory whose name it reads as a pattern, are
      the fields of the class [PyLib]; every theorem holds for every
      instance. *)

From Stdlib Require Import ZArith Floats Ascii DecimalString Permutation Lia.
From stdpp Require Import gmap strings list.

Local Open Scope Z_scope.

(** ** Exceptions *)

Inductive exn : Set :=
| ParseError          (* xml.etree.ElementTree.ParseError *)
| AttributeError      (* attribute access on None *)
| TypeError           (* int(None), float(None) *)
| ValueError          (* int("x"), float("x"), int(nan) *)
| ZeroDivisionError   (* float / 0 *)
| OverflowError       (* int(inf), int too large for a float *)
| SameFileError       (* shutil.copy of a file onto itself *)
| FileExistsError     (* os.makedirs onto a regular file *)
| FileNotFoundError
| NotADirectoryError
| IsADirectoryError.

Inductive result (A : Type) : Type :=
| Ok (a : A)
| Raise (e : exn).
Arguments Ok {A} a.
Arguments Raise {A} e.

Definition bind {A B : Type} (c : result A) (k : A -> result B) : result B :=
  match c with
  | Ok a => k a
  | Raise e => Raise e
  end.

Notation "'do*' x <- c ; k" := (bind c (fun x => k))
  (at level 10, x pattern, c at level 100, k at level 200).

(** [x.attr] where [x] may be [None]. *)
Definition attr_of {A : Type} (x : option A) : result A :=
  match x with
  | Some a => Ok a
  | None => Raise AttributeError
  end.

(** ** Numbers *)

(** The conversion of an [int] operand to [float] in mixed arithmetic:
    correctly rounded, [OverflowError] when the integer is out of range. *)
Definition float_of_int (n : Z) : result float :=
  match binary_normalize prec emax n 0 false with
  | S754_infinity _ => Raise OverflowError
  | sf => Ok (SF2Prim sf)
  end.

(** [x / n] for a float [x] and an int [n].  CPython converts [n], then raises
    [ZeroDivisionError] when the divisor is zero; the converted divisor is
    zero exactly when [n] is. *)
Definition float_truediv_int (x : float) (n : Z) : result float :=
  do* d <- float_of_int n;
  if n =? 0 then Raise ZeroDivisionError else Ok (x / d)%float.

(** [n * y] for an int [n] and a float [y]. *)
Definition int_mul_float (n : Z) (y : float) : result float :=
  do* d <- float_of_int n;
  Ok (d * y)%float.

(** [int(x)] for a float [x]: truncation toward zero. *)
Definition int_of_float (x : float) : result Z :=
  match Prim2SF x with
  | S754_nan => Raise ValueError
  | S754_infinity _ => Raise OverflowError
  | S754_zero _ => Ok 0
  | S754_finite s m e =>
      let a := if 0 <=? e then Z.pos m * 2 ^ e else Z.pos m / 2 ^ (- e) in
      Ok (if s then - a else a)
  end.

(** [str(n)] for an int. *)
Definition str_int (n : Z) : string := NilZero.string_of_int (Z.to_int n).

(** ** The format specification [.6f] *)

Definition digit (d : Z) : ascii := ascii_of_nat (48 + Z.to_nat d).

Definition six_digits (n : Z) : string :=
  String (digit (n / 100000 mod 10))
 (String (digit (n / 10000 mod 10))
 (String (digit (n / 1000 mod 10))
 (String (digit (n / 100 mod 10))
 (String (digit (n / 10 mod 10))
 (String (digit (n mod 10)) ""))))).

(** [num / den] rounded to the nearest integer, ties to the even one. *)
Definition round_half_even (num den : Z) : Z :=
  let q := num / den in
  let r := num mod den in
  if 2 * r <? den then q
  else if den <? 2 * r then q + 1
  else if Z.even q then q else q + 1.

(** [m * 2^e * 10^6] rounded to an integer. *)
Definition scaled6 (m : positive) (e : Z) : Z :=
  if 0 <=? e then Z.pos m * 2 ^ e * 1000000
  else round_half_even (Z.pos m * 1000000) (2 ^ (- e)).

Definition fixed6 (neg : bool) (n : Z) : string :=
  (if neg then "-" else "") +:+ str_int (n / 1000000) +:+ "." +:+ six_digits (n mod 1000000).

(** [f"{x:.6f}"]: the decimal expansion of [x] correctly rounded to six
    places; [nan] and the infinities are spelled out. *)
Definition format_6f (x : float) : string :=
  match Prim2SF x with
  | S754_nan => "nan"
  | S754_infinity s => if s then "-inf" else "inf"
  | S754_zero s => fixed6 s 0
  | S754_finite s m e => fixed6 s (scaled6 m e)
  end.

(** ** XML element trees

    What [xml.etree.ElementTree] hands to the converter: every element has a
    tag, a text that may be [None], and its child elements in document
    order. *)

#[local] Set Warnings "-register-all".
Inductive element : Type :=
| Element (tag : string) (text : option string) (children : list element).

Definition tag (e : element) : string :=
  match e with Element t _ _ => t end.
Definition text (e : element) : option string :=
  match e with Element _ t _ => t end.
Definition children (e : element) : list element :=
  match e with Element _ _ c => c end.

(** [elem.findall(t)] for a plain tag [t]: the children carrying that tag. *)
Definition findall (t : string) (e : element) : list element :=
  filter (fun c => tag c = t) (children e).

(** The elements selected by a path [t1/t2/...], in document order. *)
Fixpoint iterfind (tags : list string) (es : list element) : list element :=
  match tags with
  | [] => es
  | t :: tags' => iterfind tags' (es ≫= findall t)
  end.

(** [elem.find(path)]: the first selected element, or [None]. *)
Definition find (tags : list string) (e : element) : option element :=
  head (iterfind tags [e]).

(** ** Library functions taken as given *)

Abbreviation path := (list string).

(** A node of the file system: a directory, or a regular file and what it
    holds. *)
Inductive node : Type :=
| Dir
| File (data : string).

Class PyLib (rng : Type) : Type := {
  (** [ET.parse(f).getroot()] on the text of a file; [None] is [ParseError]. *)
  ET_parse : string -> option element;
  (** [int(s)] and [float(s)] on a string; [None] is [ValueError]. *)
  py_int : string -> option Z;
  py_float : string -> option float;
  (** [random.shuffle], [rng] being the state of the random number generator. *)
  shuffle : rng -> list path -> list path * rng;
  (** [glob.glob(os.path.join(d, '**', '*.xml'), recursive=True)] for a
      directory [d] whose name holds one of the characters that [glob] reads
      as a pattern: what it matches is not worked out in the model. *)
  glob_pattern : gmap path node -> path -> list path;
}.

(** ** Class mapping according to rdd.yaml *)

Definition class_mapping : gmap string Z :=
  {[ "D00" := 0; "D10" := 1; "D20" := 2; "D40" := 3 ]}.

(** [class_name in class_mapping], where [class_name] may be [None]. *)
Definition class_lookup (class_name : option string) : option Z :=
  name ← class_name; class_mapping !! name.

(** (class_id, x_center, y_center, width, height) *)
Definition box : Type := Z * float * float * float * float.

Section Parser.
Context {rng : Type} `{!PyLib rng}.

(** [int(e.text)] and [float(e.text)]. *)
Definition int_text (e : element) : result Z :=
  match text e with
  | None => Raise TypeError
  | Some s => match py_int s with Some n => Ok n | None => Raise ValueError end
  end.

Definition float_text (e : element) : result float :=
  match text e with
  | None => Raise TypeError
  | Some s => match py_float s with Some x => Ok x | None => Raise ValueError end
  end.

(** One turn of the loop over the objects: [None] when the object is
    skipped, the box to append otherwise. *)
Definition convert_object (img_width img_height : Z) (obj : element)
  : result (option box) :=
  do* name <- attr_of (find ["name"] obj);
  match class_lookup (text name) with
  | None => Ok None
  | Some class_id =>
      do* bbox <- attr_of (find ["bndbox"] obj);
      do* xmin <- bind (attr_of (find ["xmin"] bbox)) float_text;
      do* ymin <- bind (attr_of (find ["ymin"] bbox)) float_text;
      do* xmax <- bind (attr_of (find ["xmax"] bbox)) float_text;
      do* ymax <- bind (attr_of (find ["ymax"] bbox)) float_text;
      do* x_center <- float_truediv_int ((xmin + xmax) / 2)%float img_width;
      do* y_center <- float_truediv_int ((ymin + ymax) / 2)%float img_height;
      do* width <- float_truediv_int (xmax - xmin)%float img_width;
      do* height <- float_truediv_int (ymax - ymin)%float img_height;
      Ok (Some (class_id, x_center, y_center, width, height))
  end.

(** The loop [for obj in root.findall('object')], appending to [boxes]. *)
Fixpoint convert_objects (img_width img_height : Z) (objs : list element)
    (boxes : list box) : result (list box) :=
  match objs with
  | [] => Ok boxes
  | obj :: objs' =>
      do* b <- convert_object img_width img_height obj;
      convert_objects img_width img_height objs'
        (match b with Some b => boxes ++ [b] | None => boxes end)
  end.

(** The parser on the root element. *)
Definition parse_root (root : element) : result (list box) :=
  do* img_width <- bind (attr_of (find ["size"; "width"] root)) int_text;
  do* img_height <- bind (attr_of (find ["size"; "height"] root)) int_text;
  convert_objects img_width img_height (findall "object" root) [].

(** [parse_voc_annotation] on the text of the annotation file. *)
Definition parse_voc_annotation (xml_text : string) : result (list box) :=
  match ET_parse xml_text with
  | None => Raise ParseError
  | Some root => parse_root root
  end.

End Parser.

(** ** Label lines *)

Definition newline : string := String (ascii_of_nat 10) "".

(** [f"{box[0]} {box[1]:.6f} {box[2]:.6f} {box[3]:.6f} {box[4]:.6f}\n"] *)
Definition label_line (b : box) : string :=
  let '(class_id, x_center, y_center, width, height) := b in
  str_int class_id +:+ " " +:+ format_6f x_center +:+ " " +:+ format_6f y_center
    +:+ " " +:+ format_6f width +:+ " " +:+ format_6f height +:+ newline.

(** What the loop of [f.write] calls leaves in the file. *)
Definition label_text (boxes : list box) : string :=
  foldl (fun written b => written +:+ label_line b) "" boxes.

(** ** The shape of a label line, for the statements *)

Definition is_digit (c : ascii) : bool :=
  let n := Z.of_nat (nat_of_ascii c) in (48 <=? n) && (n <=? 57).

Fixpoint all_digits (s : string) : bool :=
  match s with
  | "" => true
  | String c rest => is_digit c && all_digits rest
  end.

(** One digit or more, a point, six digits. *)
Fixpoint digits_point_six (s : string) (seen_digit : bool) : bool :=
  match s with
  | "" => false
  | String c rest =>
      if Ascii.eqb c "."
      then seen_digit && (String.length rest =? 6)%nat && all_digits rest
      else is_digit c && digits_point_six rest true
  end.

(** A number written with exactly six decimal places. *)
Definition fixed_point6 (s : string) : bool :=
  match s with
  | "" => false
  | String c rest =>
      if Ascii.eqb c "-" then digits_point_six rest false else digits_point_six s false
  end.




(** Neither [nan] nor an infinity. *)
Definition finite (x : float) : bool :=
  match Prim2SF x with
  | S754_zero _ | S754_finite _ _ _ => true
  | S754_infinity _ | S754_nan => false
  end.

(** ** Paths and the file system *)

(** [os.path.basename] *)
Definition basename (p : path) : string := default "" (last p).

Fixpoint after_dot (reversed : string) : option string :=
  match reversed with
  | "" => None
  | String c rest => if Ascii.eqb c "." then Some rest else after_dot rest
  end.

Fixpoint all_dots (s : string) : bool :=
  match s with
  | "" => true
  | String c rest => Ascii.eqb c "." && all_dots rest
  end.

(** [os.path.splitext(name)[0]]: the name up to its last dot, unless only
    dots stand before that one. *)
Definition splitext_root (name : string) : string :=
  match after_dot (String.rev name) with
  | Some root => if all_dots root then name else String.rev root
  | None => name
  end.

Definition isdir (fs : gmap path node) (p : path) : bool :=
  match fs !! p with
  | Some Dir => true
  | _ => false
  end.

Definition path_exists (fs : gmap path node) (p : path) : bool :=
  match fs !! p with
  | Some _ => true
  | None => false
  end.

Fixpoint strip_prefix (d p : path) : option path :=
  match d, p with
  | [], _ => Some p
  | a :: d', b :: p' => if decide (a = b) then strip_prefix d' p' else None
  | _ :: _, [] => None
  end.

(** [os.listdir] *)
Definition listdir (fs : gmap path node) (d : path) : result (list string) :=
  match fs !! d with
  | Some Dir =>
      Ok (omap (fun p => match strip_prefix d p with
                         | Some [name] => Some name
                         | _ => None
                         end) (map_to_list fs).*1)
  | Some (File _) => Raise NotADirectoryError
  | None => Raise FileNotFoundError
  end.

(** [os.makedirs(p, exist_ok=True)], from [base] on: a directory is made
    where nothing stands, a directory that stands is kept, and a regular
    file makes [os.mkdir] raise, [FileExistsError] at [p] itself and
    [NotADirectoryError] on the way to it. *)
Fixpoint makedirs_from (base rest : path) (fs : gmap path node)
  : result (gmap path node) :=
  match rest with
  | [] => Ok fs
  | name :: rest' =>
      match fs !! (base ++ [name]) with
      | None => makedirs_from (base ++ [name]) rest' (<[base ++ [name] := Dir]> fs)
      | Some Dir => makedirs_from (base ++ [name]) rest' fs
      | Some (File _) =>
          Raise (match rest' with
                 | [] => FileExistsError
                 | _ :: _ => NotADirectoryError
                 end)
      end
  end.

Definition makedirs (p : path) (fs : gmap path node) : result (gmap path node) :=
  makedirs_from [] p fs.

(** *** The directories on the way to a path, for the statements *)

(** [fs] with a directory at [d] unless something stands there. *)
Definition with_dir (d : path) (fs : gmap path node) : gmap path node :=
  match fs !! d with
  | None => <[d := Dir]> fs
  | Some _ => fs
  end.

Fixpoint with_dirs_from (base rest : path) (fs : gmap path node) : gmap path node :=
  match rest with
  | [] => fs
  | name :: rest' => with_dirs_from (base ++ [name]) rest' (with_dir (base ++ [name]) fs)
  end.

(** [fs] with the directories on the way to [p] and [p] itself in place:
    what [os.makedirs] leaves when it returns. *)
Definition with_dirs (p : path) (fs : gmap path node) : gmap path node :=
  with_dirs_from [] p fs.

Definition is_file (fs : gmap path node) (p : path) : bool :=
  match fs !! p with
  | Some (File _) => true
  | _ => false
  end.

Fixpoint clear_from (fs : gmap path node) (base rest : path) : bool :=
  match rest with
  | [] => true
  | name :: rest' =>
      negb (is_file fs (base ++ [name])) && clear_from fs (base ++ [name]) rest'
  end.

(** No regular file stands at [p] or on the way to it. *)
Definition clear_way (fs : gmap path node) (p : path) : bool := clear_from fs [] p.

(** Names that a pattern not starting with a dot does not match. *)
Definition hidden (name : string) : bool := String.prefix "." name.

(** The pattern [*.xml] *)
Definition matches_xml (name : string) : bool :=
  negb (hidden name) && String.prefix "lmx." (String.rev name).

(** The directories that [**] walks through below [base]. *)
Fixpoint walkable (fs : gmap path node) (base mid : path) : bool :=
  match mid with
  | [] => true
  | name :: mid' =>
      negb (hidden name) && isdir fs (base ++ [name]) && walkable fs (base ++ [name]) mid'
  end.

(** The characters that make [glob] read a name as a pattern. *)
Definition magic (c : ascii) : bool :=
  Ascii.eqb c "*" || Ascii.eqb c "?" || Ascii.eqb c "[".

Fixpoint has_magic (s : string) : bool :=
  match s with
  | "" => false
  | String c rest => magic c || has_magic rest
  end.

(** A path that [glob] takes as it is written. *)
Definition literal (p : path) : bool := forallb (fun name => negb (has_magic name)) p.

(** What the pattern [d/**/*.xml] matches when [d] is taken as it is
    written: the entries below [d] that match [*.xml], through the
    directories that [**] walks. *)
Definition glob_literal (fs : gmap path node) (d : path) : list path :=
  filter (fun p => match strip_prefix d p with
                   | Some rest =>
                       match last rest with
                       | Some name =>
                           matches_xml name
                           && walkable fs d (take (pred (length rest)) rest)
                       | None => false
                       end
                   | None => false
                   end = true)
         (if isdir fs d then (map_to_list fs).*1 else []).

(** [glob.glob(os.path.join(d, '**', '*.xml'), recursive=True)] *)
Definition glob_xml {rng : Type} `{!PyLib rng} (fs : gmap path node) (d : path)
  : list path :=
  if literal d then glob_literal fs d else glob_pattern fs d.

(** [shutil.copy(src, dst)]: into [dst] when that is a directory. *)
Definition copy (fs : gmap path node) (src dst : path) : result (gmap path node) :=
  match fs !! src with
  | Some (File data) =>
      let target := if isdir fs dst then dst ++ [basename src] else dst in
      if decide (target = src) then Raise SameFileError
      else Ok (<[target := File data]> fs)
  | Some Dir => Raise IsADirectoryError
  | None => Raise FileNotFoundError
  end.

(** [open(p, 'w')], the writes, and the close. *)
Definition write_file (fs : gmap path node) (p : path) (data : string) : gmap path node :=
  <[p := File data]> fs.

(** A path given on the command line. *)
Record argument : Type := Argument {
  absolute : bool;
  components : path;
}.

(** [os.path.join(base, a)]: [a] itself when it is absolute. *)
Definition path_join (base : path) (a : argument) : path :=
  if absolute a then components a else base ++ components a.

(** ** Python slices [l[:k]] and [l[k:]] *)

Definition slice_index {A : Type} (l : list A) (k : Z) : nat :=
  Z.to_nat (if k <? 0 then Z.max 0 (Z.of_nat (length l) + k)
            else Z.min k (Z.of_nat (length l))).

Definition slice_to {A : Type} (l : list A) (k : Z) : list A :=
  take (slice_index l k) l.

Definition slice_from {A : Type} (l : list A) (k : Z) : list A :=
  drop (slice_index l k) l.

(** ** Console output *)

Inductive message : Type :=
| MsgLooking (voc_dir : path)
| MsgNoSubdirs
| MsgProcessing (subdir : string)
| MsgNoTrainFolder (subdir : string)
| MsgNoImagesOrAnnotations (train_folder : path)
| MsgFoundImages (images_dir : path)
| MsgFoundAnnotations (annotation_dir : path)
| MsgNoXml (annotation_dir : path)
| MsgFoundXml (count : nat) (annotation_dir : path)
| MsgSuccess (subdir : string) (training validation : nat)
| WarnNoImage (base_name : string)
| WarnNoBoxes (base_name : string)
| MsgVocDirectory (voc_dir : path)
| MsgModelDirectory (model_dir : path)
| MsgComplete
| MsgUpdateYaml.

(** A [for] loop whose body can raise. *)
Fixpoint for_each {A S : Type} (body : A -> S -> result S) (xs : list A) (s : S)
  : result S :=
  match xs with
  | [] => Ok s
  | x :: xs' => do* s' <- body x s; for_each body xs' s'
  end.

(** ** The converter *)

Section Converter.
Context {rng : Type} `{!PyLib rng}.

(** What a run reads and changes: the files, the console, the generator. *)
Record world : Type := World {
  w_fs : gmap path node;
  w_out : list message;
  w_rng : rng;
}.

Definition print (m : message) (w : world) : world :=
  World (w_fs w) (w_out w ++ [m]) (w_rng w).

Definition set_fs (fs : gmap path node) (w : world) : world :=
  World fs (w_out w) (w_rng w).

(** [parse_voc_annotation(xml_file)], from opening the file on. *)
Definition parse_file (fs : gmap path node) (xml_file : path) : result (list box) :=
  match fs !! xml_file with
  | Some (File data) => parse_voc_annotation data
  | Some Dir => Raise IsADirectoryError
  | None => Raise FileNotFoundError
  end.

Definition image_extensions : list string := [".jpg"; ".jpeg"; ".png"].

(** The loop over the extensions, left at the first path that exists. *)
Definition find_image (fs : gmap path node) (images_dir : path)
    (name_without_ext : string) : option path :=
  List.find (path_exists fs)
    ((fun ext => images_dir ++ [name_without_ext +:+ ext]) <$> image_extensions).

(** The body of the loop of [process_set]. *)
Definition process_file (images_dir output_dir : path) (xml_file : path) (w : world)
  : result world :=
  let base_name := basename xml_file in
  let name_without_ext := splitext_root base_name in
  match find_image (w_fs w) images_dir name_without_ext with
  | None => Ok (print (WarnNoImage base_name) w)
  | Some image_path =>
      do* boxes <- parse_file (w_fs w) xml_file;
      match boxes with
      | [] => Ok (print (WarnNoBoxes base_name) w)
      | _ :: _ =>
          let image_filename := basename image_path in
          let output_image_path := output_dir ++ [image_filename] in
          do* copied <- copy (w_fs w) image_path output_image_path;
          let label_filename := name_without_ext +:+ ".txt" in
          let label_path := output_dir ++ [label_filename] in
          Ok (set_fs (write_file copied label_path (label_text boxes)) w)
      end
  end.

Definition process_set (xml_files : list path) (images_dir output_dir : path)
    (set_name : string) (w : world) : result world :=
  for_each (process_file images_dir output_dir) xml_files w.

Definition annotation_dirnames : list string :=
  ["annotations"; "annotation"; "Annotations"; "xmls"].

(** The loop over the annotation folder names, left at the first directory. *)
Definition find_annotation_dir (fs : gmap path node) (train_folder : path)
  : option path :=
  List.find (isdir fs)
    ((fun anno_dirname => train_folder ++ [anno_dirname]) <$> annotation_dirnames).

(** [int(len(xml_files) * (1 - val_split))] *)
Definition train_count_of (n : nat) (val_split : float) : result Z :=
  do* product <- int_mul_float (Z.of_nat n) (1 - val_split)%float;
  int_of_float product.

(** The two slices of the shuffled list. *)
Definition split_files (shuffled : list path) (val_split : float)
  : result (list path * list path) :=
  do* train_count <- train_count_of (length shuffled) val_split;
  Ok (slice_to shuffled train_count, slice_from shuffled train_count).

(** The body of the loop over the dataset subdirectories, from the point
    where the images and the annotations have been found. *)
Definition process_dataset (subdir : string) (images_dir annotation_dir : path)
    (train_dir val_dir : path) (val_split : float) (w : world) : result world :=
  let w := print (MsgFoundImages images_dir) w in
  let w := print (MsgFoundAnnotations annotation_dir) w in
  let xml_files := glob_xml (w_fs w) annotation_dir in
  match xml_files with
  | [] => Ok (print (MsgNoXml annotation_dir) w)
  | _ :: _ =>
      let w := print (MsgFoundXml (length xml_files) annotation_dir) w in
      let '(shuffled, g) := shuffle (w_rng w) xml_files in
      let w := World (w_fs w) (w_out w) g in
      do* (train_files, val_files) <- split_files shuffled val_split;
      do* w <- process_set train_files images_dir train_dir "training" w;
      do* w <- process_set val_files images_dir val_dir "validation" w;
      Ok (print (MsgSuccess subdir (length train_files) (length val_files)) w)
  end.

(** The body of the loop over the dataset subdirectories. *)
Definition convert_subdir (voc_dir model_dir : path) (val_split : float)
    (subdir : string) (w : world) : result world :=
  let w := print (MsgProcessing subdir) w in
  let train_dir := model_dir ++ [subdir; "train"] in
  let val_dir := model_dir ++ [subdir; "val"] in
  do* made <- makedirs train_dir (w_fs w);
  do* made <- makedirs val_dir made;
  let w := set_fs made w in
  let train_folder := voc_dir ++ [subdir; "train"] in
  if negb (isdir (w_fs w) train_folder) then Ok (print (MsgNoTrainFolder subdir) w)
  else
    let images_dir := train_folder ++ ["images"] in
    let annotation_dir := find_annotation_dir (w_fs w) train_folder in
    match annotation_dir with
    | Some annotation_dir =>
        if negb (isdir (w_fs w) images_dir)
        then Ok (print (MsgNoImagesOrAnnotations train_folder) w)
        else process_dataset subdir images_dir annotation_dir train_dir val_dir val_split w
    | None => Ok (print (MsgNoImagesOrAnnotations train_folder) w)
    end.

Definition convert_to_yolo (voc_dir model_dir : path) (val_split : float) (w : world)
  : result world :=
  let w := print (MsgLooking voc_dir) w in
  do* names <- listdir (w_fs w) voc_dir;
  let subdirs := filter (fun d => isdir (w_fs w) (voc_dir ++ [d]) = true) names in
  match subdirs with
  | [] => Ok (print MsgNoSubdirs w)
  | _ :: _ => for_each (convert_subdir voc_dir model_dir val_split) subdirs w
  end.

(** The script: the directories are joined to the project directory. *)
Definition main (project_dir : path) (args_voc args_model : argument)
    (args_val_split : float) (w : world) : result world :=
  let voc_dir := path_join project_dir args_voc in
  let model_dir := path_join project_dir args_model in
  let w := print (MsgVocDirectory voc_dir) w in
  let w := print (MsgModelDirectory model_dir) w in
  do* w <- convert_to_yolo voc_dir model_dir args_val_split w;
  let w := print MsgComplete w in
  Ok (print MsgUpdateYaml w).

(** The world in which the body of the loop over the subdirectories looks
    for the train folder, once both [os.makedirs] calls have returned: the
    output directories are in place. *)
Definition entered (model_dir : path) (subdir : string) (w : world) : world :=
  set_fs (with_dirs (model_dir ++ [subdir; "val"])
            (with_dirs (model_dir ++ [subdir; "train"]) (w_fs w)))
    (print (MsgProcessing subdir) w).

(** The node at [p] once a run has ended without raising. *)
Definition file_after (r : result world) (p : path) : option node :=
  match r with
  | Ok w => w_fs w !! p
  | Raise _ => None
  end.

End Converter.

(** ** Reading an annotation, for the statements

    What the document says about an object and about the image, read off the
    tree without the parser's control flow. *)

Section Reading.
Context {rng : Type} `{!PyLib rng}.

(** The class label of an object. *)
Definition object_label (obj : element) : option string :=
  find ["name"] obj ≫= text.

(** The class id of an object: its label looked up in the mapping. *)
Definition object_class (obj : element) : option Z :=
  name ← find ["name"] obj; class_lookup (text name).

(** The objects the parser keeps. *)
Definition mapped (obj : element) : bool :=
  match object_class obj with
  | Some _ => true
  | None => false
  end.

(** A coordinate of the object's bounding box. *)
Definition bndbox_value (obj : element) (field : string) : option float :=
  bbox ← find ["bndbox"] obj; e ← find [field] bbox; s ← text e; py_float s.

(** A dimension of the image. *)
Definition image_size (root : element) (field : string) : option Z :=
  e ← find ["size"; field] root; s ← text e; py_int s.

(** The box that the formulas give for an object. *)
Definition box_of (img_width img_height : Z) (obj : element) (b : box) : Prop :=
  exists class_id xmin ymin xmax ymax W H',
    object_class obj = Some class_id /\
    bndbox_value obj "xmin" = Some xmin /\ bndbox_value obj "ymin" = Some ymin /\
    bndbox_value obj "xmax" = Some xmax /\ bndbox_value obj "ymax" = Some ymax /\
    float_of_int img_width = Ok W /\ float_of_int img_height = Ok H' /\
    img_width <> 0 /\ img_height <> 0 /\
    b = (class_id, ((xmin + xmax) / 2 / W)%float, ((ymin + ymax) / 2 / H')%float,
         ((xmax - xmin) / W)%float, ((ymax - ymin) / H')%float).

End Reading.

(** ** A sample library instance and sample inputs

    Used to run the model on concrete inputs.  [sample_int] and
    [sample_float] read plain digit strings, which Python's [int] and [float]
    read the same way, and [sample_float] reads ["nan"] as Python does; the
    sample shuffle reverses the list.  No sample directory has a name that
    [glob] reads as a pattern. *)

Fixpoint digits_value (s : string) (acc : Z) : option Z :=
  match s with
  | "" => Some acc
  | String c rest =>
      let d := Z.of_nat (nat_of_ascii c) - 48 in
      if (0 <=? d) && (d <=? 9) then digits_value rest (10 * acc + d) else None
  end.

Definition sample_int (s : string) : option Z :=
  match s with
  | "" => None
  | _ => digits_value s 0
  end.

Definition sample_float (s : string) : option float :=
  if decide (s = "nan") then Some nan
  else n ← sample_int s; Some (SF2Prim (binary_normalize prec emax n 0 false)).

Definition leaf (t s : string) : element := Element t (Some s) [].

Definition sample_object (name xmin ymin xmax ymax : string) : element :=
  Element "object" None
    [leaf "name" name;
     Element "bndbox" None
       [leaf "xmin" xmin; leaf "ymin" ymin; leaf "xmax" xmax; leaf "ymax" ymax]].

Definition sample_annotation (width height : string) (objects : list element)
  : element :=
  Element "annotation" None
    (Element "size" None [leaf "width" width; leaf "height" height] :: objects).

(** The sample documents, named by the text that stands for them. *)
Definition sample_documents : list (string * element) :=
  [("<road/>", sample_annotation "640" "480" [sample_object "D00" "100" "100" "300" "200"]);
   ("<mixed/>", sample_annotation "640" "480"
      [sample_object "D10" "0" "0" "160" "120";
       sample_object "D43" "1" "2" "3" "4";
       sample_object "D40" "320" "240" "640" "480"]);
   ("<unmapped/>", sample_annotation "640" "480" [sample_object "D43" "1" "2" "3" "4"]);
   ("<empty/>", sample_annotation "640" "480" []);
   ("<nosize/>", Element "annotation" None [sample_object "D00" "100" "100" "300" "200"]);
   ("<nan/>", sample_annotation "640" "480" [sample_object "D00" "nan" "100" "300" "200"])].

Definition sample_parse (xml_text : string) : option element :=
  snd <$> List.find (fun d => String.eqb (fst d) xml_text) sample_documents.

#[local] Instance sample_lib : PyLib nat := {|
  ET_parse := sample_parse;
  py_int := sample_int;
  py_float := sample_float;
  shuffle := fun g l => (rev l, S g);
  glob_pattern := fun _ _ => [];
|}.

Definition sample_annotations : path := ["voc"; "roads"; "train"; "annotations"].
Definition sample_images : path := ["voc"; "roads"; "train"; "images"].

Definition sample_dirs : gmap path node :=
  with_dirs sample_images (with_dirs sample_annotations ∅).

(** One annotation [a.xml] holding [doc], and its image [a.jpg]. *)
Definition sample_files (doc : string) : gmap path node :=
  <[sample_annotations ++ ["a.xml"] := File doc]>
    (<[sample_images ++ ["a.jpg"] := File "JPEG"]> sample_dirs).

(** The annotation [a.xml] with two images, [a.jpeg] and [a.png], and the
    output directory of the training files. *)
Definition two_images : gmap path node :=
  <[sample_annotations ++ ["a.xml"] := File "<road/>"]>
    (<[sample_images ++ ["a.jpeg"] := File "JPEG, second extension"]>
       (<[sample_images ++ ["a.png"] := File "PNG, third extension"]>
          (with_dirs ["model"; "roads"; "train"] sample_dirs))).

(** A dataset [roads] with one annotation and no images folder. *)
Definition no_images : gmap path node :=
  <[sample_annotations ++ ["a.xml"] := File "<road/>"]> (with_dirs sample_annotations ∅).

(** The same, with a regular file where the output train directory of
    [roads] is to be made below [model]. *)
Definition blocked_output : gmap path node :=
  <[["model"; "roads"; "train"] := File "not a directory"]>
    (with_dirs ["model"; "roads"] no_images).

(** The world of a fresh run of the sample library on the files [fs]. *)
Definition sample_run (fs : gmap path node) : @world nat := World fs [] 0%nat.

Definition sample_world (doc : string) : @world nat := sample_run (sample_files doc).

(** ** The split in exact arithmetic, for comparison

    [floor(n * (1 - v))] over the rationals, for the number [v] that the
    float [val_split] stands for: [v] is [sm * 2^e] with integers [sm] and
    [e], and [Z.div] rounds down. *)

Definition exact_train_count (n : Z) (val_split : float) : option Z :=
  match Prim2SF val_split with
  | S754_zero _ => Some n
  | S754_finite s m e =>
      let sm := if s then Z.neg m else Z.pos m in
      if 0 <=? e then Some (n * (1 - sm * 2 ^ e))
      else Some ((n * (2 ^ (- e) - sm)) / 2 ^ (- e))
  | S754_infinity _ | S754_nan => None
  end.

(** Ten annotation files. *)
Definition ten_files : list path :=
  (fun name => sample_annotations ++ [name])
    <$> ["0.xml"; "1.xml"; "2.xml"; "3.xml"; "4.xml";
         "5.xml"; "6.xml"; "7.xml"; "8.xml"; "9.xml"].

(** ** What the file-set processor writes, for the statements

    The writes of a run as a list, in the order in which they are made: the
    file system after the run is the one before it with the writes applied. *)

(** [fs] with the nodes of [writes] put in place, the first one first. *)
Definition apply_writes (writes : list (path * node)) (fs : gmap path node)
  : gmap path node :=
  foldl (fun m w => <[w.1 := w.2]> m) fs writes.

Section Writes.
Context {rng : Type} `{!PyLib rng}.

(** The writes of the body of the file loop on the file system [fs]: none
    for an entry that is skipped, the copied image and the label file
    otherwise. *)
Definition file_writes (images_dir output_dir xml_file : path) (fs : gmap path node)
  : result (list (path * node)) :=
  let name_without_ext := splitext_root (basename xml_file) in
  match find_image fs images_dir name_without_ext with
  | None => Ok []
  | Some image_path =>
      do* boxes <- parse_file fs xml_file;
      match boxes with
      | [] => Ok []
      | _ :: _ =>
          let dst := output_dir ++ [basename image_path] in
          match fs !! image_path with
          | Some (File data) =>
              let target := if isdir fs dst then dst ++ [basename image_path] else dst in
              if decide (target = image_path) then Raise SameFileError
              else Ok [(target, File data);
                       (output_dir ++ [name_without_ext +:+ ".txt"],
                        File (label_text boxes))]
          | Some Dir => Raise IsADirectoryError
          | None => Raise FileNotFoundError
          end
      end
  end.

(** The writes of the file loop, each entry on the file system that the
    entries before it have left. *)
Fixpoint set_writes (images_dir output_dir : path) (xml_files : list path)
    (fs : gmap path node) : result (list (path * node)) :=
  match xml_files with
  | [] => Ok []
  | xml_file :: rest =>
      do* first <- file_writes images_dir output_dir xml_file fs;
      do* others <- set_writes images_dir output_dir rest (apply_writes first fs);
      Ok (first ++ others)
  end.

End Writes.

(** Two file systems that the file loop cannot tell apart: they hold the
    same nodes outside the output directory, and the same entries of the
    output directory that carry the name of an image are directories. *)
Definition same_inputs (output_dir : path) (fs fs' : gmap path node) : Prop :=
  (forall p, ~ output_dir `prefix_of` p -> fs !! p = fs' !! p) /\
  (forall name ext, ext ∈ image_extensions ->
     isdir fs (output_dir ++ [name +:+ ext]) = isdir fs' (output_dir ++ [name +:+ ext])).

(** The last character of a string. *)
Fixpoint last_char (s : string) : option ascii :=
  match s with
  | "" => None
  | String c "" => Some c
  | String _ rest => last_char rest
  end.

(** What a run that writes below the directory [d] may do to the file
    system: every node outside [d] stays, every new node is below [d] or is
    a directory on the way to [d], and no path is removed. *)
Definition writes_below (d : path) (fs fs' : gmap path node) : Prop :=
  (forall p n, fs !! p = Some n -> ~ d `prefix_of` p -> fs' !! p = Some n) /\
  (forall p n, fs' !! p = Some n ->
     fs !! p = Some n \/ d `prefix_of` p \/ (n = Dir /\ p `prefix_of` d)) /\
  (forall p, is_Some (fs !! p) -> is_Some (fs' !! p)).

(** Two file systems that hold the same at [d] and below. *)
Definition agree_below (d : path) (fs fs' : gmap path node) : Prop :=
  forall p, d `prefix_of` p -> fs !! p = fs' !! p.

(** The paths that the turns of the subdirectories [subdirs] leave alone:
    those neither below an output directory of one of them nor on the way
    to it. *)
Definition away_from (model_dir : path) (subdirs : list string) (p : path) : Prop :=
  forall subdir, subdir ∈ subdirs ->
    ~ (model_dir ++ [subdir]) `prefix_of` p /\ ~ p `prefix_of` model_dir ++ [subdir].

(** A second sample library: its documents give the image no extent. *)
Definition flat_documents : list (string * element) :=
  [("<flat/>", sample_annotation "0" "480" [sample_object "D00" "100" "100" "300" "200"]);
   ("<thin/>", sample_annotation "640" "0"
      [sample_object "D43" "1" "2" "3" "4";
       sample_object "D20" "100" "100" "300" "200"]);
   ("<bare/>", sample_annotation "0" "0" [sample_object "D43" "1" "2" "3" "4"])].

Definition flat_lib : PyLib nat := {|
  ET_parse := fun xml_text =>
    snd <$> List.find (fun d => String.eqb (fst d) xml_text) flat_documents;
  py_int := sample_int;
  py_float := sample_float;
  shuffle := fun g l => (rev l, S g);
  glob_pattern := fun _ _ => [];
|}.

(** * Proofs *)

(** ** The exception monad *)

Lemma bind_Ok_inv {A B : Type} (c : result A) (k : A -> result B) (b : B) :
  bind c k = Ok b -> exists a, c = Ok a /\ k a = Ok b.
Proof. destruct c as [a|e]; simpl; [eauto | discriminate]. Qed.

Lemma bind_Raise {A B : Type} (c : result A) (k : A -> result B) (e : exn) :
  c = Raise e -> bind c k = Raise e.
Proof. intros ->. reflexivity. Qed.

Lemma attr_of_Ok_inv {A : Type} (x : option A) (a : A) :
  attr_of x = Ok a -> x = Some a.
Proof. destruct x; simpl; congruence. Qed.

(** Takes a hypothesis [H : do* x <- c; k = Ok _] apart, one bind at a time. *)
Tactic Notation "bind_inv" hyp(H) "as" ident(a) ident(Ha) :=
  apply bind_Ok_inv in H; destruct H as (a & Ha & H).

Lemma float_truediv_int_Ok_inv (x : float) (n : Z) (y : float) :
  float_truediv_int x n = Ok y ->
  exists d, float_of_int n = Ok d /\ n <> 0 /\ y = (x / d)%float.
Proof.
  unfold float_truediv_int. intros Hdiv. bind_inv Hdiv as d Hd.
  destruct (Z.eqb_spec n 0); [discriminate|].
  exists d. repeat split; [assumption..|congruence].
Qed.

Lemma float_truediv_int_Ok (x : float) (n : Z) (d : float) :
  float_of_int n = Ok d -> n <> 0 -> float_truediv_int x n = Ok (x / d)%float.
Proof.
  intros Hd Hn. unfold float_truediv_int. rewrite Hd. simpl.
  destruct (Z.eqb_spec n 0); [contradiction | reflexivity].
Qed.

(** ** The model on sample inputs *)

Example format_6f_samples :
  format_6f 0.3125 = "0.312500" /\ format_6f (100 / 480) = "0.208333" /\
  format_6f 2.5 = "2.500000" /\ format_6f (-0x1p-60) = "-0.000000" /\
  format_6f 0x1p70 = "1180591620717411303424.000000" /\
  format_6f (1 / 3) = "0.333333" /\ format_6f (2 / 3) = "0.666667" /\
  format_6f 0x1p-21 = "0.000000" /\ format_6f 0x1.8p-20 = "0.000001" /\
  format_6f nan = "nan" /\ format_6f infinity = "inf" /\
  format_6f neg_infinity = "-inf".
Proof. repeat split; vm_compute; reflexivity. Qed.

Example int_of_float_samples :
  int_of_float 8 = Ok 8 /\ int_of_float 7.5 = Ok 7 /\ int_of_float (-2.5) = Ok (-2) /\
  int_of_float 0x1p70 = Ok (2 ^ 70) /\ int_of_float (-0) = Ok 0 /\
  int_of_float nan = Raise ValueError /\ int_of_float infinity = Raise OverflowError.
Proof. repeat split; vm_compute; reflexivity. Qed.

Example float_of_int_samples :
  float_of_int 640 = Ok 640%float /\ float_of_int 0 = Ok 0%float /\
  float_of_int (2 ^ 53 + 1) = Ok 0x1p53%float /\
  float_of_int (2 ^ 53 + 3) = Ok 0x1.0000000000002p53%float /\
  float_of_int (10 ^ 400) = Raise OverflowError /\
  float_truediv_int 1 0 = Raise ZeroDivisionError.
Proof. repeat split; vm_compute; reflexivity. Qed.

Example splitext_root_samples :
  splitext_root "a.xml" = "a" /\ splitext_root "a.b.xml" = "a.b" /\
  splitext_root ".xml" = ".xml" /\ splitext_root "a" = "a" /\
  splitext_root "a..xml" = "a." /\ splitext_root "..xml" = "..xml".
Proof. repeat split; reflexivity. Qed.

Example slice_samples :
  slice_to [1; 2; 3; 4; 5] 2 = [1; 2] /\ slice_from [1; 2; 3; 4; 5] 2 = [3; 4; 5] /\
  slice_to [1; 2; 3; 4; 5] (-2) = [1; 2; 3] /\ slice_from [1; 2; 3; 4; 5] (-2) = [4; 5] /\
  slice_to [1; 2; 3; 4; 5] 7 = [1; 2; 3; 4; 5] /\ slice_from [1; 2; 3; 4; 5] 7 = [] /\
  slice_to [1; 2; 3; 4; 5] (-7) = [] /\ slice_from [1; 2; 3; 4; 5] (-7) = [1; 2; 3; 4; 5].
Proof. repeat split; reflexivity. Qed.

(** A run of the script on one annotation and its image, the directories
    given as absolute paths: with one file and the default split the image
    and the label file arrive in the validation directory. *)
Example main_sample_run :
  file_after (main ["project"] (Argument true ["voc"]) (Argument true ["model"])
                0x1.999999999999ap-3 (sample_world "<road/>"))
    ["model"; "roads"; "val"; "a.txt"]
  = Some (File ("0 0.312500 0.312500 0.312500 0.208333" +:+ newline)) /\
  file_after (main ["project"] (Argument true ["voc"]) (Argument true ["model"])
                0x1.999999999999ap-3 (sample_world "<road/>"))
    ["model"; "roads"; "val"; "a.jpg"]
  = Some (File "JPEG").
Proof. split; vm_compute; reflexivity. Qed.

(** ** The parser *)

Section ParserFacts.
Context {rng : Type} `{!PyLib rng}.

Lemma float_text_Ok_inv (e : element) (x : float) :
  float_text e = Ok x -> exists s, text e = Some s /\ py_float s = Some x.
Proof.
  unfold float_text. destruct (text e) as [s|]; [|discriminate].
  destruct (py_float s) eqn:Hs; [|discriminate]. intros [= <-]. eauto.
Qed.

Lemma int_text_Ok_inv (e : element) (n : Z) :
  int_text e = Ok n -> exists s, text e = Some s /\ py_int s = Some n.
Proof.
  unfold int_text. destruct (text e) as [s|]; [|discriminate].
  destruct (py_int s) eqn:Hs; [|discriminate]. intros [= <-]. eauto.
Qed.

Lemma read_float_Ok_inv (bbox : element) (field : string) (x : float) :
  bind (attr_of (find [field] bbox)) float_text = Ok x ->
  exists e s, find [field] bbox = Some e /\ text e = Some s /\ py_float s = Some x.
Proof.
  intros Hread. bind_inv Hread as e He. apply attr_of_Ok_inv in He.
  apply float_text_Ok_inv in Hread as (s & ? & ?). eauto.
Qed.

Lemma convert_object_Ok_inv (img_width img_height : Z) (obj : element) (r : option box) :
  convert_object img_width img_height obj = Ok r ->
  match r with
  | None => mapped obj = false
  | Some b => mapped obj = true /\ box_of img_width img_height obj b
  end.
Proof.
  unfold convert_object. intros Hobj. bind_inv Hobj as name Hname.
  apply attr_of_Ok_inv in Hname.
  assert (Hclass : object_class obj = class_lookup (text name))
    by (unfold object_class; rewrite Hname; reflexivity).
  unfold mapped. rewrite Hclass.
  destruct (class_lookup (text name)) as [class_id|]; [|by injection Hobj as <-].
  bind_inv Hobj as bbox Hbbox. apply attr_of_Ok_inv in Hbbox.
  bind_inv Hobj as xmin H1. apply read_float_Ok_inv in H1 as (e1 & s1 & He1 & Ht1 & Hf1).
  bind_inv Hobj as ymin H2. apply read_float_Ok_inv in H2 as (e2 & s2 & He2 & Ht2 & Hf2).
  bind_inv Hobj as xmax H3. apply read_float_Ok_inv in H3 as (e3 & s3 & He3 & Ht3 & Hf3).
  bind_inv Hobj as ymax H4. apply read_float_Ok_inv in H4 as (e4 & s4 & He4 & Ht4 & Hf4).
  bind_inv Hobj as xc H5. apply float_truediv_int_Ok_inv in H5 as (W & HW & HW0 & ->).
  bind_inv Hobj as yc H6. apply float_truediv_int_Ok_inv in H6 as (H' & HH & HH0 & ->).
  bind_inv Hobj as wd H7. apply float_truediv_int_Ok_inv in H7 as (W' & HW' & _ & ->).
  bind_inv Hobj as ht H8. apply float_truediv_int_Ok_inv in H8 as (H'' & HH' & _ & ->).
  rewrite HW in HW'. injection HW' as <-. rewrite HH in HH'. injection HH' as <-.
  injection Hobj as <-. split; [reflexivity|].
  exists class_id, xmin, ymin, xmax, ymax, W, H'.
  unfold bndbox_value. rewrite Hbbox. simpl.
  rewrite He1, He2, He3, He4. simpl. rewrite Ht1, Ht2, Ht3, Ht4. simpl.
  repeat split; assumption.
Qed.

Lemma convert_objects_spec (img_width img_height : Z) (objs : list element)
    (acc boxes : list box) :
  convert_objects img_width img_height objs acc = Ok boxes ->
  exists bs, boxes = acc ++ bs /\
    Forall2 (box_of img_width img_height) (List.filter mapped objs) bs.
Proof.
  revert acc. induction objs as [|obj objs IH]; intros acc; simpl.
  - intros [= <-]. exists []. split; [by rewrite app_nil_r | constructor].
  - intros Hloop. bind_inv Hloop as r Hr. apply convert_object_Ok_inv in Hr.
    apply IH in Hloop as (bs & -> & Hbs). destruct r as [b|].
    + destruct Hr as [-> Hb]. exists (b :: bs).
      split; [by rewrite <- app_assoc | by constructor].
    + rewrite Hr. by exists bs.
Qed.

(** An object that the loop skips leaves no trace in its result. *)
Lemma convert_objects_skip (img_width img_height : Z) (before after : list element)
    (obj : element) (acc : list box) :
  convert_object img_width img_height obj = Ok None ->
  convert_objects img_width img_height (before ++ obj :: after) acc
  = convert_objects img_width img_height (before ++ after) acc.
Proof.
  intros Hskip. revert acc. induction before as [|o before IH]; intros acc; simpl.
  - by rewrite Hskip.
  - destruct (convert_object img_width img_height o) as [r|e]; simpl; [apply IH | done].
Qed.

Lemma convert_object_unmapped (img_width img_height : Z) (obj name : element) :
  find ["name"] obj = Some name -> class_lookup (text name) = None ->
  convert_object img_width img_height obj = Ok None.
Proof. intros Hname Hclass. unfold convert_object. rewrite Hname. simpl. by rewrite Hclass. Qed.

Lemma parse_root_spec (root : element) (boxes : list box) :
  parse_root root = Ok boxes ->
  exists img_width img_height,
    image_size root "width" = Some img_width /\
    image_size root "height" = Some img_height /\
    Forall2 (box_of img_width img_height)
      (List.filter mapped (findall "object" root)) boxes.
Proof.
  unfold parse_root. intros Hparse.
  bind_inv Hparse as img_width Hw. bind_inv Hw as we Hwe.
  apply attr_of_Ok_inv in Hwe. apply int_text_Ok_inv in Hw as (ws & Hwt & Hws).
  bind_inv Hparse as img_height Hh. bind_inv Hh as he Hhe.
  apply attr_of_Ok_inv in Hhe. apply int_text_Ok_inv in Hh as (hs & Hht & Hhs).
  apply convert_objects_spec in Hparse as (bs & -> & Hbs).
  exists img_width, img_height. unfold image_size.
  rewrite Hwe, Hhe. simpl. rewrite Hwt, Hht. simpl. by repeat split.
Qed.

Lemma parse_voc_annotation_Ok_inv (xml_text : string) (boxes : list box) :
  parse_voc_annotation xml_text = Ok boxes ->
  exists root, ET_parse xml_text = Some root /\ parse_root root = Ok boxes.
Proof.
  unfold parse_voc_annotation. destruct (ET_parse xml_text) as [root|]; [eauto | discriminate].
Qed.

Lemma bndbox_value_Some_inv (obj : element) (field : string) (x : float) :
  bndbox_value obj field = Some x ->
  exists bbox, find ["bndbox"] obj = Some bbox /\
    bind (attr_of (find [field] bbox)) float_text = Ok x.
Proof.
  unfold bndbox_value. intros Hv.
  destruct (find ["bndbox"] obj) as [bbox|]; [|discriminate]. simpl in Hv.
  exists bbox. split; [reflexivity|].
  destruct (find [field] bbox) as [e|]; [|discriminate]. simpl in Hv.
  unfold float_text. destruct (text e) as [s|] eqn:Ht; [|discriminate].
  simpl in *. by rewrite Ht, Hv.
Qed.

(** The loop keeps a mapped object whose box is well formed, when the image
    dimensions are not zero and fit a float. *)
Lemma convert_object_mapped (img_width img_height class_id : Z) (obj : element)
    (xmin ymin xmax ymax W H' : float) :
  object_class obj = Some class_id ->
  bndbox_value obj "xmin" = Some xmin -> bndbox_value obj "ymin" = Some ymin ->
  bndbox_value obj "xmax" = Some xmax -> bndbox_value obj "ymax" = Some ymax ->
  float_of_int img_width = Ok W -> float_of_int img_height = Ok H' ->
  img_width <> 0 -> img_height <> 0 ->
  convert_object img_width img_height obj
  = Ok (Some (class_id, ((xmin + xmax) / 2 / W)%float, ((ymin + ymax) / 2 / H')%float,
              ((xmax - xmin) / W)%float, ((ymax - ymin) / H')%float)).
Proof.
  intros Hclass H1 H2 H3 H4 HW HH HW0 HH0.
  apply bndbox_value_Some_inv in H1 as (bbox & Hbbox & H1).
  apply bndbox_value_Some_inv in H2 as (? & Hb2 & H2).
  apply bndbox_value_Some_inv in H3 as (? & Hb3 & H3).
  apply bndbox_value_Some_inv in H4 as (? & Hb4 & H4).
  rewrite Hbbox in Hb2, Hb3, Hb4. simplify_eq.
  unfold object_class in Hclass. unfold convert_object.
  destruct (find ["name"] obj) as [name|]; [|discriminate]. simpl in *.
  rewrite Hclass, Hbbox. simpl. rewrite H1, H2, H3, H4. simpl.
  by rewrite !(float_truediv_int_Ok _ _ _ HW HW0), !(float_truediv_int_Ok _ _ _ HH HH0).
Qed.

Lemma image_size_Some_inv (root : element) (field : string) (n : Z) :
  image_size root field = Some n ->
  bind (attr_of (find ["size"; field] root)) int_text = Ok n.
Proof.
  unfold image_size. intros Hsize.
  destruct (find ["size"; field] root) as [e|]; [|discriminate]. simpl in *.
  unfold int_text. destruct (text e) as [s|] eqn:Ht; [|discriminate].
  simpl in *. by rewrite Hsize.
Qed.

Lemma object_class_label (obj : element) (class_id : Z) :
  object_class obj = Some class_id ->
  exists label, object_label obj = Some label /\ class_mapping !! label = Some class_id.
Proof.
  unfold object_class, object_label, class_lookup.
  destruct (find ["name"] obj) as [name|]; [|discriminate]. simpl.
  destruct (text name) as [label|]; [|discriminate]. simpl. eauto.
Qed.

Lemma class_mapping_table (label : string) (class_id : Z) :
  class_mapping !! label = Some class_id <->
  In (label, class_id) [("D00", 0); ("D10", 1); ("D20", 2); ("D40", 3)].
Proof.
  unfold class_mapping. split.
  - intros Hlookup.
    repeat (apply lookup_insert_Some in Hlookup as [[<- <-]|[_ Hlookup]];
            [simpl; tauto|]).
    apply lookup_singleton_Some in Hlookup as [<- <-]. simpl. tauto.
  - simpl. intros [[= <- <-]|[[= <- <-]|[[= <- <-]|[[= <- <-]|[]]]]]; reflexivity.
Qed.

Lemma findall_without (t r : string) (x : option string) (before after : list element)
    (obj : element) :
  tag obj <> t ->
  findall t (Element r x (before ++ obj :: after)) = findall t (Element r x (before ++ after)).
Proof.
  intros Htag. unfold findall. simpl.
  rewrite !filter_app, filter_cons. by destruct (decide (tag obj = t)).
Qed.

Lemma findall_with (r : string) (x : option string) (before after : list element)
    (obj : element) :
  findall (tag obj) (Element r x (before ++ obj :: after))
  = findall (tag obj) (Element r x before) ++ obj :: findall (tag obj) (Element r x after).
Proof.
  unfold findall. simpl. rewrite filter_app, filter_cons.
  by destruct (decide (tag obj = tag obj)).
Qed.

(** An object with an unmapped label can be taken out of the document
    without any change to what the parser returns or raises. *)
Lemma parse_root_skip (r : string) (x : option string) (before after : list element)
    (obj name : element) :
  tag obj = "object" ->
  find ["name"] obj = Some name -> class_lookup (text name) = None ->
  parse_root (Element r x (before ++ obj :: after))
  = parse_root (Element r x (before ++ after)).
Proof.
  intros Htag Hname Hclass. unfold parse_root, find. simpl.
  rewrite !app_nil_r.
  rewrite (findall_without "size") by (rewrite Htag; discriminate).
  rewrite <- Htag, findall_with.
  assert (Hall : findall (tag obj) (Element r x (before ++ after))
                 = findall (tag obj) (Element r x before)
                   ++ findall (tag obj) (Element r x after))
    by (unfold findall; simpl; apply filter_app).
  rewrite Hall.
  destruct (bind (attr_of (head (findall "size" (Element r x (before ++ after))
                                 ≫= findall "width"))) int_text) as [w|]; [|done].
  simpl.
  destruct (bind (attr_of (head (findall "size" (Element r x (before ++ after))
                                 ≫= findall "height"))) int_text) as [h|]; [|done].
  simpl. apply convert_objects_skip. by eapply convert_object_unmapped.
Qed.

End ParserFacts.

(** ** When the parser returns *)

Section ParserRuns.
Context {rng : Type} `{!PyLib rng}.

Lemma convert_objects_raises (img_width img_height : Z) (before after : list element)
    (obj : element) (acc : list box) (e : exn) :
  (forall o, o ∈ before ->
     exists name, find ["name"] o = Some name /\ class_lookup (text name) = None) ->
  convert_object img_width img_height obj = Raise e ->
  convert_objects img_width img_height (before ++ obj :: after) acc = Raise e.
Proof.
  intros Hbefore Hobj. induction before as [|o before IH]; simpl.
  - by rewrite Hobj.
  - destruct (Hbefore o ltac:(left)) as (name & Hname & Hclass).
    rewrite (convert_object_unmapped _ _ _ _ Hname Hclass). simpl.
    apply IH. intros o' Ho'. apply Hbefore. by right.
Qed.

Lemma convert_object_zero_size (img_width img_height class_id : Z) (obj : element)
    (xmin ymin xmax ymax : float) :
  object_class obj = Some class_id ->
  bndbox_value obj "xmin" = Some xmin -> bndbox_value obj "ymin" = Some ymin ->
  bndbox_value obj "xmax" = Some xmax -> bndbox_value obj "ymax" = Some ymax ->
  img_width = 0 \/ (img_height = 0 /\ exists W, float_of_int img_width = Ok W) ->
  convert_object img_width img_height obj = Raise ZeroDivisionError.
Proof.
  intros Hclass H1 H2 H3 H4 Hzero.
  apply bndbox_value_Some_inv in H1 as (bbox & Hbbox & H1).
  apply bndbox_value_Some_inv in H2 as (? & Hb2 & H2).
  apply bndbox_value_Some_inv in H3 as (? & Hb3 & H3).
  apply bndbox_value_Some_inv in H4 as (? & Hb4 & H4).
  rewrite Hbbox in Hb2, Hb3, Hb4. simplify_eq.
  unfold object_class in Hclass. unfold convert_object.
  destruct (find ["name"] obj) as [name|]; [|discriminate]. simpl in *.
  rewrite Hclass, Hbbox. simpl. rewrite H1, H2, H3, H4. simpl.
  destruct Hzero as [-> | (-> & W & HW)]; [reflexivity|].
  destruct (Z.eq_dec img_width 0) as [-> | Hnz]; [reflexivity|].
  by rewrite (float_truediv_int_Ok _ _ _ HW Hnz).
Qed.

Lemma convert_objects_run (img_width img_height : Z) (W H' : float) (objs : list element)
    (acc : list box) :
  float_of_int img_width = Ok W -> float_of_int img_height = Ok H' ->
  img_width <> 0 -> img_height <> 0 ->
  (forall obj, obj ∈ objs ->
     is_Some (find ["name"] obj) /\
     (mapped obj = true ->
      forall field, field ∈ ["xmin"; "ymin"; "xmax"; "ymax"] ->
        is_Some (bndbox_value obj field))) ->
  exists boxes,
    convert_objects img_width img_height objs acc = Ok (acc ++ boxes) /\
    length boxes = length (List.filter mapped objs).
Proof.
  intros HW HH HW0 HH0. revert acc. induction objs as [|obj objs IH]; intros acc Hobjs.
  - exists []. by rewrite app_nil_r.
  - destruct (Hobjs obj ltac:(left)) as [[name Hname] Hfields].
    assert (Hrest : forall o, o ∈ objs ->
              is_Some (find ["name"] o) /\
              (mapped o = true ->
               forall field, field ∈ ["xmin"; "ymin"; "xmax"; "ymax"] ->
                 is_Some (bndbox_value o field)))
      by (intros o Ho; apply Hobjs; by right).
    destruct (object_class obj) as [class_id|] eqn:Hclass.
    + assert (Hmapped : mapped obj = true) by (unfold mapped; by rewrite Hclass).
      destruct (Hfields Hmapped "xmin") as [xmin H1]; [apply list_elem_of_In; simpl; tauto|].
      destruct (Hfields Hmapped "ymin") as [ymin H2]; [apply list_elem_of_In; simpl; tauto|].
      destruct (Hfields Hmapped "xmax") as [xmax H3]; [apply list_elem_of_In; simpl; tauto|].
      destruct (Hfields Hmapped "ymax") as [ymax H4]; [apply list_elem_of_In; simpl; tauto|].
      pose proof (convert_object_mapped _ _ _ _ _ _ _ _ _ _ Hclass H1 H2 H3 H4 HW HH HW0 HH0)
        as Hobj.
      set (b := (class_id, ((xmin + xmax) / 2 / W)%float, ((ymin + ymax) / 2 / H')%float,
                 ((xmax - xmin) / W)%float, ((ymax - ymin) / H')%float)) in *.
      destruct (IH (acc ++ [b]) Hrest) as (boxes & Hrun & Hlen).
      exists (b :: boxes). split.
      * cbn [convert_objects]. rewrite Hobj. cbn [bind].
        etrans; [exact Hrun|]. by rewrite <- app_assoc.
      * cbn [List.filter]. rewrite Hmapped. simpl. by rewrite Hlen.
    + assert (Hmapped : mapped obj = false) by (unfold mapped; by rewrite Hclass).
      unfold object_class in Hclass. rewrite Hname in Hclass. simpl in Hclass.
      destruct (IH acc Hrest) as (boxes & Hrun & Hlen). exists boxes. split.
      * cbn [convert_objects]. rewrite (convert_object_unmapped _ _ _ _ Hname Hclass).
        exact Hrun.
      * cbn [List.filter]. by rewrite Hmapped.
Qed.

End ParserRuns.

Lemma sample_label_text (class_id : Z) :
  label_text [(class_id, ((100 + 300) / 2 / 640)%float, ((100 + 200) / 2 / 480)%float,
               ((300 - 100) / 640)%float, ((200 - 100) / 480)%float)]
  = str_int class_id +:+ " 0.312500 0.312500 0.312500 0.208333" +:+ newline.
Proof.
  assert (Hx : format_6f ((100 + 300) / 2 / 640) = "0.312500") by (vm_compute; reflexivity).
  assert (Hy : format_6f ((100 + 200) / 2 / 480) = "0.312500") by (vm_compute; reflexivity).
  assert (Hw : format_6f ((300 - 100) / 640) = "0.312500") by (vm_compute; reflexivity).
  assert (Hh : format_6f ((200 - 100) / 480) = "0.208333") by (vm_compute; reflexivity).
  unfold label_text, label_line, foldl. rewrite Hx, Hy, Hw, Hh. reflexivity.
Qed.

(** C1.  Every box that the parser emits is the box of a retained object of
    the document, in order, and its four numbers are the formulas
    x_center = (xmin + xmax) / 2 / image_width,
    y_center = (ymin + ymax) / 2 / image_height,
    width = (xmax - xmin) / image_width, height = (ymax - ymin) / image_height,
    evaluated in float arithmetic.  For a 640 x 480 image with the one box
    (xmin=100, ymin=100, xmax=300, ymax=200) the parser returns one box and
    its label line is "<id> 0.312500 0.312500 0.312500 0.208333". *)
Theorem parse_voc_annotation_normalized_boxes `{PyLib rng} :
  (forall (xml_text : string) (boxes : list box),
      parse_voc_annotation xml_text = Ok boxes ->
      exists root img_width img_height,
        ET_parse xml_text = Some root /\
        image_size root "width" = Some img_width /\
        image_size root "height" = Some img_height /\
        Forall2
          (fun obj b =>
             exists class_id xmin ymin xmax ymax W H',
               object_class obj = Some class_id /\
               bndbox_value obj "xmin" = Some xmin /\
               bndbox_value obj "ymin" = Some ymin /\
               bndbox_value obj "xmax" = Some xmax /\
               bndbox_value obj "ymax" = Some ymax /\
               float_of_int img_width = Ok W /\ float_of_int img_height = Ok H' /\
               b = (class_id,
                    ((xmin + xmax) / 2 / W)%float, ((ymin + ymax) / 2 / H')%float,
                    ((xmax - xmin) / W)%float, ((ymax - ymin) / H')%float))
          (List.filter mapped (findall "object" root)) boxes)
  /\
  (forall (xml_text : string) (root obj : element) (class_id : Z),
      ET_parse xml_text = Some root ->
      image_size root "width" = Some 640 -> image_size root "height" = Some 480 ->
      findall "object" root = [obj] ->
      object_class obj = Some class_id ->
      bndbox_value obj "xmin" = Some 100%float ->
      bndbox_value obj "ymin" = Some 100%float ->
      bndbox_value obj "xmax" = Some 300%float ->
      bndbox_value obj "ymax" = Some 200%float ->
      exists b,
        parse_voc_annotation xml_text = Ok [b] /\
        label_text [b]
        = str_int class_id +:+ " 0.312500 0.312500 0.312500 0.208333" +:+ newline).
Proof.
  split.
  - intros xml_text boxes Hparse.
    apply parse_voc_annotation_Ok_inv in Hparse as (root & Hroot & Hparse).
    apply parse_root_spec in Hparse as (img_width & img_height & Hw & Hh & Hboxes).
    exists root, img_width, img_height. repeat split; [assumption..|].
    eapply Forall2_impl; [exact Hboxes|].
    intros obj b (class_id & xmin & ymin & xmax & ymax & W & H' & Hb).
    exists class_id, xmin, ymin, xmax, ymax, W, H'. tauto.
  - intros xml_text root obj class_id Hroot Hw Hh Hobjs Hclass Hx1 Hy1 Hx2 Hy2.
    exists (class_id, ((100 + 300) / 2 / 640)%float, ((100 + 200) / 2 / 480)%float,
            ((300 - 100) / 640)%float, ((200 - 100) / 480)%float).
    split; [|apply sample_label_text].
    + unfold parse_voc_annotation, parse_root. rewrite Hroot, Hobjs.
      rewrite (image_size_Some_inv _ _ _ Hw), (image_size_Some_inv _ _ _ Hh). simpl.
      rewrite (convert_object_mapped 640 480 class_id obj _ _ _ _
                 640%float 480%float Hclass Hx1 Hy1 Hx2 Hy2)
        by (reflexivity || discriminate).
      reflexivity.
Qed.

(** C4.  The class mapping is {D00:0, D10:1, D20:2, D40:3}.  What the parser
    returns is, in document order, one box for each object whose label is a
    key of the mapping, carrying the id of that label.  An object whose label
    is no key can be taken out of the document without any change to what the
    parser returns: it adds no entry and raises nothing.  And the parser does
    return on a well-formed document: one whose width and height can be read,
    are not zero and fit a float, whose objects all have a name, and in which
    the four coordinates of every object with a mapped label can be read. *)
Theorem parse_voc_annotation_keeps_mapped_objects `{PyLib rng} :
  (forall (label : string) (class_id : Z),
      class_mapping !! label = Some class_id <->
      In (label, class_id) [("D00", 0); ("D10", 1); ("D20", 2); ("D40", 3)])
  /\
  (forall (xml_text : string) (boxes : list box),
      parse_voc_annotation xml_text = Ok boxes ->
      exists root,
        ET_parse xml_text = Some root /\
        Forall2
          (fun obj b =>
             exists label, object_label obj = Some label /\
                           class_mapping !! label = Some b.1.1.1.1)
          (List.filter mapped (findall "object" root)) boxes)
  /\
  (forall (obj : element),
      mapped obj = true <->
      exists label, object_label obj = Some label /\ is_Some (class_mapping !! label))
  /\
  (forall (xml_text without : string) (r : string) (x : option string)
          (before after : list element) (obj name : element),
      ET_parse xml_text = Some (Element r x (before ++ obj :: after)) ->
      ET_parse without = Some (Element r x (before ++ after)) ->
      tag obj = "object" ->
      find ["name"] obj = Some name ->
      class_lookup (text name) = None ->
      parse_voc_annotation xml_text = parse_voc_annotation without)
  /\
  (forall (xml_text : string) (root : element) (img_width img_height : Z) (W H' : float),
      ET_parse xml_text = Some root ->
      image_size root "width" = Some img_width ->
      image_size root "height" = Some img_height ->
      float_of_int img_width = Ok W -> float_of_int img_height = Ok H' ->
      img_width <> 0 -> img_height <> 0 ->
      (forall obj, obj ∈ findall "object" root ->
         is_Some (find ["name"] obj) /\
         (mapped obj = true ->
          forall field, field ∈ ["xmin"; "ymin"; "xmax"; "ymax"] ->
            is_Some (bndbox_value obj field))) ->
      exists boxes,
        parse_voc_annotation xml_text = Ok boxes /\
        Forall2
          (fun obj b =>
             exists label, object_label obj = Some label /\
                           class_mapping !! label = Some b.1.1.1.1)
          (List.filter mapped (findall "object" root)) boxes).
Proof.
  assert (Hkept : forall (xml_text : string) (boxes : list box),
             parse_voc_annotation xml_text = Ok boxes ->
             exists root,
               ET_parse xml_text = Some root /\
               Forall2
                 (fun obj b =>
                    exists label, object_label obj = Some label /\
                                  class_mapping !! label = Some b.1.1.1.1)
                 (List.filter mapped (findall "object" root)) boxes).
  { intros xml_text boxes Hparse.
    apply parse_voc_annotation_Ok_inv in Hparse as (root & Hroot & Hparse).
    apply parse_root_spec in Hparse as (img_width & img_height & _ & _ & Hboxes).
    exists root. split; [assumption|].
    eapply Forall2_impl; [exact Hboxes|].
    intros obj b (class_id & xmin & ymin & xmax & ymax & W & H' & Hclass & Hb).
    apply object_class_label in Hclass as (label & Hlabel & Hid).
    exists label. split; [assumption|].
    destruct Hb as (_ & _ & _ & _ & _ & _ & _ & _ & ->). exact Hid. }
  split; [apply class_mapping_table|]. split; [exact Hkept|]. split; [|split].
  - intros obj. unfold mapped, object_class, object_label, class_lookup.
    destruct (find ["name"] obj) as [name|]; simpl.
    + destruct (text name) as [label|]; simpl.
      * destruct (class_mapping !! label) as [class_id|] eqn:Hid.
        -- split; [|done]. intros _. exists label. by rewrite Hid.
        -- split; [done|]. intros (label' & [= <-] & Hsome).
           rewrite Hid in Hsome. by destruct Hsome.
      * split; [done|]. by intros (label & ? & _).
    + split; [done|]. by intros (label & ? & _).
  - intros xml_text without r x before after obj name Hwith Hwithout Htag Hname Hclass.
    unfold parse_voc_annotation. rewrite Hwith, Hwithout.
    by eapply parse_root_skip.
  - intros xml_text root img_width img_height W H' Hroot Hw Hh HW HH HW0 HH0 Hobjs.
    destruct (convert_objects_run img_width img_height W H' (findall "object" root) []
                HW HH HW0 HH0 Hobjs) as (boxes & Hrun & _).
    assert (Hparse : parse_voc_annotation xml_text = Ok boxes).
    { unfold parse_voc_annotation, parse_root. rewrite Hroot.
      by rewrite (image_size_Some_inv _ _ _ Hw), (image_size_Some_inv _ _ _ Hh). }
    exists boxes. split; [exact Hparse|].
    destruct (Hkept _ _ Hparse) as (root' & Hroot' & Hboxes).
    rewrite Hroot in Hroot'. by injection Hroot' as <-.
Qed.

Lemma parse_voc_annotation_normalized_boxes_witness :
  (exists root img_width img_height,
      sample_parse "<mixed/>" = Some root /\
      image_size root "width" = Some img_width /\
      image_size root "height" = Some img_height /\
      Forall2
        (fun obj b =>
           exists class_id xmin ymin xmax ymax W H',
             object_class obj = Some class_id /\
             bndbox_value obj "xmin" = Some xmin /\
             bndbox_value obj "ymin" = Some ymin /\
             bndbox_value obj "xmax" = Some xmax /\
             bndbox_value obj "ymax" = Some ymax /\
             float_of_int img_width = Ok W /\ float_of_int img_height = Ok H' /\
             b = (class_id,
                  ((xmin + xmax) / 2 / W)%float, ((ymin + ymax) / 2 / H')%float,
                  ((xmax - xmin) / W)%float, ((ymax - ymin) / H')%float))
        (List.filter mapped (findall "object" root))
        [(1, 0.125%float, 0.125%float, 0.25%float, 0.25%float);
         (3, 0.75%float, 0.75%float, 0.5%float, 0.5%float)])
  /\
  (exists b,
      parse_voc_annotation "<road/>" = Ok [b] /\
      label_text [b] = "0 0.312500 0.312500 0.312500 0.208333" +:+ newline).
Proof.
  destruct (@parse_voc_annotation_normalized_boxes nat sample_lib) as [Hall Hsample].
  split.
  - apply (Hall "<mixed/>"). vm_compute. reflexivity.
  - apply (Hsample "<road/>"
             (sample_annotation "640" "480" [sample_object "D00" "100" "100" "300" "200"])
             (sample_object "D00" "100" "100" "300" "200") 0);
      vm_compute; reflexivity.
Defined.

Lemma parse_voc_annotation_keeps_mapped_objects_witness :
  (exists root,
      sample_parse "<mixed/>" = Some root /\
      Forall2
        (fun obj b =>
           exists label, object_label obj = Some label /\
                         class_mapping !! label = Some b.1.1.1.1)
        (List.filter mapped (findall "object" root))
        [(1, 0.125%float, 0.125%float, 0.25%float, 0.25%float);
         (3, 0.75%float, 0.75%float, 0.5%float, 0.5%float)])
  /\
  parse_voc_annotation "<unmapped/>"
  = @parse_voc_annotation nat sample_lib "<empty/>"
  /\
  (exists boxes,
      parse_voc_annotation "<mixed/>" = Ok boxes /\
      Forall2
        (fun obj b =>
           exists label, object_label obj = Some label /\
                         class_mapping !! label = Some b.1.1.1.1)
        (List.filter mapped
           (findall "object"
              (sample_annotation "640" "480"
                 [sample_object "D10" "0" "0" "160" "120";
                  sample_object "D43" "1" "2" "3" "4";
                  sample_object "D40" "320" "240" "640" "480"])))
        boxes).
Proof.
  destruct (@parse_voc_annotation_keeps_mapped_objects nat sample_lib)
    as (_ & Hkept & _ & Hskip & Hreturns).
  split; [|split].
  - apply (Hkept "<mixed/>"). vm_compute. reflexivity.
  - apply (Hskip "<unmapped/>" "<empty/>" "annotation" None
             [Element "size" None [leaf "width" "640"; leaf "height" "480"]] []
             (sample_object "D43" "1" "2" "3" "4") (leaf "name" "D43"));
      vm_compute; reflexivity.
  - apply (Hreturns "<mixed/>"
             (sample_annotation "640" "480"
                [sample_object "D10" "0" "0" "160" "120";
                 sample_object "D43" "1" "2" "3" "4";
                 sample_object "D40" "320" "240" "640" "480"])
             640 480 640%float 480%float);
      try (vm_compute; reflexivity); try discriminate.
    intros obj Hobj. apply list_elem_of_In in Hobj. vm_compute in Hobj.
    destruct Hobj as [<-|[<-|[<-|[]]]]; (split; [by eexists|]); intros Hmapped;
      try (vm_compute in Hmapped; discriminate Hmapped);
      intros field Hfield; apply list_elem_of_In in Hfield; vm_compute in Hfield;
      destruct Hfield as [<-|[<-|[<-|[<-|[]]]]]; vm_compute; eexists; reflexivity.
Defined.

(** What the parser returns on the sample document with three objects, the
    second of them with a label that is not in the mapping. *)
Example parse_voc_annotation_mixed_sample :
  parse_voc_annotation "<mixed/>"
  = Ok [(1, 0.125%float, 0.125%float, 0.25%float, 0.25%float);
        (3, 0.75%float, 0.75%float, 0.5%float, 0.5%float)].
Proof. vm_compute. reflexivity. Qed.

(** ** Label lines *)

Lemma append_nil_l (s : string) : "" +:+ s = s.
Proof. reflexivity. Qed.

Lemma append_cons (c : ascii) (a b : string) : String c a +:+ b = String c (a +:+ b).
Proof. reflexivity. Qed.























Example fixed_point6_samples :
  fixed_point6 "0.312500" = true /\ fixed_point6 "-0.000000" = true /\
  fixed_point6 "12.000001" = true /\ fixed_point6 "0.3125" = false /\
  fixed_point6 ".312500" = false /\ fixed_point6 "0.3125000" = false /\
  fixed_point6 "3e-07" = false /\ fixed_point6 "nan" = false /\
  fixed_point6 "inf" = false /\ fixed_point6 "-inf" = false.
Proof. repeat split; reflexivity. Qed.


(** ** The file-set processor *)

Section ProcessorFacts.
Context {rng : Type} `{!PyLib rng}.

Lemma process_file_no_image (images_dir output_dir xml_file : path) (w : @world rng) :
  find_image (w_fs w) images_dir (splitext_root (basename xml_file)) = None ->
  process_file images_dir output_dir xml_file w
  = Ok (print (WarnNoImage (basename xml_file)) w).
Proof. intros Hnone. unfold process_file. by rewrite Hnone. Qed.

Lemma process_file_no_boxes (images_dir output_dir xml_file image_path : path)
    (w : @world rng) :
  find_image (w_fs w) images_dir (splitext_root (basename xml_file)) = Some image_path ->
  parse_file (w_fs w) xml_file = Ok [] ->
  process_file images_dir output_dir xml_file w
  = Ok (print (WarnNoBoxes (basename xml_file)) w).
Proof. intros Himage Hparse. unfold process_file. by rewrite Himage, Hparse. Qed.

Lemma process_file_raises (images_dir output_dir xml_file image_path : path)
    (w : @world rng) (e : exn) :
  find_image (w_fs w) images_dir (splitext_root (basename xml_file)) = Some image_path ->
  parse_file (w_fs w) xml_file = Raise e ->
  process_file images_dir output_dir xml_file w = Raise e.
Proof. intros Himage Hparse. unfold process_file. by rewrite Himage, Hparse. Qed.


End ProcessorFacts.




(** ** The split into training and validation files *)

Lemma slice_app {A : Type} (l : list A) (k : Z) : slice_to l k ++ slice_from l k = l.
Proof. apply take_drop. Qed.

Lemma slice_lengths {A : Type} (l : list A) (k : Z) :
  (length (slice_to l k) + length (slice_from l k) = length l)%nat.
Proof. rewrite <- length_app, slice_app. reflexivity. Qed.

Lemma slice_index_in_range {A : Type} (l : list A) (k : Z) :
  0 <= k <= Z.of_nat (length l) -> slice_index l k = Z.to_nat k.
Proof.
  intros Hk. unfold slice_index. destruct (Z.ltb_spec k 0); [lia|]. f_equal. lia.
Qed.

Lemma split_files_Ok_inv (shuffled train_files val_files : list path) (val_split : float) :
  split_files shuffled val_split = Ok (train_files, val_files) ->
  exists n train_count,
    float_of_int (Z.of_nat (length shuffled)) = Ok n /\
    int_of_float (n * (1 - val_split)) = Ok train_count /\
    train_files = slice_to shuffled train_count /\
    val_files = slice_from shuffled train_count.
Proof.
  unfold split_files, train_count_of, int_mul_float. intros Hsplit.
  bind_inv Hsplit as train_count Hcount. bind_inv Hcount as product Hproduct.
  bind_inv Hproduct as n Hn. injection Hproduct as <-. injection Hsplit as <- <-.
  by exists n, train_count.
Qed.

Lemma int_of_float_finite (x : float) :
  finite x = true -> exists k, int_of_float x = Ok k.
Proof.
  unfold finite, int_of_float. destruct (Prim2SF x); [eauto | done | done | eauto].
Qed.

Lemma int_of_float_not_finite (x : float) :
  finite x = false ->
  exists e, int_of_float x = Raise e /\ (e = OverflowError \/ e = ValueError).
Proof.
  unfold finite, int_of_float. destruct (Prim2SF x); [done | eauto | eauto | done].
Qed.

(** C3, as the code has it.  [train_count] is the float product
    [N * (1 - val_split)] truncated toward zero; the training files are the
    slice of the shuffled list up to [train_count] and the validation files
    the slice from it, and their sizes add up to [N].  When
    [0 <= train_count <= N] the training files are the first [train_count]
    files of the shuffled list and the validation files are the other
    [N - train_count]. *)
Theorem split_files_sizes (shuffled train_files val_files : list path)
    (val_split : float) :
  split_files shuffled val_split = Ok (train_files, val_files) ->
  exists n train_count,
    float_of_int (Z.of_nat (length shuffled)) = Ok n /\
    int_of_float (n * (1 - val_split)) = Ok train_count /\
    train_files = slice_to shuffled train_count /\
    val_files = slice_from shuffled train_count /\
    (length train_files + length val_files = length shuffled)%nat /\
    (0 <= train_count <= Z.of_nat (length shuffled) ->
     train_files = take (Z.to_nat train_count) shuffled /\
     val_files = drop (Z.to_nat train_count) shuffled /\
     Z.of_nat (length train_files) = train_count /\
     Z.of_nat (length val_files) = Z.of_nat (length shuffled) - train_count).
Proof.
  intros Hsplit.
  apply split_files_Ok_inv in Hsplit as (n & train_count & Hn & Hcount & -> & ->).
  exists n, train_count. repeat split; try assumption.
  - apply slice_lengths.
  - unfold slice_to. by rewrite slice_index_in_range.
  - unfold slice_from. by rewrite slice_index_in_range.
  - unfold slice_to. rewrite slice_index_in_range, length_take by assumption. lia.
  - unfold slice_from. rewrite slice_index_in_range, length_drop by assumption. lia.
Qed.

Lemma split_files_sizes_witness :
  exists n train_count,
    float_of_int (Z.of_nat (length ten_files)) = Ok n /\
    int_of_float (n * (1 - 0.25)) = Ok train_count /\
    take 7 ten_files = slice_to ten_files train_count /\
    drop 7 ten_files = slice_from ten_files train_count /\
    (length (take 7 ten_files) + length (drop 7 ten_files) = length ten_files)%nat /\
    (0 <= train_count <= Z.of_nat (length ten_files) ->
     take 7 ten_files = take (Z.to_nat train_count) ten_files /\
     drop 7 ten_files = drop (Z.to_nat train_count) ten_files /\
     Z.of_nat (length (take 7 ten_files)) = train_count /\
     Z.of_nat (length (drop 7 ten_files)) = Z.of_nat (length ten_files) - train_count).
Proof.
  apply (split_files_sizes ten_files (take 7 ten_files) (drop 7 ten_files) 0.25).
  vm_compute. reflexivity.
Defined.

(** C3, as stated, fails: for [val_split = 2^-60] the float [1 - val_split]
    is [1.0], so all ten files go to training, while
    [floor(10 * (1 - 2^-60))] is nine. *)
Lemma split_exact_floor_counterexample :
  split_files ten_files 0x1p-60 = Ok (ten_files, []) /\
  train_count_of (length ten_files) 0x1p-60 = Ok 10 /\
  exact_train_count (Z.of_nat (length ten_files)) 0x1p-60 = Some 9.
Proof. repeat split; vm_compute; reflexivity. Qed.

(** With the default [val_split] of 0.2 the count is [floor(4 N / 5)] for
    every [N] up to a thousand. *)
Example split_files_default_counts :
  forallb (fun n => match train_count_of n 0x1.999999999999ap-3 with
                    | Ok k => k =? 4 * Z.of_nat n / 5
                    | Raise _ => false
                    end) (seq 0 1001) = true.
Proof. vm_compute. reflexivity. Qed.

(** Outside (0,1) truncation is not the floor, and the count is not a size:
    [val_split = 1.25] gives [train_count = -2], eight training files and two
    validation files. *)
Example split_files_negative_count :
  train_count_of (length ten_files) 1.25 = Ok (-2) /\
  exact_train_count (Z.of_nat (length ten_files)) 1.25 = Some (-3) /\
  split_files ten_files 1.25 = Ok (take 8 ten_files, drop 8 ten_files).
Proof. repeat split; vm_compute; reflexivity. Qed.

(** With the default [val_split] of 0.2, five files and the rational that the
    float 0.2 stands for, the count is four and the exact floor is three. *)
Example split_files_default_rounding :
  train_count_of 5 0x1.999999999999ap-3 = Ok 4 /\
  exact_train_count 5 0x1.999999999999ap-3 = Some 3.
Proof. repeat split; vm_compute; reflexivity. Qed.

(** C10, as the code has it.  Whatever integer [int(N * (1 - val_split))]
    is, negative or beyond [N], the training files followed by the
    validation files are the shuffled list; so, the shuffle being a
    permutation, every annotation file is in the two splits together exactly
    as often as in the list, and a file that occurs once is in exactly one
    of them.  The split is made exactly when the float product
    [N * (1 - val_split)] is finite: for an infinite product [int] raises
    [OverflowError], for [nan] it raises [ValueError], and no file is
    assigned. *)
Theorem split_files_partition `{PyLib rng} (g : rng) (xml_files : list path)
    (val_split : float) :
  Permutation xml_files (shuffle g xml_files).1 ->
  (forall train_files val_files,
      split_files (shuffle g xml_files).1 val_split = Ok (train_files, val_files) ->
      train_files ++ val_files = (shuffle g xml_files).1 /\
      Permutation xml_files (train_files ++ val_files) /\
      (NoDup xml_files ->
       forall f, f ∈ xml_files ->
                 (f ∈ train_files /\ f ∉ val_files) \/ (f ∈ val_files /\ f ∉ train_files)))
  /\
  (forall n,
      float_of_int (Z.of_nat (length (shuffle g xml_files).1)) = Ok n ->
      finite (n * (1 - val_split)) = true ->
      exists train_files val_files,
        split_files (shuffle g xml_files).1 val_split = Ok (train_files, val_files))
  /\
  (forall n,
      float_of_int (Z.of_nat (length (shuffle g xml_files).1)) = Ok n ->
      finite (n * (1 - val_split)) = false ->
      exists e,
        split_files (shuffle g xml_files).1 val_split = Raise e /\
        (e = OverflowError \/ e = ValueError)).
Proof.
  intros Hperm. split; [|split].
  - intros train_files val_files Hsplit.
    apply split_files_Ok_inv in Hsplit as (n & train_count & _ & _ & -> & ->).
    rewrite slice_app. repeat split; [assumption|].
    intros Hnodup f Hf.
    rewrite Hperm, <- (slice_app _ train_count) in Hnodup, Hf.
    apply NoDup_app in Hnodup as (_ & Hdisjoint & _).
    apply elem_of_app in Hf as [Hf|Hf]; [left | right]; split; try assumption.
    + by apply Hdisjoint.
    + intros Hin. by apply (Hdisjoint f).
  - intros n Hn Hfinite. apply int_of_float_finite in Hfinite as [k Hk].
    exists (slice_to (shuffle g xml_files).1 k), (slice_from (shuffle g xml_files).1 k).
    unfold split_files, train_count_of, int_mul_float. rewrite Hn. simpl. by rewrite Hk.
  - intros n Hn Hfinite. apply int_of_float_not_finite in Hfinite as (e & He & Hkind).
    exists e. split; [|exact Hkind].
    unfold split_files, train_count_of, int_mul_float. rewrite Hn. simpl. by rewrite He.
Qed.

Lemma split_files_partition_witness :
  (forall train_files val_files,
      split_files (rev ten_files) 1.25 = Ok (train_files, val_files) ->
      train_files ++ val_files = rev ten_files /\
      Permutation ten_files (train_files ++ val_files) /\
      (NoDup ten_files ->
       forall f, f ∈ ten_files ->
                 (f ∈ train_files /\ f ∉ val_files) \/ (f ∈ val_files /\ f ∉ train_files)))
  /\
  (forall n,
      float_of_int (Z.of_nat (length (rev ten_files))) = Ok n ->
      finite (n * (1 - 1.25)) = true ->
      exists train_files val_files,
        split_files (rev ten_files) 1.25 = Ok (train_files, val_files))
  /\
  (forall n,
      float_of_int (Z.of_nat (length (rev ten_files))) = Ok n ->
      finite (n * (1 - 1.25)) = false ->
      exists e,
        split_files (rev ten_files) 1.25 = Raise e /\
        (e = OverflowError \/ e = ValueError)).
Proof.
  apply (@split_files_partition nat sample_lib 0%nat ten_files 1.25).
  simpl. apply Permutation_rev.
Defined.

(** C10, as stated, fails: with [val_split] the most negative float,
    -1.7976931348623157e308, and ten files, [1 - val_split] is the largest
    float, the product is infinite, [int] raises [OverflowError], and no file
    is assigned to a split; with [val_split] a [nan] the product is [nan]
    and [int] raises [ValueError]. *)
Lemma split_files_overflow_counterexample :
  finite (-0x1.fffffffffffffp1023) = true /\
  train_count_of (length ten_files) (-0x1.fffffffffffffp1023) = Raise OverflowError /\
  split_files ten_files (-0x1.fffffffffffffp1023) = Raise OverflowError /\
  split_files ten_files nan = Raise ValueError.
Proof. repeat split; vm_compute; reflexivity. Qed.

(** ** Loops *)

(** A loop left at the first element that passes the test. *)
Lemma find_first_Some {A : Type} (test : A -> bool) (l : list A) (x : A) :
  List.find test l = Some x <->
  exists i : nat,
    l !! i = Some x /\ test x = true /\
    forall (j : nat) (y : A), (j < i)%nat -> l !! j = Some y -> test y = false.
Proof.
  induction l as [|a l IH]; simpl.
  - split; [discriminate|]. by intros (i & ? & _).
  - destruct (test a) eqn:Ha.
    + split.
      * intros [= <-]. exists 0%nat. repeat split; [assumption|]. intros; lia.
      * intros (i & Hi & Hx & Hbefore). destruct i as [|i]; [by injection Hi as <-|].
        specialize (Hbefore 0%nat a ltac:(lia) eq_refl). congruence.
    + rewrite IH. split.
      * intros (i & Hi & Hx & Hbefore). exists (S i). repeat split; [assumption..|].
        intros [|j] y Hj Hy; [by injection Hy as <- | apply (Hbefore j); [lia|done]].
      * intros (i & Hi & Hx & Hbefore). destruct i as [|i].
        { injection Hi as <-. congruence. }
        exists i. repeat split; [assumption..|].
        intros j y Hj Hy. apply (Hbefore (S j)); [lia|done].
Qed.

Lemma find_first_None {A : Type} (test : A -> bool) (l : list A) :
  List.find test l = None <-> forall x, x ∈ l -> test x = false.
Proof.
  induction l as [|a l IH]; simpl.
  - split; [|done]. intros _ x Hx. by apply elem_of_nil in Hx.
  - destruct (test a) eqn:Ha.
    + split; [discriminate|]. intros Hall.
      specialize (Hall a ltac:(left)). congruence.
    + rewrite IH. split.
      * intros Hall x [->|Hx]%elem_of_cons; [assumption | by apply Hall].
      * intros Hall x Hx. apply Hall. by right.
Qed.

Lemma for_each_app {A S : Type} (body : A -> S -> result S) (before after : list A) (s : S) :
  for_each body (before ++ after) s
  = do* s' <- for_each body before s; for_each body after s'.
Proof.
  revert s. induction before as [|x before IH]; intros s; simpl; [reflexivity|].
  destruct (body x s) as [s'|e]; simpl; [apply IH | reflexivity].
Qed.

(** An element on which the body raises ends the loop with that exception;
    the elements after it are not reached. *)
Lemma for_each_raises {A S : Type} (body : A -> S -> result S) (before after : list A)
    (x : A) (s s' : S) (e : exn) :
  for_each body before s = Ok s' -> body x s' = Raise e ->
  for_each body (before ++ x :: after) s = Raise e.
Proof. intros Hbefore Hx. rewrite for_each_app, Hbefore. simpl. by rewrite Hx. Qed.

(** ** The file system *)

Lemma with_dir_lookup (d p : path) (fs : gmap path node) (n : node) :
  with_dir d fs !! p = Some n <->
  fs !! p = Some n \/ (fs !! p = None /\ p = d /\ n = Dir).
Proof.
  unfold with_dir. destruct (fs !! d) as [existing|] eqn:Hd.
  - split; [tauto|]. intros [?|(Hnone & -> & _)]; [assumption | congruence].
  - destruct (decide (d = p)) as [->|Hne].
    + rewrite lookup_insert_eq. split.
      * intros [= <-]. tauto.
      * intros [?|(_ & _ & ->)]; [congruence | reflexivity].
    + rewrite lookup_insert_ne by assumption. split; [tauto|].
      intros [?|(_ & -> & _)]; [assumption | done].
Qed.

Lemma with_dirs_from_lookup (base rest p : path) (fs : gmap path node) (n : node) :
  with_dirs_from base rest fs !! p = Some n <->
  fs !! p = Some n \/
  (fs !! p = None /\ n = Dir /\
   exists name rest', p = base ++ name :: rest' /\ (name :: rest') `prefix_of` rest).
Proof.
  revert base fs. induction rest as [|name rest IH]; intros base fs; simpl.
  - split; [tauto|]. intros [?|(_ & _ & name & rest' & _ & Hprefix)]; [assumption|].
    by apply prefix_nil_inv in Hprefix.
  - rewrite IH, !with_dir_lookup. split.
    + intros [[?|(Hnone & -> & ->)]|(Hnone & -> & name' & rest' & -> & Hprefix)].
      * tauto.
      * right. repeat split; [assumption|]. exists name, []. split; [reflexivity|].
        by apply prefix_cons, prefix_nil.
      * right. split; [|split; [reflexivity|]].
        { destruct (fs !! ((base ++ [name]) ++ name' :: rest')) eqn:Hfs; [|reflexivity].
          exfalso. assert (Hin : with_dir (base ++ [name]) fs
                                   !! ((base ++ [name]) ++ name' :: rest') = Some n)
            by (apply with_dir_lookup; tauto). congruence. }
        exists name, (name' :: rest'). rewrite <- app_assoc. split; [reflexivity|].
        by apply prefix_cons.
    + intros [?|(Hnone & -> & name' & rest' & -> & Hprefix)]; [tauto|].
      apply prefix_cons_inv_1 in Hprefix as Hname. subst name'.
      apply prefix_cons_inv_2 in Hprefix.
      destruct rest' as [|name' rest'].
      * left. right. by rewrite Hnone.
      * right. split; [|split; [reflexivity|]].
        { destruct (with_dir (base ++ [name]) fs !! (base ++ name :: name' :: rest'))
            as [n|] eqn:Hmk; [|reflexivity].
          apply with_dir_lookup in Hmk as [?|(_ & Heq & _)]; [congruence|].
          apply app_inv_head in Heq. discriminate. }
        exists name', rest'. by rewrite <- app_assoc.
Qed.

(** [os.makedirs] adds directories on the way to [d] and changes nothing
    that exists. *)
Lemma with_dirs_lookup (d p : path) (fs : gmap path node) (n : node) :
  with_dirs d fs !! p = Some n <->
  fs !! p = Some n \/ (fs !! p = None /\ n = Dir /\ p <> [] /\ p `prefix_of` d).
Proof.
  unfold with_dirs. rewrite with_dirs_from_lookup. simpl. split.
  - intros [?|(? & ? & name & rest' & -> & ?)]; [tauto|]. right. by repeat split.
  - intros [?|(? & ? & Hne & ?)]; [tauto|]. right. repeat split; [assumption..|].
    destruct p as [|name rest']; [done|]. eauto.
Qed.

Lemma with_dirs_files (d p : path) (fs : gmap path node) (data : string) :
  with_dirs d fs !! p = Some (File data) <-> fs !! p = Some (File data).
Proof.
  rewrite with_dirs_lookup. split; [|tauto]. intros [?|(_ & ? & _)]; [assumption | discriminate].
Qed.

Lemma with_dirs_outside (d p : path) (fs : gmap path node) :
  ~ p `prefix_of` d -> with_dirs d fs !! p = fs !! p.
Proof.
  intros Hp. destruct (with_dirs d fs !! p) as [n|] eqn:Hmade.
  - by apply with_dirs_lookup in Hmade as [?|(_ & _ & _ & ?)].
  - destruct (fs !! p) as [n|] eqn:Hold; [|done].
    assert (with_dirs d fs !! p = Some n) by (apply with_dirs_lookup; by left). congruence.
Qed.

Lemma is_file_with_dirs (d q : path) (fs : gmap path node) :
  is_file (with_dirs d fs) q = is_file fs q.
Proof.
  unfold is_file. destruct (with_dirs d fs !! q) as [[|data]|] eqn:Hmade.
  - apply with_dirs_lookup in Hmade as [->|(-> & _)]; done.
  - apply with_dirs_files in Hmade. by rewrite Hmade.
  - destruct (fs !! q) as [[|data]|] eqn:Hold; [done| |done].
    apply (with_dirs_files d) in Hold. congruence.
Qed.

Lemma clear_from_ext (fs fs' : gmap path node) (base rest : path) :
  (forall q, is_file fs q = is_file fs' q) -> clear_from fs base rest = clear_from fs' base rest.
Proof.
  intros Hsame. revert base. induction rest as [|name rest IH]; intros base; simpl; [done|].
  by rewrite Hsame, IH.
Qed.

Lemma clear_way_with_dirs (d p : path) (fs : gmap path node) :
  clear_way (with_dirs d fs) p = clear_way fs p.
Proof. apply clear_from_ext. intros q. apply is_file_with_dirs. Qed.

Lemma is_file_insert_dir (fs : gmap path node) (d q : path) :
  fs !! d = None -> is_file (<[d := Dir]> fs) q = is_file fs q.
Proof.
  intros Hnone. unfold is_file. destruct (decide (q = d)) as [->|Hne].
  - by rewrite lookup_insert_eq, Hnone.
  - by rewrite lookup_insert_ne.
Qed.

(** [os.makedirs] returns exactly when no regular file stands at the
    directory or on the way to it, and then leaves the directories in
    place. *)
Lemma makedirs_from_clear (base rest : path) (fs : gmap path node) :
  clear_from fs base rest = true ->
  makedirs_from base rest fs = Ok (with_dirs_from base rest fs).
Proof.
  revert base fs. induction rest as [|name rest IH]; intros base fs; simpl; [done|].
  unfold is_file, with_dir.
  destruct (fs !! (base ++ [name])) as [[|data]|] eqn:Hnode; simpl; [|done|].
  - apply IH.
  - intros Hclear. apply IH. rewrite <- Hclear.
    apply clear_from_ext. intros q. by apply is_file_insert_dir.
Qed.

Lemma makedirs_from_blocked (base rest : path) (fs : gmap path node) :
  clear_from fs base rest = false ->
  exists e, makedirs_from base rest fs = Raise e /\
            (e = FileExistsError \/ e = NotADirectoryError).
Proof.
  revert base fs. induction rest as [|name rest IH]; intros base fs; simpl; [done|].
  unfold is_file.
  destruct (fs !! (base ++ [name])) as [[|data]|] eqn:Hnode; simpl.
  - apply IH.
  - intros _. destruct rest; eauto.
  - intros Hclear. apply IH. rewrite <- Hclear.
    apply clear_from_ext. intros q. by apply is_file_insert_dir.
Qed.

Lemma makedirs_clear (p : path) (fs : gmap path node) :
  clear_way fs p = true -> makedirs p fs = Ok (with_dirs p fs).
Proof. apply makedirs_from_clear. Qed.

Lemma makedirs_blocked (p : path) (fs : gmap path node) :
  clear_way fs p = false ->
  exists e, makedirs p fs = Raise e /\ (e = FileExistsError \/ e = NotADirectoryError).
Proof. apply makedirs_from_blocked. Qed.

Lemma makedirs_Ok_inv (p : path) (fs made : gmap path node) :
  makedirs p fs = Ok made -> clear_way fs p = true /\ made = with_dirs p fs.
Proof.
  intros Hmade. destruct (clear_way fs p) eqn:Hclear.
  - rewrite makedirs_clear in Hmade by done. by injection Hmade as <-.
  - destruct (makedirs_blocked p fs Hclear) as (e & Hraise & _). congruence.
Qed.

Lemma print_fs {rng : Type} (m : message) (w : @world rng) : w_fs (print m w) = w_fs w.
Proof. reflexivity. Qed.

(** ** Entries that the file-set processor skips *)

Lemma find_image_Some (fs : gmap path node) (images_dir : path) (name : string) (p : path) :
  find_image fs images_dir name = Some p <->
  exists (i : nat) (ext : string),
    image_extensions !! i = Some ext /\
    p = images_dir ++ [name +:+ ext] /\
    path_exists fs p = true /\
    forall (j : nat) (ext' : string),
      (j < i)%nat -> image_extensions !! j = Some ext' ->
      path_exists fs (images_dir ++ [name +:+ ext']) = false.
Proof.
  unfold find_image. rewrite find_first_Some. split.
  - intros (i & Hi & Hp & Hbefore). rewrite list_lookup_fmap in Hi.
    destruct (image_extensions !! i) as [ext|] eqn:Hext; [|discriminate].
    injection Hi as <-. exists i, ext. split_and!; [done..|].
    intros j ext' Hj Hext'. apply (Hbefore j); [assumption|].
    by rewrite list_lookup_fmap, Hext'.
  - intros (i & ext & Hext & -> & Hp & Hbefore). exists i.
    rewrite list_lookup_fmap, Hext. split_and!; [done..|].
    intros j y Hj Hy. rewrite list_lookup_fmap in Hy.
    destruct (image_extensions !! j) as [ext'|] eqn:Hext'; [|discriminate].
    injection Hy as <-. by apply (Hbefore j).
Qed.

Lemma find_image_None (fs : gmap path node) (images_dir : path) (name : string) :
  find_image fs images_dir name = None <->
  forall ext, ext ∈ image_extensions ->
              path_exists fs (images_dir ++ [name +:+ ext]) = false.
Proof.
  unfold find_image. rewrite find_first_None. split.
  - intros Hall ext Hext. apply Hall. apply list_elem_of_fmap. eauto.
  - intros Hall p (ext & -> & Hext)%list_elem_of_fmap. by apply Hall.
Qed.

Section EmptyBoxes.
Context {rng : Type} `{!PyLib rng}.

Lemma convert_objects_all_unmapped (img_width img_height : Z) (objs : list element)
    (acc : list box) :
  (forall obj, obj ∈ objs ->
     exists name, find ["name"] obj = Some name /\ class_lookup (text name) = None) ->
  convert_objects img_width img_height objs acc = Ok acc.
Proof.
  induction objs as [|obj objs IH]; intros Hall; simpl; [reflexivity|].
  destruct (Hall obj ltac:(left)) as (name & Hname & Hclass).
  rewrite (convert_object_unmapped _ _ _ _ Hname Hclass). simpl.
  apply IH. intros o Ho. apply Hall. by right.
Qed.

Lemma parse_root_all_unmapped (root : element) (img_width img_height : Z) :
  image_size root "width" = Some img_width ->
  image_size root "height" = Some img_height ->
  (forall obj, obj ∈ findall "object" root ->
     exists name, find ["name"] obj = Some name /\ class_lookup (text name) = None) ->
  parse_root root = Ok [].
Proof.
  intros Hw Hh Hall. unfold parse_root.
  rewrite (image_size_Some_inv _ _ _ Hw), (image_size_Some_inv _ _ _ Hh). simpl.
  by apply convert_objects_all_unmapped.
Qed.

End EmptyBoxes.

(** C5.  An annotation whose box list is empty gives no output: the body of
    the loop ends without raising, the file system is what it was, with the
    image neither copied nor a label file written, also when the image
    exists, and the loop goes on with the next file.  An annotation all of
    whose objects carry unmapped labels has an empty box list. *)
Theorem process_file_skips_empty `{PyLib rng} :
  (forall (images_dir output_dir xml_file : path) (rest : list path)
          (set_name : string) (w : @world rng),
      parse_file (w_fs w) xml_file = Ok [] ->
      exists m,
        process_file images_dir output_dir xml_file w = Ok (print m w) /\
        w_fs (print m w) = w_fs w /\
        (is_Some (find_image (w_fs w) images_dir (splitext_root (basename xml_file))) ->
         m = WarnNoBoxes (basename xml_file)) /\
        process_set (xml_file :: rest) images_dir output_dir set_name w
        = process_set rest images_dir output_dir set_name (print m w))
  /\
  (forall (fs : gmap path node) (xml_file : path) (xml_text : string) (root : element)
          (img_width img_height : Z),
      fs !! xml_file = Some (File xml_text) ->
      ET_parse xml_text = Some root ->
      image_size root "width" = Some img_width ->
      image_size root "height" = Some img_height ->
      (forall obj, obj ∈ findall "object" root ->
         exists name, find ["name"] obj = Some name /\ class_lookup (text name) = None) ->
      parse_file fs xml_file = Ok []).
Proof.
  split.
  - intros images_dir output_dir xml_file rest set_name w Hparse.
    destruct (find_image (w_fs w) images_dir (splitext_root (basename xml_file)))
      as [image_path|] eqn:Himage.
    + exists (WarnNoBoxes (basename xml_file)).
      pose proof (process_file_no_boxes _ output_dir _ _ _ Himage Hparse) as Hskip.
      split_and!; [done..|]. unfold process_set. simpl. by rewrite Hskip.
    + exists (WarnNoImage (basename xml_file)).
      pose proof (process_file_no_image _ output_dir _ _ Himage) as Hskip.
      split_and!; [done | done | by intros [? ?] |].
      unfold process_set. simpl. by rewrite Hskip.
  - intros fs xml_file xml_text root img_width img_height Hfile Hroot Hw Hh Hall.
    unfold parse_file, parse_voc_annotation. rewrite Hfile, Hroot.
    by eapply parse_root_all_unmapped.
Qed.

Lemma process_file_skips_empty_witness :
  (exists m,
      process_file sample_images ["model"; "roads"; "train"]
        (sample_annotations ++ ["a.xml"]) (sample_world "<unmapped/>")
      = Ok (print m (sample_world "<unmapped/>")) /\
      w_fs (print m (sample_world "<unmapped/>")) = w_fs (sample_world "<unmapped/>") /\
      (is_Some (find_image (sample_files "<unmapped/>") sample_images
                  (splitext_root (basename (sample_annotations ++ ["a.xml"])))) ->
       m = WarnNoBoxes (basename (sample_annotations ++ ["a.xml"]))) /\
      process_set [sample_annotations ++ ["a.xml"]]
        sample_images ["model"; "roads"; "train"] "training" (sample_world "<unmapped/>")
      = process_set [] sample_images ["model"; "roads"; "train"] "training"
          (print m (sample_world "<unmapped/>")))
  /\
  parse_file (sample_files "<unmapped/>") (sample_annotations ++ ["a.xml"]) = Ok [].
Proof.
  destruct (@process_file_skips_empty nat sample_lib) as [Hskip Hempty].
  split.
  - apply (Hskip sample_images ["model"; "roads"; "train"]
             (sample_annotations ++ ["a.xml"]) [] "training" (sample_world "<unmapped/>")).
    vm_compute. reflexivity.
  - apply (Hempty (sample_files "<unmapped/>") (sample_annotations ++ ["a.xml"])
             "<unmapped/>"
             (sample_annotation "640" "480" [sample_object "D43" "1" "2" "3" "4"])
             640 480); try (vm_compute; reflexivity).
    intros obj Hobj. apply list_elem_of_singleton in Hobj as ->.
    exists (leaf "name" "D43"). split; reflexivity.
Defined.

(** ** Dataset subdirectories *)

Lemma find_annotation_dir_Some (fs : gmap path node) (train_folder d : path) :
  find_annotation_dir fs train_folder = Some d <->
  exists (i : nat) (name : string),
    annotation_dirnames !! i = Some name /\
    d = train_folder ++ [name] /\
    isdir fs d = true /\
    forall (j : nat) (name' : string),
      (j < i)%nat -> annotation_dirnames !! j = Some name' ->
      isdir fs (train_folder ++ [name']) = false.
Proof.
  unfold find_annotation_dir. rewrite find_first_Some. split.
  - intros (i & Hi & Hd & Hbefore). rewrite list_lookup_fmap in Hi.
    destruct (annotation_dirnames !! i) as [name|] eqn:Hname; [|discriminate].
    injection Hi as <-. exists i, name. split_and!; [done..|].
    intros j name' Hj Hname'. apply (Hbefore j); [assumption|].
    by rewrite list_lookup_fmap, Hname'.
  - intros (i & name & Hname & -> & Hd & Hbefore). exists i.
    rewrite list_lookup_fmap, Hname. split_and!; [done..|].
    intros j y Hj Hy. rewrite list_lookup_fmap in Hy.
    destruct (annotation_dirnames !! j) as [name'|] eqn:Hname'; [|discriminate].
    injection Hy as <-. by apply (Hbefore j).
Qed.

Lemma find_annotation_dir_None (fs : gmap path node) (train_folder : path) :
  find_annotation_dir fs train_folder = None <->
  forall name, name ∈ annotation_dirnames -> isdir fs (train_folder ++ [name]) = false.
Proof.
  unfold find_annotation_dir. rewrite find_first_None. split.
  - intros Hall name Hname. apply Hall. apply list_elem_of_fmap. eauto.
  - intros Hall p (name & -> & Hname)%list_elem_of_fmap. by apply Hall.
Qed.

Section SubdirFacts.
Context {rng : Type} `{!PyLib rng}.

(** When no regular file is in the way, both [os.makedirs] calls return and
    the body goes on in the world [entered]. *)
Lemma makedirs_entered (model_dir : path) (subdir : string) (w : @world rng) :
  clear_way (w_fs w) (model_dir ++ [subdir; "train"]) = true ->
  clear_way (w_fs w) (model_dir ++ [subdir; "val"]) = true ->
  (do* made <- makedirs (model_dir ++ [subdir; "train"]) (w_fs w);
   makedirs (model_dir ++ [subdir; "val"]) made)
  = Ok (w_fs (entered model_dir subdir w)).
Proof.
  intros Htrain Hval. rewrite (makedirs_clear _ _ Htrain). simpl.
  rewrite makedirs_clear by (by rewrite clear_way_with_dirs). reflexivity.
Qed.

(** A regular file in the way makes the body raise before it looks at the
    dataset. *)
Lemma convert_subdir_blocked (voc_dir model_dir : path) (val_split : float)
    (subdir : string) (w : @world rng) :
  clear_way (w_fs w) (model_dir ++ [subdir; "train"]) = false \/
  clear_way (w_fs w) (model_dir ++ [subdir; "val"]) = false ->
  exists e,
    convert_subdir voc_dir model_dir val_split subdir w = Raise e /\
    (e = FileExistsError \/ e = NotADirectoryError).
Proof.
  intros Hblocked. unfold convert_subdir. simpl.
  destruct (clear_way (w_fs w) (model_dir ++ [subdir; "train"])) eqn:Htrain.
  - destruct Hblocked as [?|Hval]; [done|].
    rewrite (makedirs_clear _ _ Htrain). simpl.
    destruct (makedirs_blocked (model_dir ++ [subdir; "val"])
                (with_dirs (model_dir ++ [subdir; "train"]) (w_fs w)))
      as (e & -> & He); [by rewrite clear_way_with_dirs|]. eauto.
  - destruct (makedirs_blocked _ _ Htrain) as (e & -> & He). eauto.
Qed.

Lemma convert_subdir_Ok_clear (voc_dir model_dir : path) (val_split : float)
    (subdir : string) (w w' : @world rng) :
  convert_subdir voc_dir model_dir val_split subdir w = Ok w' ->
  clear_way (w_fs w) (model_dir ++ [subdir; "train"]) = true /\
  clear_way (w_fs w) (model_dir ++ [subdir; "val"]) = true.
Proof.
  intros Hrun.
  destruct (clear_way (w_fs w) (model_dir ++ [subdir; "train"])) eqn:Htrain;
    destruct (clear_way (w_fs w) (model_dir ++ [subdir; "val"])) eqn:Hval; [done|..];
    destruct (convert_subdir_blocked voc_dir model_dir val_split subdir w) as (e & He & _);
    (tauto || congruence).
Qed.

Lemma convert_subdir_found (voc_dir model_dir annotation_dir : path) (val_split : float)
    (subdir : string) (w : @world rng) :
  clear_way (w_fs w) (model_dir ++ [subdir; "train"]) = true ->
  clear_way (w_fs w) (model_dir ++ [subdir; "val"]) = true ->
  isdir (w_fs (entered model_dir subdir w)) (voc_dir ++ [subdir; "train"]) = true ->
  isdir (w_fs (entered model_dir subdir w)) ((voc_dir ++ [subdir; "train"]) ++ ["images"])
  = true ->
  find_annotation_dir (w_fs (entered model_dir subdir w)) (voc_dir ++ [subdir; "train"])
  = Some annotation_dir ->
  convert_subdir voc_dir model_dir val_split subdir w
  = process_dataset subdir ((voc_dir ++ [subdir; "train"]) ++ ["images"]) annotation_dir
      (model_dir ++ [subdir; "train"]) (model_dir ++ [subdir; "val"]) val_split
      (entered model_dir subdir w).
Proof.
  intros Hclear_train Hclear_val. unfold convert_subdir. simpl.
  rewrite (makedirs_clear _ _ Hclear_train). simpl.
  rewrite makedirs_clear by (by rewrite clear_way_with_dirs). simpl.
  unfold entered. simpl. intros -> -> ->. reflexivity.
Qed.

Lemma convert_subdir_skip (voc_dir model_dir : path) (val_split : float)
    (subdir : string) (w : @world rng) :
  clear_way (w_fs w) (model_dir ++ [subdir; "train"]) = true ->
  clear_way (w_fs w) (model_dir ++ [subdir; "val"]) = true ->
  isdir (w_fs (entered model_dir subdir w)) (voc_dir ++ [subdir; "train"]) = false \/
  isdir (w_fs (entered model_dir subdir w)) ((voc_dir ++ [subdir; "train"]) ++ ["images"])
  = false \/
  find_annotation_dir (w_fs (entered model_dir subdir w)) (voc_dir ++ [subdir; "train"])
  = None ->
  exists m,
    convert_subdir voc_dir model_dir val_split subdir w
    = Ok (print m (entered model_dir subdir w)) /\
    (m = MsgNoTrainFolder subdir \/
     m = MsgNoImagesOrAnnotations (voc_dir ++ [subdir; "train"])).
Proof.
  intros Hclear_train Hclear_val. unfold convert_subdir. simpl.
  rewrite (makedirs_clear _ _ Hclear_train). simpl.
  rewrite makedirs_clear by (by rewrite clear_way_with_dirs). simpl.
  unfold entered. simpl. intros Hlacks.
  destruct (isdir _ (voc_dir ++ [subdir; "train"])) eqn:Htrain; simpl; [|eauto].
  destruct (find_annotation_dir _ (voc_dir ++ [subdir; "train"])) eqn:Hanno; [|eauto].
  destruct (isdir _ ((voc_dir ++ [subdir; "train"]) ++ ["images"])) eqn:Himages;
    simpl; [|eauto].
  destruct Hlacks as [?|[?|?]]; discriminate.
Qed.

(** On a subdirectory with missing folders nothing but [os.makedirs] can
    raise. *)
Lemma convert_subdir_skip_raises (voc_dir model_dir : path) (val_split : float)
    (subdir : string) (w : @world rng) (e : exn) :
  isdir (w_fs (entered model_dir subdir w)) (voc_dir ++ [subdir; "train"]) = false \/
  isdir (w_fs (entered model_dir subdir w)) ((voc_dir ++ [subdir; "train"]) ++ ["images"])
  = false \/
  find_annotation_dir (w_fs (entered model_dir subdir w)) (voc_dir ++ [subdir; "train"])
  = None ->
  convert_subdir voc_dir model_dir val_split subdir w = Raise e ->
  makedirs (model_dir ++ [subdir; "train"]) (w_fs w) = Raise e \/
  exists made,
    makedirs (model_dir ++ [subdir; "train"]) (w_fs w) = Ok made /\
    makedirs (model_dir ++ [subdir; "val"]) made = Raise e.
Proof.
  intros Hlacks Hraise.
  destruct (makedirs (model_dir ++ [subdir; "train"]) (w_fs w)) as [made|e1] eqn:Htrain.
  - right. exists made. split; [done|].
    destruct (makedirs (model_dir ++ [subdir; "val"]) made) as [made'|e2] eqn:Hval.
    + apply makedirs_Ok_inv in Htrain as [Hclear_train ->].
      apply makedirs_Ok_inv in Hval as [Hclear_val ->].
      rewrite clear_way_with_dirs in Hclear_val.
      destruct (convert_subdir_skip voc_dir model_dir val_split subdir w
                  Hclear_train Hclear_val Hlacks) as (m & Hskip & _).
      congruence.
    + unfold convert_subdir in Hraise. simpl in Hraise. rewrite Htrain in Hraise.
      simpl in Hraise. rewrite Hval in Hraise. simpl in Hraise. congruence.
  - left. unfold convert_subdir in Hraise. simpl in Hraise. rewrite Htrain in Hraise.
    simpl in Hraise. congruence.
Qed.

Lemma entered_files (model_dir p : path) (subdir : string) (w : @world rng) (data : string) :
  w_fs (entered model_dir subdir w) !! p = Some (File data) <->
  w_fs w !! p = Some (File data).
Proof. unfold entered. simpl. by rewrite !with_dirs_files. Qed.

Lemma entered_dirs (model_dir p : path) (subdir : string) (w : @world rng) :
  w_fs (entered model_dir subdir w) !! p = Some Dir ->
  w_fs w !! p = Some Dir \/
  p `prefix_of` model_dir ++ [subdir; "train"] \/
  p `prefix_of` model_dir ++ [subdir; "val"].
Proof.
  unfold entered. simpl. rewrite with_dirs_lookup.
  intros [Hin|(_ & _ & _ & Hval)]; [|tauto].
  apply with_dirs_lookup in Hin as [?|(_ & _ & _ & Htrain)]; tauto.
Qed.

Lemma entered_outside (model_dir : path) (subdir : string) (w : @world rng) (p : path) :
  ~ p `prefix_of` model_dir ++ [subdir; "train"] ->
  ~ p `prefix_of` model_dir ++ [subdir; "val"] ->
  w_fs (entered model_dir subdir w) !! p = w_fs w !! p.
Proof. intros Htrain Hval. unfold entered. simpl. by rewrite !with_dirs_outside. Qed.

(** What the train folder holds is what it held before the output
    directories were made, unless one of them lies inside it. *)
Lemma entered_train_folder (voc_dir model_dir : path) (subdir name : string)
    (w : @world rng) :
  ~ (voc_dir ++ [subdir; "train"]) `prefix_of` model_dir ++ [subdir; "train"] ->
  ~ (voc_dir ++ [subdir; "train"]) `prefix_of` model_dir ++ [subdir; "val"] ->
  isdir (w_fs (entered model_dir subdir w)) ((voc_dir ++ [subdir; "train"]) ++ [name])
  = isdir (w_fs w) ((voc_dir ++ [subdir; "train"]) ++ [name]).
Proof.
  intros Htrain Hval. unfold isdir.
  rewrite entered_outside; [done|..]; intros Hp; [apply Htrain | apply Hval];
    by eapply prefix_app_l.
Qed.

End SubdirFacts.

(** C6.  The annotation folder is looked for in the train folder under the
    names annotations, annotation, Annotations, xmls, in that order, and the
    first that is a directory is taken.  Once the output directories are
    made, which [os.makedirs] does when no regular file stands at one of them
    or on the way to it, the files of a subdirectory are processed when its
    train folder is a directory holding an images directory and such an
    annotation folder, and only then. *)
Theorem find_annotation_dir_priority `{PyLib rng} :
  annotation_dirnames = ["annotations"; "annotation"; "Annotations"; "xmls"]
  /\
  (forall (fs : gmap path node) (train_folder d : path),
      find_annotation_dir fs train_folder = Some d <->
      exists (i : nat) (name : string),
        annotation_dirnames !! i = Some name /\
        d = train_folder ++ [name] /\
        isdir fs d = true /\
        forall (j : nat) (name' : string),
          (j < i)%nat -> annotation_dirnames !! j = Some name' ->
          isdir fs (train_folder ++ [name']) = false)
  /\
  (forall (voc_dir model_dir annotation_dir : path) (val_split : float)
          (subdir : string) (w : @world rng),
      clear_way (w_fs w) (model_dir ++ [subdir; "train"]) = true ->
      clear_way (w_fs w) (model_dir ++ [subdir; "val"]) = true ->
      isdir (w_fs (entered model_dir subdir w)) (voc_dir ++ [subdir; "train"]) = true ->
      isdir (w_fs (entered model_dir subdir w))
        ((voc_dir ++ [subdir; "train"]) ++ ["images"]) = true ->
      find_annotation_dir (w_fs (entered model_dir subdir w))
        (voc_dir ++ [subdir; "train"]) = Some annotation_dir ->
      convert_subdir voc_dir model_dir val_split subdir w
      = process_dataset subdir ((voc_dir ++ [subdir; "train"]) ++ ["images"])
          annotation_dir (model_dir ++ [subdir; "train"]) (model_dir ++ [subdir; "val"])
          val_split (entered model_dir subdir w))
  /\
  (forall (voc_dir model_dir : path) (val_split : float) (subdir : string) (w : @world rng),
      clear_way (w_fs w) (model_dir ++ [subdir; "train"]) = true ->
      clear_way (w_fs w) (model_dir ++ [subdir; "val"]) = true ->
      isdir (w_fs (entered model_dir subdir w)) (voc_dir ++ [subdir; "train"]) = false \/
      isdir (w_fs (entered model_dir subdir w))
        ((voc_dir ++ [subdir; "train"]) ++ ["images"]) = false \/
      (forall name, name ∈ annotation_dirnames ->
         isdir (w_fs (entered model_dir subdir w))
           ((voc_dir ++ [subdir; "train"]) ++ [name]) = false) ->
      exists m,
        convert_subdir voc_dir model_dir val_split subdir w
        = Ok (print m (entered model_dir subdir w)) /\
        (m = MsgNoTrainFolder subdir \/
         m = MsgNoImagesOrAnnotations (voc_dir ++ [subdir; "train"]))).
Proof.
  split; [reflexivity|]. split; [apply find_annotation_dir_Some|].
  split; [apply convert_subdir_found|].
  intros voc_dir model_dir val_split subdir w Hclear_train Hclear_val Hlacks.
  apply convert_subdir_skip; [done..|].
  rewrite find_annotation_dir_None. tauto.
Qed.

(** C9, as the code has it.  A subdirectory whose train folder has no images
    directory, or none of the four annotation folders, is skipped, provided
    no regular file stands at an output directory or on the way to it: the
    body of the loop ends without raising, having made the two output
    directories and printed why it skips.  No file is written: the files of
    the file system are what they were, and the only new nodes are
    directories on the way to the output train and val directories.  The
    folders are missing when the body looks for them, after the output
    directories are made; they are then, in particular, when they were
    missing before and no output directory lies inside the train folder.
    When a regular file stands at an output directory or on the way to it,
    [os.makedirs] raises [FileExistsError] or [NotADirectoryError] and the
    body of the loop ends there. *)
Theorem convert_subdir_skips_incomplete `{PyLib rng} (voc_dir model_dir : path)
    (val_split : float) (subdir : string) (w : @world rng) :
  (clear_way (w_fs w) (model_dir ++ [subdir; "train"]) = true ->
   clear_way (w_fs w) (model_dir ++ [subdir; "val"]) = true ->
   (isdir (w_fs (entered model_dir subdir w))
      ((voc_dir ++ [subdir; "train"]) ++ ["images"]) = false \/
    (forall name, name ∈ annotation_dirnames ->
       isdir (w_fs (entered model_dir subdir w))
         ((voc_dir ++ [subdir; "train"]) ++ [name]) = false))
   \/
   (~ (voc_dir ++ [subdir; "train"]) `prefix_of` model_dir ++ [subdir; "train"] /\
    ~ (voc_dir ++ [subdir; "train"]) `prefix_of` model_dir ++ [subdir; "val"] /\
    (isdir (w_fs w) ((voc_dir ++ [subdir; "train"]) ++ ["images"]) = false \/
     (forall name, name ∈ annotation_dirnames ->
        isdir (w_fs w) ((voc_dir ++ [subdir; "train"]) ++ [name]) = false))) ->
   exists w',
     convert_subdir voc_dir model_dir val_split subdir w = Ok w' /\
     w_fs w'
     = with_dirs (model_dir ++ [subdir; "val"])
         (with_dirs (model_dir ++ [subdir; "train"]) (w_fs w)) /\
     (forall (p : path) (data : string),
         w_fs w' !! p = Some (File data) <-> w_fs w !! p = Some (File data)) /\
     (forall (p : path),
         w_fs w' !! p = Some Dir ->
         w_fs w !! p = Some Dir \/
         p `prefix_of` model_dir ++ [subdir; "train"] \/
         p `prefix_of` model_dir ++ [subdir; "val"]) /\
     (w_out w' = w_out w ++ [MsgProcessing subdir; MsgNoTrainFolder subdir] \/
      w_out w' = w_out w ++ [MsgProcessing subdir;
                             MsgNoImagesOrAnnotations (voc_dir ++ [subdir; "train"])]))
  /\
  (clear_way (w_fs w) (model_dir ++ [subdir; "train"]) = false \/
   clear_way (w_fs w) (model_dir ++ [subdir; "val"]) = false ->
   exists e,
     convert_subdir voc_dir model_dir val_split subdir w = Raise e /\
     (e = FileExistsError \/ e = NotADirectoryError)).
Proof.
  split; [|apply convert_subdir_blocked].
  intros Hclear_train Hclear_val Hlacks.
  assert (Hentered :
            isdir (w_fs (entered model_dir subdir w))
              ((voc_dir ++ [subdir; "train"]) ++ ["images"]) = false \/
            (forall name, name ∈ annotation_dirnames ->
               isdir (w_fs (entered model_dir subdir w))
                 ((voc_dir ++ [subdir; "train"]) ++ [name]) = false)).
  { destruct Hlacks as [?|(Htrain & Hval & Hbefore)]; [done|].
    destruct Hbefore as [Himages|Hanno]; [left | right].
    - by rewrite entered_train_folder.
    - intros name Hname. rewrite entered_train_folder by done. by apply Hanno. }
  destruct (convert_subdir_skip voc_dir model_dir val_split subdir w Hclear_train Hclear_val)
    as (m & Hskip & Hm).
  { rewrite find_annotation_dir_None. tauto. }
  exists (print m (entered model_dir subdir w)). split; [assumption|].
  split; [reflexivity|]. split; [|split].
  - intros p data. rewrite print_fs. apply entered_files.
  - intros p. rewrite print_fs. apply entered_dirs.
  - simpl. rewrite <- app_assoc. simpl. destruct Hm as [-> | ->]; tauto.
Qed.

Lemma find_annotation_dir_priority_witness :
  (exists (i : nat) (name : string),
      annotation_dirnames !! i = Some name /\
      ["t"; "annotation"] = ["t"] ++ [name] /\
      isdir (with_dirs ["t"; "xmls"] (with_dirs ["t"; "annotation"] ∅))
        ["t"; "annotation"] = true /\
      forall (j : nat) (name' : string),
        (j < i)%nat -> annotation_dirnames !! j = Some name' ->
        isdir (with_dirs ["t"; "xmls"] (with_dirs ["t"; "annotation"] ∅))
          (["t"] ++ [name']) = false)
  /\
  convert_subdir ["voc"] ["model"] 0.25 "roads" (sample_world "<road/>")
  = process_dataset "roads" sample_images sample_annotations
      ["model"; "roads"; "train"] ["model"; "roads"; "val"] 0.25
      (entered ["model"] "roads" (sample_world "<road/>"))
  /\
  (exists m,
      convert_subdir ["voc"] ["model"] 0.25 "lanes" (sample_world "<road/>")
      = Ok (print m (entered ["model"] "lanes" (sample_world "<road/>"))) /\
      (m = MsgNoTrainFolder "lanes" \/
       m = MsgNoImagesOrAnnotations (["voc"] ++ ["lanes"; "train"]))).
Proof.
  destruct (@find_annotation_dir_priority nat sample_lib) as (_ & Hfirst & Hfound & Hskip).
  split; [|split].
  - apply (Hfirst (with_dirs ["t"; "xmls"] (with_dirs ["t"; "annotation"] ∅)) ["t"]).
    vm_compute. reflexivity.
  - apply (Hfound ["voc"] ["model"] sample_annotations 0.25%float "roads"
             (sample_world "<road/>")); vm_compute; reflexivity.
  - apply (Hskip ["voc"] ["model"] 0.25%float "lanes" (sample_world "<road/>"));
      [vm_compute; reflexivity..|].
    left. vm_compute. reflexivity.
Defined.

Lemma convert_subdir_skips_incomplete_witness :
  (exists w',
      convert_subdir ["voc"] ["model"] 0.25 "roads"
        (sample_run (with_dirs sample_annotations ∅)) = Ok w' /\
      w_fs w'
      = with_dirs (["model"] ++ ["roads"; "val"])
          (with_dirs (["model"] ++ ["roads"; "train"]) (with_dirs sample_annotations ∅)) /\
      (forall (p : path) (data : string),
          w_fs w' !! p = Some (File data) <->
          with_dirs sample_annotations ∅ !! p = Some (File data)) /\
      (forall (p : path),
          w_fs w' !! p = Some Dir ->
          with_dirs sample_annotations ∅ !! p = Some Dir \/
          p `prefix_of` ["model"] ++ ["roads"; "train"] \/
          p `prefix_of` ["model"] ++ ["roads"; "val"]) /\
      (w_out w' = [] ++ [MsgProcessing "roads"; MsgNoTrainFolder "roads"] \/
       w_out w' = [] ++ [MsgProcessing "roads";
                         MsgNoImagesOrAnnotations (["voc"] ++ ["roads"; "train"])]))
  /\
  (exists e,
      convert_subdir ["voc"] ["model"] 0.25 "roads" (sample_run blocked_output) = Raise e /\
      (e = FileExistsError \/ e = NotADirectoryError)).
Proof.
  split.
  - apply (proj1 (@convert_subdir_skips_incomplete nat sample_lib ["voc"] ["model"]
                    0.25%float "roads" (sample_run (with_dirs sample_annotations ∅))));
      [vm_compute; reflexivity..|].
    right. split_and!.
    + intros [k Hk]. discriminate Hk.
    + intros [k Hk]. discriminate Hk.
    + left. vm_compute. reflexivity.
  - apply (proj2 (@convert_subdir_skips_incomplete nat sample_lib ["voc"] ["model"]
                    0.25%float "roads" (sample_run blocked_output))).
    left. vm_compute. reflexivity.
Defined.

(** C9 does not hold of every such subdirectory.  The train folder of the
    dataset [roads] has an annotation folder and no images folder.  With a regular
    file where the output train directory is to be made, [os.makedirs]
    raises [FileExistsError], or [NotADirectoryError] when the file is on the
    way, and so does the run.  With the output directory inside the images
    folder that is missing, [os.makedirs] makes that folder, and the
    subdirectory is not skipped: its XML file is found and its two file sets
    are processed. *)
Lemma convert_subdir_blocked_counterexample :
  isdir blocked_output ((["voc"] ++ ["roads"; "train"]) ++ ["images"]) = false /\
  convert_subdir ["voc"] ["model"] 0.25 "roads" (sample_run blocked_output)
  = Raise FileExistsError /\
  convert_to_yolo ["voc"] ["model"] 0.25 (sample_run blocked_output)
  = Raise FileExistsError /\
  convert_to_yolo ["voc"] ["model"; "roads"; "train"; "deep"] 0.25
    (sample_run blocked_output) = Raise NotADirectoryError /\
  isdir no_images ((["voc"] ++ ["roads"; "train"]) ++ ["images"]) = false /\
  match convert_subdir ["voc"] (sample_images ++ ["out"]) 0.25 "roads"
          (sample_run no_images) with
  | Ok w' => w_out w'
  | Raise _ => []
  end
  = [MsgProcessing "roads"; MsgFoundImages sample_images;
     MsgFoundAnnotations sample_annotations; MsgFoundXml 1 sample_annotations;
     WarnNoImage "a.xml"; MsgSuccess "roads" 0 1].
Proof. repeat split; vm_compute; reflexivity. Qed.

(** ** Exceptions on the way out *)

Section Propagation.
Context {rng : Type} `{!PyLib rng}.

Lemma parse_root_no_width (root : element) :
  find ["size"; "width"] root = None -> parse_root root = Raise AttributeError.
Proof. intros Hnone. unfold parse_root. by rewrite Hnone. Qed.

Lemma parse_root_no_height (root : element) (img_width : Z) :
  image_size root "width" = Some img_width ->
  find ["size"; "height"] root = None -> parse_root root = Raise AttributeError.
Proof.
  intros Hw Hnone. unfold parse_root.
  rewrite (image_size_Some_inv _ _ _ Hw). simpl. by rewrite Hnone.
Qed.

(** A document without size/width or size/height makes the parser raise:
    [AttributeError], unless the width that is there cannot be read. *)
Lemma parse_root_no_size (root : element) :
  find ["size"; "width"] root = None \/ find ["size"; "height"] root = None ->
  exists e,
    parse_root root = Raise e /\
    (find ["size"; "width"] root = None \/ is_Some (image_size root "width") ->
     e = AttributeError).
Proof.
  intros Hmissing.
  destruct (find ["size"; "width"] root) as [width|] eqn:Hwidth.
  - destruct Hmissing as [?|Hheight]; [discriminate|].
    destruct (image_size root "width") as [img_width|] eqn:Hsize.
    + exists AttributeError. split; [by eapply parse_root_no_height | done].
    + unfold parse_root. rewrite Hwidth. simpl.
      unfold image_size in Hsize. rewrite Hwidth in Hsize. simpl in Hsize.
      unfold int_text. destruct (text width) as [s|]; simpl in *.
      * rewrite Hsize. simpl. exists ValueError. split; [done|].
        intros [?|[? ?]]; discriminate.
      * exists TypeError. split; [done|]. intros [?|[? ?]]; discriminate.
  - exists AttributeError. split; [by apply parse_root_no_width | done].
Qed.

Lemma process_dataset_no_xml (subdir : string)
    (images_dir annotation_dir train_dir val_dir : path) (val_split : float) (w : @world rng) :
  glob_xml (w_fs w) annotation_dir = [] ->
  process_dataset subdir images_dir annotation_dir train_dir val_dir val_split w
  = Ok (print (MsgNoXml annotation_dir)
          (print (MsgFoundAnnotations annotation_dir) (print (MsgFoundImages images_dir) w))).
Proof. intros Hglob. unfold process_dataset. simpl. by rewrite Hglob. Qed.

(** The world in which the two file sets are processed. *)
Lemma process_dataset_run (subdir : string)
    (images_dir annotation_dir train_dir val_dir : path) (val_split : float) (w : @world rng)
    (xml_files shuffled train_files val_files : list path) (g : rng) :
  glob_xml (w_fs w) annotation_dir = xml_files -> xml_files <> [] ->
  shuffle (w_rng w) xml_files = (shuffled, g) ->
  split_files shuffled val_split = Ok (train_files, val_files) ->
  process_dataset subdir images_dir annotation_dir train_dir val_dir val_split w
  = (do* w1 <- process_set train_files images_dir train_dir "training"
                 (World (w_fs w)
                    (w_out w ++ [MsgFoundImages images_dir;
                                 MsgFoundAnnotations annotation_dir;
                                 MsgFoundXml (length xml_files) annotation_dir]) g);
     do* w2 <- process_set val_files images_dir val_dir "validation" w1;
     Ok (print (MsgSuccess subdir (length train_files) (length val_files)) w2)).
Proof.
  intros Hglob Hne Hshuffle Hsplit. unfold process_dataset. simpl. rewrite Hglob.
  destruct xml_files as [|first rest]; [done|]. simpl.
  rewrite Hshuffle, Hsplit. simpl. by rewrite <- !app_assoc.
Qed.

End Propagation.

(** C8.  A file that is not valid XML makes the parser raise [ParseError],
    and a document without size/width or size/height makes it raise
    [AttributeError].  Nothing catches an exception of the parser: it is the
    result of the body of the file loop, of [process_set] whatever files
    follow, of the processing of the subdirectory, of [convert_to_yolo]
    whatever subdirectories follow, and of the script.  Missing folders, no
    XML files, a missing image and an empty box list raise nothing.  For
    missing folders this reads: whatever the turn of such a subdirectory
    raises is raised by one of the two [os.makedirs] calls that come before
    the folders are looked for, and the turn returns whenever no regular file
    stands at an output directory or on the way to it. *)
Theorem parse_errors_abort_run `{PyLib rng} :
  (* the parser *)
  (forall xml_text, ET_parse xml_text = None ->
     parse_voc_annotation xml_text = Raise ParseError)
  /\
  (forall xml_text root, ET_parse xml_text = Some root ->
     find ["size"; "width"] root = None \/ find ["size"; "height"] root = None ->
     exists e,
       parse_voc_annotation xml_text = Raise e /\
       (find ["size"; "width"] root = None \/ is_Some (image_size root "width") ->
        e = AttributeError))
  /\
  (* the body of the file loop *)
  (forall (images_dir output_dir xml_file : path) (w : @world rng) (xml_text : string) (e : exn),
      is_Some (find_image (w_fs w) images_dir (splitext_root (basename xml_file))) ->
      w_fs w !! xml_file = Some (File xml_text) ->
      parse_voc_annotation xml_text = Raise e ->
      process_file images_dir output_dir xml_file w = Raise e)
  /\
  (* the file loop *)
  (forall (images_dir output_dir : path) (set_name : string)
          (before after : list path) (xml_file : path) (w w1 : @world rng) (e : exn),
      process_set before images_dir output_dir set_name w = Ok w1 ->
      process_file images_dir output_dir xml_file w1 = Raise e ->
      process_set (before ++ xml_file :: after) images_dir output_dir set_name w = Raise e)
  /\
  (* the processing of a subdirectory *)
  (forall (subdir : string) (images_dir annotation_dir train_dir val_dir : path)
          (val_split : float) (w : @world rng)
          (xml_files shuffled train_files val_files : list path) (g : rng) (e : exn),
      glob_xml (w_fs w) annotation_dir = xml_files -> xml_files <> [] ->
      shuffle (w_rng w) xml_files = (shuffled, g) ->
      split_files shuffled val_split = Ok (train_files, val_files) ->
      let started :=
        World (w_fs w)
          (w_out w ++ [MsgFoundImages images_dir; MsgFoundAnnotations annotation_dir;
                       MsgFoundXml (length xml_files) annotation_dir]) g in
      process_set train_files images_dir train_dir "training" started = Raise e \/
      (exists w1,
          process_set train_files images_dir train_dir "training" started = Ok w1 /\
          process_set val_files images_dir val_dir "validation" w1 = Raise e) ->
      process_dataset subdir images_dir annotation_dir train_dir val_dir val_split w
      = Raise e)
  /\
  (forall (voc_dir model_dir annotation_dir : path) (val_split : float)
          (subdir : string) (w : @world rng) (e : exn),
      clear_way (w_fs w) (model_dir ++ [subdir; "train"]) = true ->
      clear_way (w_fs w) (model_dir ++ [subdir; "val"]) = true ->
      isdir (w_fs (entered model_dir subdir w)) (voc_dir ++ [subdir; "train"]) = true ->
      isdir (w_fs (entered model_dir subdir w))
        ((voc_dir ++ [subdir; "train"]) ++ ["images"]) = true ->
      find_annotation_dir (w_fs (entered model_dir subdir w))
        (voc_dir ++ [subdir; "train"]) = Some annotation_dir ->
      process_dataset subdir ((voc_dir ++ [subdir; "train"]) ++ ["images"])
        annotation_dir (model_dir ++ [subdir; "train"]) (model_dir ++ [subdir; "val"])
        val_split (entered model_dir subdir w) = Raise e ->
      convert_subdir voc_dir model_dir val_split subdir w = Raise e)
  /\
  (* the loop over the subdirectories *)
  (forall (voc_dir model_dir : path) (val_split : float) (w w1 : @world rng)
          (names before after : list string) (subdir : string) (e : exn),
      listdir (w_fs w) voc_dir = Ok names ->
      filter (fun d => isdir (w_fs w) (voc_dir ++ [d]) = true) names
      = before ++ subdir :: after ->
      for_each (convert_subdir voc_dir model_dir val_split) before
        (print (MsgLooking voc_dir) w) = Ok w1 ->
      convert_subdir voc_dir model_dir val_split subdir w1 = Raise e ->
      convert_to_yolo voc_dir model_dir val_split w = Raise e)
  /\
  (* the script *)
  (forall (project_dir : path) (args_voc args_model : argument) (val_split : float)
          (w : @world rng) (e : exn),
      convert_to_yolo (path_join project_dir args_voc) (path_join project_dir args_model)
        val_split
        (print (MsgModelDirectory (path_join project_dir args_model))
           (print (MsgVocDirectory (path_join project_dir args_voc)) w)) = Raise e ->
      main project_dir args_voc args_model val_split w = Raise e)
  /\
  (* what is skipped raises nothing; [os.makedirs], before it, can *)
  (forall (voc_dir model_dir : path) (val_split : float) (subdir : string) (w : @world rng),
      isdir (w_fs (entered model_dir subdir w)) (voc_dir ++ [subdir; "train"]) = false \/
      isdir (w_fs (entered model_dir subdir w))
        ((voc_dir ++ [subdir; "train"]) ++ ["images"]) = false \/
      find_annotation_dir (w_fs (entered model_dir subdir w))
        (voc_dir ++ [subdir; "train"]) = None ->
      (clear_way (w_fs w) (model_dir ++ [subdir; "train"]) = true ->
       clear_way (w_fs w) (model_dir ++ [subdir; "val"]) = true ->
       exists w', convert_subdir voc_dir model_dir val_split subdir w = Ok w')
      /\
      (forall e,
          convert_subdir voc_dir model_dir val_split subdir w = Raise e ->
          makedirs (model_dir ++ [subdir; "train"]) (w_fs w) = Raise e \/
          exists made,
            makedirs (model_dir ++ [subdir; "train"]) (w_fs w) = Ok made /\
            makedirs (model_dir ++ [subdir; "val"]) made = Raise e))
  /\
  (forall (subdir : string) (images_dir annotation_dir train_dir val_dir : path)
          (val_split : float) (w : @world rng),
      glob_xml (w_fs w) annotation_dir = [] ->
      exists w',
        process_dataset subdir images_dir annotation_dir train_dir val_dir val_split w
        = Ok w')
  /\
  (forall (images_dir output_dir xml_file : path) (w : @world rng),
      find_image (w_fs w) images_dir (splitext_root (basename xml_file)) = None \/
      parse_file (w_fs w) xml_file = Ok [] ->
      exists w', process_file images_dir output_dir xml_file w = Ok w').
Proof.
  split_and!.
  - intros xml_text Hnone. unfold parse_voc_annotation. by rewrite Hnone.
  - intros xml_text root Hroot Hmissing. unfold parse_voc_annotation. rewrite Hroot.
    by apply parse_root_no_size.
  - intros images_dir output_dir xml_file w xml_text e [image_path Himage] Hfile Hparse.
    eapply process_file_raises; [eassumption|]. unfold parse_file. by rewrite Hfile.
  - intros images_dir output_dir set_name before after xml_file w w1 e Hbefore Hfile.
    unfold process_set in *. by eapply for_each_raises.
  - intros subdir images_dir annotation_dir train_dir val_dir val_split w
      xml_files shuffled train_files val_files g e Hglob Hne Hshuffle Hsplit started Hraise.
    rewrite (process_dataset_run _ _ _ _ _ _ _ _ _ _ _ _ Hglob Hne Hshuffle Hsplit).
    fold started. destruct Hraise as [->|(w1 & -> & Hval)]; [reflexivity|].
    simpl. by rewrite Hval.
  - intros voc_dir model_dir annotation_dir val_split subdir w e Hclear_train Hclear_val
      Htrain Himages Hanno Hraise.
    by rewrite (convert_subdir_found _ _ _ _ _ _ Hclear_train Hclear_val Htrain Himages Hanno).
  - intros voc_dir model_dir val_split w w1 names before after subdir e
      Hnames Hsubdirs Hbefore Hraise.
    unfold convert_to_yolo. rewrite print_fs, Hnames. simpl. rewrite Hsubdirs.
    destruct (before ++ subdir :: after) as [|first rest] eqn:Hlist.
    { by destruct before. }
    rewrite <- Hlist. by eapply for_each_raises.
  - intros project_dir args_voc args_model val_split w e Hraise.
    unfold main. by rewrite Hraise.
  - intros voc_dir model_dir val_split subdir w Hlacks. split.
    + intros Hclear_train Hclear_val.
      destruct (convert_subdir_skip voc_dir model_dir val_split subdir w
                  Hclear_train Hclear_val Hlacks) as (m & -> & _). eauto.
    + intros e. by apply convert_subdir_skip_raises.
  - intros subdir images_dir annotation_dir train_dir val_dir val_split w Hglob.
    rewrite process_dataset_no_xml by assumption. eauto.
  - intros images_dir output_dir xml_file w [Hnone|Hempty].
    + rewrite process_file_no_image by assumption. eauto.
    + destruct (find_image (w_fs w) images_dir (splitext_root (basename xml_file)))
        as [image_path|] eqn:Himage.
      * erewrite process_file_no_boxes by eassumption. eauto.
      * rewrite process_file_no_image by assumption. eauto.
Qed.

Lemma parse_errors_abort_run_witness :
  parse_voc_annotation "<" = Raise ParseError
  /\ parse_voc_annotation "<nosize/>" = Raise AttributeError
  /\ process_file sample_images ["model"; "roads"; "train"]
       (sample_annotations ++ ["a.xml"]) (sample_world "<") = Raise ParseError
  /\ process_set ([] ++ (sample_annotations ++ ["a.xml"]) :: [sample_annotations ++ ["b.xml"]])
       sample_images ["model"; "roads"; "train"] "training" (sample_world "<")
     = Raise ParseError
  /\ convert_subdir ["voc"] ["model"] 0.25 "roads" (sample_world "<") = Raise ParseError
  /\ convert_to_yolo ["voc"] ["model"] 0.25 (sample_world "<") = Raise ParseError
  /\ main ["project"] (Argument true ["voc"]) (Argument false ["model"]) 0.25
       (sample_world "<nosize/>") = Raise AttributeError
  /\ (exists w',
         convert_subdir ["voc"] ["model"] 0.25 "lanes" (sample_world "<") = Ok w')
  /\ (makedirs (["model"] ++ ["roads"; "train"]) blocked_output = Raise FileExistsError \/
      exists made,
        makedirs (["model"] ++ ["roads"; "train"]) blocked_output = Ok made /\
        makedirs (["model"] ++ ["roads"; "val"]) made = Raise FileExistsError)
  /\ (exists w',
         process_file sample_images ["model"; "roads"; "train"]
           (sample_annotations ++ ["b.xml"]) (sample_world "<") = Ok w').
Proof.
  destruct (@parse_errors_abort_run nat sample_lib)
    as (Hxml & Hsize & Hfile & Hset & _ & Hsubdir & Hloop & Hmain & Hfolders & _ & Hentry).
  split_and!.
  - apply Hxml. reflexivity.
  - destruct (Hsize "<nosize/>"
                (Element "annotation" None [sample_object "D00" "100" "100" "300" "200"])
                eq_refl (or_introl eq_refl)) as (e & Hraise & He).
    rewrite Hraise, He; [reflexivity | left; reflexivity].
  - apply (Hfile sample_images ["model"; "roads"; "train"]
             (sample_annotations ++ ["a.xml"]) (sample_world "<") "<" ParseError);
      [by exists (sample_images ++ ["a.jpg"]) | reflexivity | reflexivity].
  - apply (Hset sample_images ["model"; "roads"; "train"] "training" []
             [sample_annotations ++ ["b.xml"]] (sample_annotations ++ ["a.xml"])
             (sample_world "<") (sample_world "<") ParseError);
      vm_compute; reflexivity.
  - apply (Hsubdir ["voc"] ["model"] sample_annotations 0.25%float "roads"
             (sample_world "<") ParseError); vm_compute; reflexivity.
  - apply (Hloop ["voc"] ["model"] 0.25%float (sample_world "<")
             (print (MsgLooking ["voc"]) (sample_world "<")) ["roads"] [] [] "roads"
             ParseError); vm_compute; reflexivity.
  - apply (Hmain ["project"] (Argument true ["voc"]) (Argument false ["model"]) 0.25%float
             (sample_world "<nosize/>") AttributeError).
    vm_compute. reflexivity.
  - apply (Hfolders ["voc"] ["model"] 0.25%float "lanes" (sample_world "<"));
      [|vm_compute; reflexivity..].
    left. vm_compute. reflexivity.
  - apply (Hfolders ["voc"] ["model"] 0.25%float "roads" (sample_run blocked_output)).
    + right. left. vm_compute. reflexivity.
    + vm_compute. reflexivity.
  - apply (Hentry sample_images ["model"; "roads"; "train"]
             (sample_annotations ++ ["b.xml"]) (sample_world "<")).
    left. vm_compute. reflexivity.
Defined.

(** ** What the file-set processor writes *)

Section FileWrites.
Context {rng : Type} `{!PyLib rng}.

(** The body of the file loop raises what [file_writes] raises, and
    otherwise leaves the file system with the writes applied. *)
Lemma process_file_file_writes (images_dir output_dir xml_file : path) (w : @world rng) :
  match file_writes images_dir output_dir xml_file (w_fs w) with
  | Ok writes =>
      exists w', process_file images_dir output_dir xml_file w = Ok w' /\
                 w_fs w' = apply_writes writes (w_fs w) /\ w_rng w' = w_rng w
  | Raise e => process_file images_dir output_dir xml_file w = Raise e
  end.
Proof.
  unfold file_writes, process_file.
  destruct (find_image (w_fs w) images_dir (splitext_root (basename xml_file)))
    as [image_path|]; [|by eexists].
  destruct (parse_file (w_fs w) xml_file) as [[|b boxes]|e]; simpl; [by eexists | | done].
  unfold copy. destruct (w_fs w !! image_path) as [[|data]|]; simpl; [done | | done].
  case_decide; simpl; [done|]. by eexists.
Qed.

Lemma process_set_set_writes (images_dir output_dir : path) (set_name : string)
    (xml_files : list path) (w : @world rng) :
  match set_writes images_dir output_dir xml_files (w_fs w) with
  | Ok writes =>
      exists w', process_set xml_files images_dir output_dir set_name w = Ok w' /\
                 w_fs w' = apply_writes writes (w_fs w) /\ w_rng w' = w_rng w
  | Raise e => process_set xml_files images_dir output_dir set_name w = Raise e
  end.
Proof.
  unfold process_set. revert w. induction xml_files as [|xml_file rest IH]; intros w; simpl.
  - by exists w.
  - pose proof (process_file_file_writes images_dir output_dir xml_file w) as Hfile.
    destruct (file_writes images_dir output_dir xml_file (w_fs w)) as [first|e]; simpl.
    + destruct Hfile as (w1 & -> & Hfs & Hrng). simpl.
      specialize (IH w1). rewrite Hfs in IH.
      destruct (set_writes images_dir output_dir rest (apply_writes first (w_fs w)))
        as [others|e]; simpl; [|done].
      destruct IH as (w' & -> & Hfs' & Hrng'). exists w'.
      split; [done|]. split; [|congruence].
      unfold apply_writes in *. by rewrite foldl_app.
    + by rewrite Hfile.
Qed.

End FileWrites.

(** ** Lists of writes *)

Lemma apply_writes_snoc (writes : list (path * node)) (p : path) (n : node)
    (fs : gmap path node) :
  apply_writes (writes ++ [(p, n)]) fs = <[p := n]> (apply_writes writes fs).
Proof. unfold apply_writes. by rewrite foldl_app. Qed.

Lemma apply_writes_app (first others : list (path * node)) (fs : gmap path node) :
  apply_writes (first ++ others) fs = apply_writes others (apply_writes first fs).
Proof. unfold apply_writes. by rewrite foldl_app. Qed.

(** A path that no write names keeps its node. *)
Lemma apply_writes_other (writes : list (path * node)) (fs : gmap path node) (p : path) :
  p ∉ writes.*1 -> apply_writes writes fs !! p = fs !! p.
Proof.
  revert fs. induction writes as [|[q n] writes IH]; intros fs Hp; [done|].
  simpl in *. apply not_elem_of_cons in Hp as [Hne Hp].
  change (apply_writes writes (<[q := n]> fs) !! p = fs !! p).
  rewrite IH by assumption. by rewrite lookup_insert_ne.
Qed.

(** A path that a write names ends with the node of one of its writes,
    whatever the file system held. *)
Lemma apply_writes_written (writes : list (path * node)) (fs : gmap path node) (p : path) :
  p ∈ writes.*1 -> exists n, (p, n) ∈ writes /\ forall fs', apply_writes writes fs' !! p = Some n.
Proof.
  induction writes as [|[q n] writes IH] using rev_ind; intros Hp.
  { by apply elem_of_nil in Hp. }
  rewrite fmap_app in Hp. simpl in Hp.
  destruct (decide (p = q)) as [->|Hne].
  - exists n. split; [apply elem_of_app; right; by left|].
    intros fs'. by rewrite apply_writes_snoc, lookup_insert_eq.
  - apply elem_of_app in Hp as [Hp|Hp].
    + destruct (IH Hp) as (n' & Hin & Hlookup). exists n'.
      split; [apply elem_of_app; by left|].
      intros fs'. by rewrite apply_writes_snoc, lookup_insert_ne.
    + apply list_elem_of_singleton in Hp. done.
Qed.

(** Making the same writes a second time changes nothing. *)
Lemma apply_writes_twice (writes : list (path * node)) (fs : gmap path node) :
  apply_writes writes (apply_writes writes fs) = apply_writes writes fs.
Proof.
  apply map_eq. intros p. destruct (decide (p ∈ writes.*1)) as [Hp|Hp].
  - destruct (apply_writes_written writes fs p Hp) as (n & _ & Hn). by rewrite !Hn.
  - by rewrite !apply_writes_other.
Qed.

Lemma apply_writes_lookup (writes : list (path * node)) (fs : gmap path node)
    (p : path) (n : node) :
  apply_writes writes fs !! p = Some n -> fs !! p = Some n \/ (p, n) ∈ writes.
Proof.
  intros Hlookup. destruct (decide (p ∈ writes.*1)) as [Hp|Hp].
  - destruct (apply_writes_written writes fs p Hp) as (n' & Hin & Hn).
    rewrite Hn in Hlookup. injection Hlookup as <-. by right.
  - rewrite apply_writes_other in Hlookup by assumption. by left.
Qed.

Lemma apply_writes_keeps (writes : list (path * node)) (fs : gmap path node) (p : path) :
  is_Some (fs !! p) -> is_Some (apply_writes writes fs !! p).
Proof.
  intros Hp. destruct (decide (p ∈ writes.*1)) as [Hin|Hin].
  - destruct (apply_writes_written writes fs p Hin) as (n & _ & Hn). by rewrite Hn.
  - by rewrite apply_writes_other.
Qed.

(** ** Strings and paths *)

Lemma last_char_app (a b : string) : b <> "" -> last_char (a +:+ b) = last_char b.
Proof.
  intros Hb. induction a as [|c a IH]; [done|].
  rewrite append_cons. simpl. rewrite IH.
  destruct (a +:+ b) eqn:Hab; [|done].
  destruct a; [by rewrite append_nil_l in Hab | by rewrite append_cons in Hab].
Qed.

(** The name of a label file is the name of no image. *)
Lemma label_name_no_image (name name' ext : string) :
  ext ∈ image_extensions -> name +:+ ".txt" <> name' +:+ ext.
Proof.
  intros Hext Heq. apply (f_equal last_char) in Heq.
  rewrite (last_char_app name ".txt") in Heq by done.
  unfold image_extensions in Hext.
  repeat (apply elem_of_cons in Hext as [->|Hext];
          [by rewrite last_char_app in Heq|]).
  by apply elem_of_nil in Hext.
Qed.

Lemma basename_snoc (p : path) (name : string) : basename (p ++ [name]) = name.
Proof. unfold basename. by rewrite last_snoc. Qed.

Lemma find_same_test {A : Type} (f g : A -> bool) (l : list A) :
  (forall x, x ∈ l -> f x = g x) -> List.find f l = List.find g l.
Proof.
  induction l as [|a l IH]; intros Hsame; simpl; [done|].
  rewrite <- (Hsame a) by left. destruct (f a); [done|].
  apply IH. intros x Hx. apply Hsame. by right.
Qed.

(** ** The file loop on file systems with the same inputs *)

Section SameInputs.
Context {rng : Type} `{!PyLib rng}.

(** The writes of one entry: none, or the image and the label file. *)
Lemma file_writes_Ok_inv (images_dir output_dir xml_file : path) (fs : gmap path node)
    (writes : list (path * node)) :
  file_writes images_dir output_dir xml_file fs = Ok writes ->
  writes = [] \/
  exists ext data boxes,
    ext ∈ image_extensions /\
    find_image fs images_dir (splitext_root (basename xml_file))
    = Some (images_dir ++ [splitext_root (basename xml_file) +:+ ext]) /\
    fs !! (images_dir ++ [splitext_root (basename xml_file) +:+ ext]) = Some (File data) /\
    parse_file fs xml_file = Ok boxes /\ boxes <> [] /\
    writes
    = [(if isdir fs (output_dir ++ [splitext_root (basename xml_file) +:+ ext])
        then output_dir ++ [splitext_root (basename xml_file) +:+ ext;
                            splitext_root (basename xml_file) +:+ ext]
        else output_dir ++ [splitext_root (basename xml_file) +:+ ext],
        File data);
       (output_dir ++ [splitext_root (basename xml_file) +:+ ".txt"],
        File (label_text boxes))].
Proof.
  unfold file_writes. set (name := splitext_root (basename xml_file)).
  destruct (find_image fs images_dir name) as [image_path|] eqn:Himage;
    [|intros [= <-]; by left].
  apply find_image_Some in Himage as Hfound.
  destruct Hfound as (i & ext & Hext & -> & _ & _).
  apply list_elem_of_lookup_2 in Hext.
  destruct (parse_file fs xml_file) as [[|b boxes]|e]; simpl;
    [intros [= <-]; by left | | done].
  rewrite basename_snoc.
  destruct (fs !! (images_dir ++ [name +:+ ext])) as [[|data]|] eqn:Hdata; [done | | done].
  case_decide; [done|]. intros [= <-]. right.
  exists ext, data, (b :: boxes). split_and!; try done.
  destruct (isdir fs (output_dir ++ [name +:+ ext])); by rewrite <- ?app_assoc.
Qed.

(** Every write is a file below the output directory. *)
Lemma file_writes_below (images_dir output_dir xml_file : path) (fs : gmap path node)
    (writes : list (path * node)) (p : path) (n : node) :
  file_writes images_dir output_dir xml_file fs = Ok writes ->
  (p, n) ∈ writes ->
  (exists data, n = File data) /\
  exists name rest, p = output_dir ++ name :: rest.
Proof.
  intros Hwrites Hin.
  apply file_writes_Ok_inv in Hwrites
    as [->|(ext & data & boxes & _ & _ & _ & _ & _ & ->)].
  { by apply elem_of_nil in Hin. }
  apply elem_of_cons in Hin as [[= -> ->]|Hin].
  - split; [eauto|]. destruct (isdir fs _); eauto.
  - apply list_elem_of_singleton in Hin as [= -> ->]. split; eauto.
Qed.

Lemma set_writes_below (images_dir output_dir : path) (xml_files : list path)
    (fs : gmap path node) (writes : list (path * node)) (p : path) (n : node) :
  set_writes images_dir output_dir xml_files fs = Ok writes ->
  (p, n) ∈ writes ->
  (exists data, n = File data) /\
  exists name rest, p = output_dir ++ name :: rest.
Proof.
  revert fs writes. induction xml_files as [|xml_file rest' IH]; intros fs writes; simpl.
  - intros [= <-] Hin. by apply elem_of_nil in Hin.
  - intros Hset Hin. bind_inv Hset as first Hfirst. bind_inv Hset as others Hothers.
    injection Hset as <-. apply elem_of_app in Hin as [Hin|Hin].
    + by eapply file_writes_below.
    + by eapply IH.
Qed.

Lemma same_inputs_refl (output_dir : path) (fs : gmap path node) :
  same_inputs output_dir fs fs.
Proof. by split. Qed.

Lemma same_inputs_sym (output_dir : path) (fs fs' : gmap path node) :
  same_inputs output_dir fs fs' -> same_inputs output_dir fs' fs.
Proof. intros [Hout Hdirs]. split; intros; symmetry; auto. Qed.

Lemma same_inputs_trans (output_dir : path) (fs1 fs2 fs3 : gmap path node) :
  same_inputs output_dir fs1 fs2 -> same_inputs output_dir fs2 fs3 ->
  same_inputs output_dir fs1 fs3.
Proof.
  intros [Hout Hdirs] [Hout' Hdirs']. split.
  - intros p Hp. by rewrite Hout, Hout'.
  - intros name ext Hext. by rewrite Hdirs, Hdirs'.
Qed.

Lemma below_prefix (output_dir : path) (name : string) (rest : path) :
  output_dir `prefix_of` output_dir ++ name :: rest.
Proof. by apply prefix_app_r. Qed.

(** The file loop reads the annotation and the images only: on file systems
    with the same inputs an entry gives the same writes. *)
Lemma file_writes_same_inputs (images_dir output_dir xml_file : path)
    (fs fs' : gmap path node) :
  ~ output_dir `prefix_of` xml_file ->
  (forall name, ~ output_dir `prefix_of` images_dir ++ [name]) ->
  same_inputs output_dir fs fs' ->
  file_writes images_dir output_dir xml_file fs
  = file_writes images_dir output_dir xml_file fs'.
Proof.
  intros Hxml Himages [Hout Hdirs]. unfold file_writes.
  set (name := splitext_root (basename xml_file)).
  assert (Hfind : find_image fs images_dir name = find_image fs' images_dir name).
  { unfold find_image. apply find_same_test.
    intros p (ext & -> & _)%list_elem_of_fmap.
    unfold path_exists. by rewrite (Hout _ (Himages _)). }
  rewrite <- Hfind.
  destruct (find_image fs images_dir name) as [image_path|] eqn:Himage; [|done].
  apply find_image_Some in Himage as (i & ext & Hext & -> & _ & _).
  apply list_elem_of_lookup_2 in Hext.
  unfold parse_file. rewrite <- (Hout _ Hxml), <- (Hout _ (Himages _)).
  by rewrite basename_snoc, <- (Hdirs name ext Hext).
Qed.

(** The writes of an entry leave the inputs as they are. *)
Lemma file_writes_keeps_inputs (images_dir output_dir xml_file : path)
    (fs : gmap path node) (writes : list (path * node)) :
  file_writes images_dir output_dir xml_file fs = Ok writes ->
  same_inputs output_dir fs (apply_writes writes fs).
Proof.
  intros Hwrites. split.
  - intros p Hp. symmetry. apply apply_writes_other.
    intros ((q & n) & -> & Hin)%list_elem_of_fmap. simpl in Hp.
    destruct (file_writes_below _ _ _ _ _ _ _ Hwrites Hin) as (_ & name & rest & ->).
    apply Hp, below_prefix.
  - intros name ext Hext.
    apply file_writes_Ok_inv in Hwrites
      as [->|(ext' & data & boxes & Hext' & _ & _ & _ & _ & ->)]; [done|].
    set (stem := splitext_root (basename xml_file)).
    unfold apply_writes. simpl. unfold isdir at 2.
    rewrite lookup_insert_ne.
    2:{ intros Heq. apply app_inv_head in Heq. injection Heq as Heq.
        by eapply label_name_no_image. }
    destruct (isdir fs (output_dir ++ [stem +:+ ext'])) eqn:Hdir.
    + rewrite lookup_insert_ne; [done|].
      intros Heq. apply app_inv_head in Heq. discriminate.
    + destruct (decide (output_dir ++ [stem +:+ ext'] = output_dir ++ [name +:+ ext]))
        as [Heq|Hne].
      * rewrite <- Heq, lookup_insert_eq. by rewrite Hdir.
      * by rewrite lookup_insert_ne.
Qed.

Lemma set_writes_same_inputs (images_dir output_dir : path) (xml_files : list path)
    (fs fs' : gmap path node) :
  (forall xml_file, xml_file ∈ xml_files -> ~ output_dir `prefix_of` xml_file) ->
  (forall name, ~ output_dir `prefix_of` images_dir ++ [name]) ->
  same_inputs output_dir fs fs' ->
  set_writes images_dir output_dir xml_files fs
  = set_writes images_dir output_dir xml_files fs'.
Proof.
  intros Hxml Himages. revert fs fs'.
  induction xml_files as [|xml_file rest IH]; intros fs fs' Hsame; simpl; [done|].
  rewrite <- (file_writes_same_inputs images_dir output_dir xml_file fs fs')
    by (try apply Hxml; try left; done).
  destruct (file_writes images_dir output_dir xml_file fs) as [first|e] eqn:Hfirst;
    simpl; [|done].
  rewrite (IH ltac:(intros; apply Hxml; by right)
             (apply_writes first fs) (apply_writes first fs')); [done|].
  pose proof (file_writes_keeps_inputs _ _ _ _ _ Hfirst) as Hkeeps.
  assert (Hfirst' : file_writes images_dir output_dir xml_file fs' = Ok first).
  { rewrite <- Hfirst. symmetry. apply file_writes_same_inputs; [apply Hxml; left|..]; done. }
  pose proof (file_writes_keeps_inputs _ _ _ _ _ Hfirst') as Hkeeps'.
  eapply same_inputs_trans; [apply same_inputs_sym, Hkeeps|].
  exact (same_inputs_trans _ _ _ _ Hsame Hkeeps').
Qed.

Lemma set_writes_keeps_inputs (images_dir output_dir : path) (xml_files : list path)
    (fs : gmap path node) (writes : list (path * node)) :
  set_writes images_dir output_dir xml_files fs = Ok writes ->
  same_inputs output_dir fs (apply_writes writes fs).
Proof.
  revert fs writes. induction xml_files as [|xml_file rest IH]; intros fs writes; simpl.
  - intros [= <-]. apply same_inputs_refl.
  - intros Hset. bind_inv Hset as first Hfirst. bind_inv Hset as others Hothers.
    injection Hset as <-. rewrite apply_writes_app.
    eapply same_inputs_trans; [by eapply file_writes_keeps_inputs | by apply IH].
Qed.

End SameInputs.

Section SetWrites.
Context {rng : Type} `{!PyLib rng}.

(** The writes of the loop are the writes that its entries give on the file
    system the loop started with. *)
Lemma set_writes_elem (images_dir output_dir : path) (xml_files : list path)
    (fs : gmap path node) (writes : list (path * node)) :
  (forall xml_file, xml_file ∈ xml_files -> ~ output_dir `prefix_of` xml_file) ->
  (forall name, ~ output_dir `prefix_of` images_dir ++ [name]) ->
  set_writes images_dir output_dir xml_files fs = Ok writes ->
  (forall xml_file, xml_file ∈ xml_files ->
     exists own, file_writes images_dir output_dir xml_file fs = Ok own /\
                 forall w, w ∈ own -> w ∈ writes) /\
  (forall w, w ∈ writes ->
     exists xml_file own, xml_file ∈ xml_files /\
       file_writes images_dir output_dir xml_file fs = Ok own /\ w ∈ own).
Proof.
  intros Hxml Himages. revert fs writes.
  induction xml_files as [|first_file rest IH]; intros fs writes; simpl.
  - intros [= <-]. split; [intros x Hx | intros x Hx]; by apply elem_of_nil in Hx.
  - intros Hset. bind_inv Hset as first Hfirst. bind_inv Hset as others Hothers.
    injection Hset as <-.
    destruct (IH ltac:(intros; apply Hxml; by right) _ _ Hothers) as [Hown Hfrom].
    assert (Hback : forall xml_file, xml_file ∈ rest ->
              file_writes images_dir output_dir xml_file (apply_writes first fs)
              = file_writes images_dir output_dir xml_file fs).
    { intros xml_file Hin. symmetry. apply file_writes_same_inputs;
        [apply Hxml; by right | done | by eapply file_writes_keeps_inputs]. }
    split.
    + intros xml_file [->|Hin]%elem_of_cons.
      * exists first. split; [done|]. intros w Hw. apply elem_of_app. by left.
      * destruct (Hown _ Hin) as (own & Hwrites & Hsub). exists own.
        rewrite <- Hback by done. split; [done|].
        intros w Hw. apply elem_of_app. right. by apply Hsub.
    + intros w [Hw|Hw]%elem_of_app.
      * exists first_file, first. split; [by left | done].
      * destruct (Hfrom _ Hw) as (xml_file & own & Hin & Hwrites & Hown').
        exists xml_file, own. rewrite <- Hback by done. split; [by right | done].
Qed.

End SetWrites.

Lemma list_ascii_of_string_app (a b : string) :
  String.list_ascii_of_string (a +:+ b)
  = String.list_ascii_of_string a ++ String.list_ascii_of_string b.
Proof. induction a as [|c a IH]; [done|]. rewrite append_cons. simpl. by rewrite IH. Qed.

Lemma list_ascii_of_string_inj (a b : string) :
  String.list_ascii_of_string a = String.list_ascii_of_string b -> a = b.
Proof.
  intros Heq. rewrite <- (String.string_of_list_ascii_of_string a),
    <- (String.string_of_list_ascii_of_string b). by rewrite Heq.
Qed.

(** A name with an extension put to it gives the name back. *)
Lemma append_inj_suffix (name name' ext : string) :
  name +:+ ext = name' +:+ ext -> name = name'.
Proof.
  intros Heq. apply (f_equal String.list_ascii_of_string) in Heq.
  rewrite !list_ascii_of_string_app in Heq. apply app_inv_tail in Heq.
  by apply list_ascii_of_string_inj.
Qed.

(** The name of an image tells its stem and its extension. *)
Lemma image_name_inj (name name' ext ext' : string) :
  ext ∈ image_extensions -> ext' ∈ image_extensions ->
  name +:+ ext = name' +:+ ext' -> name = name' /\ ext = ext'.
Proof.
  intros Hext Hext' Heq.
  assert (Hsame : ext = ext').
  { apply (f_equal String.list_ascii_of_string) in Heq.
    rewrite !list_ascii_of_string_app in Heq.
    apply (f_equal (@rev ascii)) in Heq. rewrite !rev_app_distr in Heq.
    unfold image_extensions in Hext, Hext'.
    repeat (apply elem_of_cons in Hext as [->|Hext]);
      [| | |by apply elem_of_nil in Hext];
      repeat (apply elem_of_cons in Hext' as [->|Hext']);
      try (by apply elem_of_nil in Hext'); try reflexivity;
      simpl in Heq; discriminate. }
  subst ext'. split; [by eapply append_inj_suffix | done].
Qed.

Lemma NoDup_fmap_same {A B : Type} (f : A -> B) (l : list A) (x y : A) :
  NoDup (f <$> l) -> x ∈ l -> y ∈ l -> f x = f y -> x = y.
Proof.
  induction l as [|a l IH]; intros Hnodup Hx Hy Hxy.
  { by apply elem_of_nil in Hx. }
  simpl in Hnodup. apply NoDup_cons in Hnodup as [Hnotin Hnodup].
  apply elem_of_cons in Hx as [->|Hx]; apply elem_of_cons in Hy as [->|Hy].
  - done.
  - exfalso. apply Hnotin. rewrite Hxy. by apply list_elem_of_fmap_2.
  - exfalso. apply Hnotin. rewrite <- Hxy. by apply list_elem_of_fmap_2.
  - by apply IH.
Qed.

Section ProcessSetEffects.
Context {rng : Type} `{!PyLib rng}.

Lemma process_set_Ok_writes (images_dir output_dir : path) (set_name : string)
    (xml_files : list path) (w w' : @world rng) :
  process_set xml_files images_dir output_dir set_name w = Ok w' ->
  exists writes,
    set_writes images_dir output_dir xml_files (w_fs w) = Ok writes /\
    w_fs w' = apply_writes writes (w_fs w) /\ w_rng w' = w_rng w.
Proof.
  intros Hrun.
  pose proof (process_set_set_writes images_dir output_dir set_name xml_files w) as Hset.
  destruct (set_writes images_dir output_dir xml_files (w_fs w)) as [writes|e].
  - destruct Hset as (w'' & Hrun' & Hfs & Hrng). rewrite Hrun in Hrun'.
    injection Hrun' as <-. eauto.
  - congruence.
Qed.

(** The writes of an entry that has its image and a box. *)
Lemma file_writes_eligible (images_dir output_dir xml_file image_path : path)
    (fs : gmap path node) (data : string) (boxes : list box) (own : list (path * node)) :
  find_image fs images_dir (splitext_root (basename xml_file)) = Some image_path ->
  fs !! image_path = Some (File data) ->
  parse_file fs xml_file = Ok boxes -> boxes <> [] ->
  file_writes images_dir output_dir xml_file fs = Ok own ->
  own = [(if isdir fs (output_dir ++ [basename image_path])
          then output_dir ++ [basename image_path; basename image_path]
          else output_dir ++ [basename image_path], File data);
         (output_dir ++ [splitext_root (basename xml_file) +:+ ".txt"],
          File (label_text boxes))].
Proof.
  intros Himage Hdata Hparse Hboxes. unfold file_writes.
  rewrite Himage, Hparse. simpl. destruct boxes as [|b boxes]; [done|].
  rewrite Hdata. case_decide; [done|]. intros [= <-].
  destruct (isdir fs (output_dir ++ [basename image_path])); by rewrite <- ?app_assoc.
Qed.

End ProcessSetEffects.

(** C7.  The image of an annotation is looked for under the annotation's base
    name with the extensions .jpg, .jpeg, .png, in that order, and the first
    path that exists is taken: it is the image that the body of the file loop
    copies, when the annotation has a box and the body returns.  When none
    of the three exists, the entry is skipped with a warning, nothing is
    raised, and the loop goes on with the next file. *)
Theorem find_image_first_existing `{PyLib rng} :
  image_extensions = [".jpg"; ".jpeg"; ".png"]
  /\
  (forall (fs : gmap path node) (images_dir : path) (name : string) (p : path),
      find_image fs images_dir name = Some p <->
      exists (i : nat) (ext : string),
        image_extensions !! i = Some ext /\
        p = images_dir ++ [name +:+ ext] /\
        path_exists fs p = true /\
        forall (j : nat) (ext' : string),
          (j < i)%nat -> image_extensions !! j = Some ext' ->
          path_exists fs (images_dir ++ [name +:+ ext']) = false)
  /\
  (forall (images_dir output_dir xml_file : path) (rest : list path)
          (set_name : string) (w : @world rng),
      (forall ext, ext ∈ image_extensions ->
         path_exists (w_fs w)
           (images_dir ++ [splitext_root (basename xml_file) +:+ ext]) = false) ->
      process_file images_dir output_dir xml_file w
      = Ok (print (WarnNoImage (basename xml_file)) w)
      /\ process_set (xml_file :: rest) images_dir output_dir set_name w
         = process_set rest images_dir output_dir set_name
             (print (WarnNoImage (basename xml_file)) w))
  /\
  (forall (images_dir output_dir xml_file : path) (w w' : @world rng)
          (i : nat) (ext data : string) (boxes : list box),
      image_extensions !! i = Some ext ->
      (forall (j : nat) (ext' : string),
          (j < i)%nat -> image_extensions !! j = Some ext' ->
          path_exists (w_fs w)
            (images_dir ++ [splitext_root (basename xml_file) +:+ ext']) = false) ->
      w_fs w !! (images_dir ++ [splitext_root (basename xml_file) +:+ ext])
      = Some (File data) ->
      parse_file (w_fs w) xml_file = Ok boxes -> boxes <> [] ->
      process_file images_dir output_dir xml_file w = Ok w' ->
      let image_filename := splitext_root (basename xml_file) +:+ ext in
      w_out w' = w_out w /\
      w_fs w' !! (if isdir (w_fs w) (output_dir ++ [image_filename])
                  then output_dir ++ [image_filename; image_filename]
                  else output_dir ++ [image_filename])
      = Some (File data)).
Proof.
  split; [reflexivity|]. split; [apply find_image_Some|]. split.
  - intros images_dir output_dir xml_file rest set_name w Hnone.
    apply find_image_None in Hnone.
    pose proof (process_file_no_image images_dir output_dir xml_file w Hnone) as Hskip.
    split; [assumption|]. unfold process_set. simpl. by rewrite Hskip.
  - intros images_dir output_dir xml_file w w' i ext data boxes Hext Hbefore Hdata Hparse
      Hboxes Hrun image_filename. subst image_filename.
    set (image_filename := splitext_root (basename xml_file) +:+ ext) in *.
    assert (Himage : find_image (w_fs w) images_dir (splitext_root (basename xml_file))
                     = Some (images_dir ++ [image_filename])).
    { apply find_image_Some. exists i, ext. split_and!; [done | done | | done].
      unfold path_exists. by rewrite Hdata. }
    apply list_elem_of_lookup_2 in Hext.
    unfold process_file in Hrun. rewrite Himage, Hparse in Hrun. simpl in Hrun.
    destruct boxes as [|b boxes]; [done|].
    rewrite basename_snoc in Hrun. unfold copy in Hrun. rewrite Hdata in Hrun.
    rewrite basename_snoc in Hrun.
    case_decide as Hsame; [discriminate Hrun|]. simpl in Hrun. injection Hrun as <-.
    split; [reflexivity|]. simpl. unfold write_file.
    rewrite lookup_insert_ne.
    + destruct (isdir (w_fs w) (output_dir ++ [image_filename]));
        rewrite <- ?app_assoc; apply lookup_insert_eq.
    + destruct (isdir (w_fs w) (output_dir ++ [image_filename])).
      * intros Heq%app_inv_head. discriminate Heq.
      * intros Heq%app_inv_head. injection Heq as Heq.
        by apply (label_name_no_image (splitext_root (basename xml_file))
                    (splitext_root (basename xml_file)) ext).
Qed.

Lemma find_image_first_existing_witness :
  (exists (i : nat) (ext : string),
      image_extensions !! i = Some ext /\
      sample_images ++ ["a.jpg"] = sample_images ++ ["a" +:+ ext] /\
      path_exists (sample_files "<road/>") (sample_images ++ ["a.jpg"]) = true /\
      forall (j : nat) (ext' : string),
        (j < i)%nat -> image_extensions !! j = Some ext' ->
        path_exists (sample_files "<road/>") (sample_images ++ ["a" +:+ ext']) = false)
  /\
  process_set [sample_annotations ++ ["b.xml"]; sample_annotations ++ ["a.xml"]]
    sample_images ["model"; "roads"; "train"] "training" (sample_world "<road/>")
  = process_set [sample_annotations ++ ["a.xml"]]
      sample_images ["model"; "roads"; "train"] "training"
      (print (WarnNoImage "b.xml") (sample_world "<road/>"))
  /\
  (exists w',
      process_file sample_images ["model"; "roads"; "train"]
        (sample_annotations ++ ["a.xml"]) (sample_run two_images) = Ok w' /\
      w_out w' = w_out (sample_run two_images) /\
      w_fs w' !! (if isdir (w_fs (sample_run two_images))
                       (["model"; "roads"; "train"]
                        ++ [splitext_root (basename (sample_annotations ++ ["a.xml"]))
                            +:+ ".jpeg"])
                  then ["model"; "roads"; "train"]
                       ++ [splitext_root (basename (sample_annotations ++ ["a.xml"]))
                           +:+ ".jpeg";
                           splitext_root (basename (sample_annotations ++ ["a.xml"]))
                           +:+ ".jpeg"]
                  else ["model"; "roads"; "train"]
                       ++ [splitext_root (basename (sample_annotations ++ ["a.xml"]))
                           +:+ ".jpeg"])
      = Some (File "JPEG, second extension")).
Proof.
  destruct (@find_image_first_existing nat sample_lib) as (_ & Hfirst & Hskip & Hcopy).
  split; [|split].
  - apply (Hfirst (sample_files "<road/>") sample_images "a"). reflexivity.
  - apply (Hskip sample_images ["model"; "roads"; "train"]
             (sample_annotations ++ ["b.xml"]) [sample_annotations ++ ["a.xml"]]
             "training" (sample_world "<road/>")).
    intros ext Hext. unfold image_extensions in Hext.
    repeat (apply elem_of_cons in Hext as [->|Hext]; [reflexivity|]).
    by apply elem_of_nil in Hext.
  - destruct (process_file sample_images ["model"; "roads"; "train"]
                (sample_annotations ++ ["a.xml"]) (sample_run two_images))
      as [w'|e] eqn:Hrun; [|vm_compute in Hrun; discriminate Hrun].
    destruct (parse_file (w_fs (sample_run two_images)) (sample_annotations ++ ["a.xml"]))
      as [boxes|e] eqn:Hparse; [|vm_compute in Hparse; discriminate Hparse].
    exists w'. split; [reflexivity|].
    apply (Hcopy sample_images ["model"; "roads"; "train"] (sample_annotations ++ ["a.xml"])
             (sample_run two_images) w' 1%nat ".jpeg" "JPEG, second extension" boxes).
    + reflexivity.
    + intros j ext' Hj Hext'. destruct j as [|j]; [|lia].
      injection Hext' as <-. vm_compute. reflexivity.
    + vm_compute. reflexivity.
    + exact Hparse.
    + intros ->. vm_compute in Hparse. discriminate Hparse.
    + exact Hrun.
Defined.

(** The sample run of the body of the file loop: of the two images of the
    annotation the one with the earlier extension is copied, the label file
    is written, and the other image is not copied. *)
Example process_file_two_images_sample :
  let after := process_file sample_images ["model"; "roads"; "train"]
                 (sample_annotations ++ ["a.xml"]) (sample_run two_images) in
  file_after after ["model"; "roads"; "train"; "a.jpeg"]
  = Some (File "JPEG, second extension") /\
  file_after after ["model"; "roads"; "train"; "a.png"] = None /\
  file_after after ["model"; "roads"; "train"; "a.txt"]
  = Some (File ("0 0.312500 0.312500 0.312500 0.208333" +:+ newline)).
Proof. repeat split; vm_compute; reflexivity. Qed.

(** X2.  The file loop writes files strictly below its output directory and
    nothing else: every other path holds after the loop what it held before,
    no path is removed, every node that has changed is a file, and the
    random number generator is left alone. *)
Theorem process_set_writes_below_output `{PyLib rng} (xml_files : list path)
    (images_dir output_dir : path) (set_name : string) (w w' : @world rng) :
  process_set xml_files images_dir output_dir set_name w = Ok w' ->
  (forall p, ~ (exists name rest, p = output_dir ++ name :: rest) ->
     w_fs w' !! p = w_fs w !! p) /\
  (forall p, is_Some (w_fs w !! p) -> is_Some (w_fs w' !! p)) /\
  (forall p, w_fs w' !! p <> w_fs w !! p -> exists data, w_fs w' !! p = Some (File data)) /\
  w_rng w' = w_rng w.
Proof.
  intros Hrun.
  apply process_set_Ok_writes in Hrun as (writes & Hset & -> & ->).
  split_and!; [| |  | done].
  - intros p Hp. apply apply_writes_other.
    intros ((q & n) & -> & Hin)%list_elem_of_fmap.
    destruct (set_writes_below _ _ _ _ _ _ _ Hset Hin) as (_ & Hbelow). by apply Hp.
  - intros p. apply apply_writes_keeps.
  - intros p Hchanged. destruct (decide (p ∈ writes.*1)) as [Hp|Hp].
    + destruct (apply_writes_written writes (w_fs w) p Hp) as (n & Hin & Hn).
      destruct (set_writes_below _ _ _ _ _ _ _ Hset Hin) as ((data & ->) & _).
      exists data. apply Hn.
    + by rewrite apply_writes_other in Hchanged.
Qed.

Lemma process_set_writes_below_output_witness :
  exists w',
    process_set [sample_annotations ++ ["a.xml"]] sample_images ["model"; "roads"; "train"]
      "training" (sample_world "<road/>") = Ok w' /\
    (forall p, ~ (exists name rest, p = ["model"; "roads"; "train"] ++ name :: rest) ->
       w_fs w' !! p = w_fs (sample_world "<road/>") !! p) /\
    (forall p, is_Some (w_fs (sample_world "<road/>") !! p) -> is_Some (w_fs w' !! p)) /\
    (forall p, w_fs w' !! p <> w_fs (sample_world "<road/>") !! p ->
       exists data, w_fs w' !! p = Some (File data)) /\
    w_rng w' = w_rng (sample_world "<road/>").
Proof.
  destruct (process_set [sample_annotations ++ ["a.xml"]] sample_images
              ["model"; "roads"; "train"] "training" (sample_world "<road/>"))
    as [w'|e] eqn:Hrun.
  - exists w'. split; [reflexivity|].
    exact (@process_set_writes_below_output nat sample_lib _ _ _ _ _ _ Hrun).
  - vm_compute in Hrun. discriminate Hrun.
Defined.

(** X3.  The file loop is idempotent on files that may be overwritten: when
    the annotations and the images directory are not below the output
    directory, and every image and label file that the first run left in the
    output directory is writable, a second run over the same files, after a
    first one that did not raise, does not raise either and leaves the file
    system exactly as the first run left it.  Permission modes are not part
    of the file system of the model, so the assumption on them is in force
    throughout and has no hypothesis of its own: [shutil.copy] gives the copy
    the mode of the image, and over the copy of a read-only image the second
    run raises [PermissionError]. *)
Theorem process_set_idempotent `{PyLib rng} (xml_files : list path)
    (images_dir output_dir : path) (set_name : string) (w w1 : @world rng) :
  (forall xml_file, xml_file ∈ xml_files -> ~ output_dir `prefix_of` xml_file) ->
  (forall name, ~ output_dir `prefix_of` images_dir ++ [name]) ->
  process_set xml_files images_dir output_dir set_name w = Ok w1 ->
  exists w2,
    process_set xml_files images_dir output_dir set_name w1 = Ok w2 /\
    w_fs w2 = w_fs w1.
Proof.
  intros Hxml Himages Hrun.
  apply process_set_Ok_writes in Hrun as (writes & Hset & Hfs & _).
  pose proof (set_writes_keeps_inputs _ _ _ _ _ Hset) as Hsame.
  pose proof (process_set_set_writes images_dir output_dir set_name xml_files w1) as Hagain.
  assert (Hset1 : set_writes images_dir output_dir xml_files (w_fs w1) = Ok writes).
  { rewrite Hfs, <- Hset. symmetry. by apply set_writes_same_inputs. }
  rewrite Hset1 in Hagain. destruct Hagain as (w2 & Hrun2 & Hfs2 & _).
  exists w2. split; [done|]. by rewrite Hfs2, Hfs, apply_writes_twice.
Qed.

Lemma process_set_idempotent_witness :
  exists w1 w2,
    process_set [sample_annotations ++ ["a.xml"]] sample_images ["model"; "roads"; "train"]
      "training" (sample_world "<road/>") = Ok w1 /\
    process_set [sample_annotations ++ ["a.xml"]] sample_images ["model"; "roads"; "train"]
      "training" w1 = Ok w2 /\
    w_fs w2 = w_fs w1.
Proof.
  destruct (process_set [sample_annotations ++ ["a.xml"]] sample_images
              ["model"; "roads"; "train"] "training" (sample_world "<road/>"))
    as [w1|e] eqn:Hrun.
  - destruct (@process_set_idempotent nat sample_lib [sample_annotations ++ ["a.xml"]]
                sample_images ["model"; "roads"; "train"] "training"
                (sample_world "<road/>") w1) as (w2 & Hagain & Hsame).
    + intros xml_file ->%list_elem_of_singleton [k Hk]. discriminate.
    + intros name [k Hk]. discriminate.
    + exact Hrun.
    + exists w1, w2. split_and!; [reflexivity | exact Hagain | exact Hsame].
  - vm_compute in Hrun. discriminate Hrun.
Defined.

(** What the writes of the loop leave for an annotation that has an image
    and at least one box, when no other annotation has its base name. *)
Lemma set_writes_complete `{PyLib rng} (images_dir output_dir : path)
    (xml_files : list path) (fs : gmap path node) (writes : list (path * node)) :
  (forall xml_file, xml_file ∈ xml_files -> ~ output_dir `prefix_of` xml_file) ->
  (forall name, ~ output_dir `prefix_of` images_dir ++ [name]) ->
  set_writes images_dir output_dir xml_files fs = Ok writes ->
  forall (xml_file image_path : path) (data : string) (boxes : list box),
    xml_file ∈ xml_files ->
    (forall other, other ∈ xml_files ->
       splitext_root (basename other) = splitext_root (basename xml_file) ->
       other = xml_file) ->
    find_image fs images_dir (splitext_root (basename xml_file)) = Some image_path ->
    fs !! image_path = Some (File data) ->
    parse_file fs xml_file = Ok boxes -> boxes <> [] ->
    apply_writes writes fs !! (output_dir ++ [splitext_root (basename xml_file) +:+ ".txt"])
    = Some (File (label_text boxes)) /\
    apply_writes writes fs !! (if isdir fs (output_dir ++ [basename image_path])
                               then output_dir ++ [basename image_path; basename image_path]
                               else output_dir ++ [basename image_path])
    = Some (File data).
Proof.
  intros Hxml Himages Hset xml_file image_path data boxes Hin Hunique Himage Hdata
    Hparse Hboxes.
  destruct (set_writes_elem _ _ _ _ _ Hxml Himages Hset) as [Hown Hfrom].
  destruct (Hown _ Hin) as (own & Hwrites & Hsub).
  pose proof (file_writes_eligible _ _ _ _ _ _ _ _ Himage Hdata Hparse Hboxes Hwrites)
    as Hshape.
  apply find_image_Some in Himage as Hfound.
  destruct Hfound as (i & ext & Hext & Hpath & _ & _).
  apply list_elem_of_lookup_2 in Hext.
  set (stem := splitext_root (basename xml_file)) in *.
  assert (Hbase : basename image_path = stem +:+ ext)
    by (rewrite Hpath; apply basename_snoc).
  set (target := if isdir fs (output_dir ++ [basename image_path])
                 then output_dir ++ [basename image_path; basename image_path]
                 else output_dir ++ [basename image_path]) in *.
  (* whoever writes one of the two paths is this annotation *)
  assert (Howner : forall p n,
             p = output_dir ++ [stem +:+ ".txt"] \/ p = target ->
             (p, n) ∈ writes -> (p, n) ∈ own).
  { intros p n Hp Hw.
    destruct (Hfrom _ Hw) as (other & own' & Hother & Hwrites' & Hin').
    assert (Hstem : splitext_root (basename other) = stem); [|
      assert (other = xml_file) as -> by (by apply Hunique);
      rewrite Hwrites in Hwrites'; by injection Hwrites' as <-].
    apply file_writes_Ok_inv in Hwrites'
      as [->|(ext' & data' & boxes' & Hext' & _ & _ & _ & _ & ->)].
    { by apply elem_of_nil in Hin'. }
    set (stem' := splitext_root (basename other)) in *.
    apply elem_of_cons in Hin' as [[= Heq _]|Hin'].
    - destruct Hp as [-> | ->].
      + exfalso. destruct (isdir fs (output_dir ++ [stem' +:+ ext']));
          apply app_inv_head in Heq; [discriminate|].
        injection Heq as Heq.
        exact (label_name_no_image stem stem' ext' Hext' Heq).
      + unfold target in Heq. rewrite Hbase in Heq.
        destruct (isdir fs (output_dir ++ [stem +:+ ext]));
          destruct (isdir fs (output_dir ++ [stem' +:+ ext']));
          apply app_inv_head in Heq; try discriminate;
          injection Heq as Heq; symmetry;
          exact (proj1 (image_name_inj stem stem' ext ext' Hext Hext' Heq)).
    - apply list_elem_of_singleton in Hin' as [= Heq _].
      destruct Hp as [-> | ->].
      + apply app_inv_head in Heq. injection Heq as Heq. symmetry.
        by eapply append_inj_suffix.
      + exfalso. unfold target in Heq. rewrite Hbase in Heq.
        destruct (isdir fs (output_dir ++ [stem +:+ ext]));
          apply app_inv_head in Heq; [discriminate|].
        injection Heq as Heq. symmetry in Heq.
        exact (label_name_no_image stem' stem ext Hext Heq). }
  assert (Hfinal : forall p n, (p, n) ∈ own ->
             (p = output_dir ++ [stem +:+ ".txt"] \/ p = target) ->
             (forall n', (p, n') ∈ own -> n' = n) ->
             apply_writes writes fs !! p = Some n).
  { intros p n Hpn Hp Honly.
    destruct (apply_writes_written writes fs p) as (n' & Hw & Hn').
    { apply list_elem_of_fmap. exists (p, n). split; [done | by apply Hsub]. }
    rewrite Hn'. f_equal. apply Honly. by apply Howner. }
  assert (Hdistinct : target <> output_dir ++ [stem +:+ ".txt"]).
  { unfold target. rewrite Hbase.
    destruct (isdir fs (output_dir ++ [stem +:+ ext]));
      intros Heq; apply app_inv_head in Heq; [discriminate|].
    injection Heq as Heq. symmetry in Heq.
    exact (label_name_no_image stem stem ext Hext Heq). }
  split.
  - apply Hfinal; [rewrite Hshape; right; left | by left |].
    intros n'. rewrite Hshape.
    intros [[= Heq _]|Hn']%elem_of_cons; [by symmetry in Heq|].
    by apply list_elem_of_singleton in Hn' as [= ->].
  - apply Hfinal; [rewrite Hshape; left | by right |].
    intros n'. rewrite Hshape.
    intros [[= ->]|Hn']%elem_of_cons; [done|].
    by apply list_elem_of_singleton in Hn' as [= Heq _].
Qed.

(** X4.  When the annotations and the images directory are not below the
    output directory and no two annotations share a base name, a run of the
    file loop that does not raise leaves, for every annotation that has an
    image and at least one box, the label file with exactly the lines of its
    boxes and a copy of the image with exactly the bytes of the image. *)
Theorem process_set_output_complete `{PyLib rng} (xml_files : list path)
    (images_dir output_dir : path) (set_name : string) (w w' : @world rng) :
  (forall xml_file, xml_file ∈ xml_files -> ~ output_dir `prefix_of` xml_file) ->
  (forall name, ~ output_dir `prefix_of` images_dir ++ [name]) ->
  NoDup ((fun xml_file => splitext_root (basename xml_file)) <$> xml_files) ->
  process_set xml_files images_dir output_dir set_name w = Ok w' ->
  forall (xml_file image_path : path) (data : string) (boxes : list box),
    xml_file ∈ xml_files ->
    find_image (w_fs w) images_dir (splitext_root (basename xml_file)) = Some image_path ->
    w_fs w !! image_path = Some (File data) ->
    parse_file (w_fs w) xml_file = Ok boxes -> boxes <> [] ->
    w_fs w' !! (output_dir ++ [splitext_root (basename xml_file) +:+ ".txt"])
    = Some (File (label_text boxes)) /\
    w_fs w' !! (if isdir (w_fs w) (output_dir ++ [basename image_path])
                then output_dir ++ [basename image_path; basename image_path]
                else output_dir ++ [basename image_path])
    = Some (File data).
Proof.
  intros Hxml Himages Hnodup Hrun xml_file image_path data boxes Hin Himage Hdata
    Hparse Hboxes.
  apply process_set_Ok_writes in Hrun as (writes & Hset & -> & _).
  eapply set_writes_complete; try done.
  intros other Hother Hstem.
  by apply (NoDup_fmap_same (fun x => splitext_root (basename x)) xml_files).
Qed.

Lemma process_set_output_complete_witness :
  exists w' boxes,
    process_set [sample_annotations ++ ["a.xml"]] sample_images ["model"; "roads"; "train"]
      "training" (sample_world "<road/>") = Ok w' /\
    parse_file (w_fs (sample_world "<road/>")) (sample_annotations ++ ["a.xml"]) = Ok boxes /\
    w_fs w' !! (["model"; "roads"; "train"] ++ ["a.txt"]) = Some (File (label_text boxes)) /\
    w_fs w' !! (["model"; "roads"; "train"] ++ ["a.jpg"]) = Some (File "JPEG").
Proof.
  destruct (process_set [sample_annotations ++ ["a.xml"]] sample_images
              ["model"; "roads"; "train"] "training" (sample_world "<road/>"))
    as [w'|e] eqn:Hrun; [|vm_compute in Hrun; discriminate Hrun].
  destruct (parse_file (w_fs (sample_world "<road/>")) (sample_annotations ++ ["a.xml"]))
    as [boxes|e] eqn:Hparse; [|vm_compute in Hparse; discriminate Hparse].
  exists w', boxes. split; [reflexivity|]. split; [reflexivity|].
  apply (@process_set_output_complete nat sample_lib [sample_annotations ++ ["a.xml"]]
           sample_images ["model"; "roads"; "train"] "training" (sample_world "<road/>") w'
           ltac:(intros xml_file ->%list_elem_of_singleton [k Hk]; discriminate)
           ltac:(intros name [k Hk]; discriminate)
           (NoDup_singleton _) Hrun
           (sample_annotations ++ ["a.xml"]) (sample_images ++ ["a.jpg"]) "JPEG" boxes).
  - apply list_elem_of_singleton. reflexivity.
  - vm_compute. reflexivity.
  - vm_compute. reflexivity.
  - exact Hparse.
  - intros ->. vm_compute in Hparse. discriminate Hparse.
Defined.

(** ** What a run leaves outside the output tree *)

Lemma writes_below_refl (d : path) (fs : gmap path node) : writes_below d fs fs.
Proof. split_and!; auto. Qed.

Lemma writes_below_trans (d : path) (fs1 fs2 fs3 : gmap path node) :
  writes_below d fs1 fs2 -> writes_below d fs2 fs3 -> writes_below d fs1 fs3.
Proof.
  intros (Hstay & Hnew & Hkeep) (Hstay' & Hnew' & Hkeep'). split_and!.
  - intros p n Hp Hout. apply Hstay'; [by apply Hstay | done].
  - intros p n Hp. destruct (Hnew' p n Hp) as [Hp2|?]; [by apply Hnew | tauto].
  - intros p Hp. by apply Hkeep', Hkeep.
Qed.

Lemma writes_below_with_dirs (d rest : path) (fs : gmap path node) :
  writes_below d fs (with_dirs (d ++ rest) fs).
Proof.
  split_and!.
  - intros p n Hp _. apply with_dirs_lookup. by left.
  - intros p n [Hp|(_ & -> & _ & Hprefix)]%with_dirs_lookup; [by left | right].
    destruct (prefix_weak_total p d (d ++ rest) Hprefix (prefix_app_r d d rest (reflexivity d)));
      [right | left]; done.
  - intros p [n Hp]. exists n. apply with_dirs_lookup. by left.
Qed.

Lemma writes_below_apply (d rest : path) (writes : list (path * node))
    (fs : gmap path node) :
  (forall p n, (p, n) ∈ writes -> exists name rest', p = (d ++ rest) ++ name :: rest') ->
  writes_below d fs (apply_writes writes fs).
Proof.
  intros Hbelow.
  assert (Hunder : forall p, p ∈ writes.*1 -> d `prefix_of` p).
  { intros p ((q & n) & -> & Hin)%list_elem_of_fmap.
    destruct (Hbelow _ _ Hin) as (name & rest' & ->). simpl.
    rewrite <- app_assoc. by apply prefix_app_r. }
  split_and!.
  - intros p n Hp Hout. rewrite apply_writes_other; [done|]. intros Hin. by apply Hout, Hunder.
  - intros p n [Hp|Hin]%apply_writes_lookup; [by left|]. right. left.
    apply Hunder. apply list_elem_of_fmap. by exists (p, n).
  - intros p. apply apply_writes_keeps.
Qed.

Lemma for_each_preserves {A S : Type} (R : S -> S -> Prop) (body : A -> S -> result S)
    (xs : list A) (s s' : S) :
  (forall s, R s s) -> (forall s1 s2 s3, R s1 s2 -> R s2 s3 -> R s1 s3) ->
  (forall x s1 s2, x ∈ xs -> body x s1 = Ok s2 -> R s1 s2) ->
  for_each body xs s = Ok s' -> R s s'.
Proof.
  intros Hrefl Htrans. revert s. induction xs as [|x xs IH]; intros s Hbody; simpl.
  - intros [= <-]. apply Hrefl.
  - intros Hloop. bind_inv Hloop as s1 Hs1.
    eapply Htrans; [eapply Hbody; [by left | done]|].
    apply IH; [|done]. intros y s2 s3 Hy. apply Hbody. by right.
Qed.

Section RunFrame.
Context {rng : Type} `{!PyLib rng}.

Lemma process_set_writes_below (d rest : path) (xml_files : list path) (images_dir : path)
    (set_name : string) (w w' : @world rng) :
  process_set xml_files images_dir (d ++ rest) set_name w = Ok w' ->
  writes_below d (w_fs w) (w_fs w').
Proof.
  intros Hrun. apply process_set_Ok_writes in Hrun as (writes & Hset & -> & _).
  apply (writes_below_apply d rest). intros p n Hin.
  by destruct (set_writes_below _ _ _ _ _ _ _ Hset Hin) as (_ & Hbelow).
Qed.

Lemma process_dataset_writes_below (d : path) (subdir : string)
    (images_dir annotation_dir : path) (val_split : float) (w w' : @world rng) :
  process_dataset subdir images_dir annotation_dir (d ++ [subdir; "train"])
    (d ++ [subdir; "val"]) val_split w = Ok w' ->
  writes_below d (w_fs w) (w_fs w').
Proof.
  unfold process_dataset. simpl.
  destruct (glob_xml (w_fs w) annotation_dir) as [|first rest] eqn:Hglob.
  { intros [= <-]. apply writes_below_refl. }
  destruct (shuffle (w_rng w) (first :: rest)) as [shuffled g].
  intros Hrun. bind_inv Hrun as split Hsplit. destruct split as [train_files val_files].
  bind_inv Hrun as w1 Htrain. bind_inv Hrun as w2 Hval. injection Hrun as <-.
  apply process_set_writes_below in Htrain, Hval. simpl in *.
  by eapply writes_below_trans.
Qed.

Lemma entered_writes_below (model_dir : path) (subdir : string) (w : @world rng) :
  writes_below model_dir (w_fs w) (w_fs (entered model_dir subdir w)).
Proof.
  unfold entered. simpl.
  eapply writes_below_trans; apply writes_below_with_dirs.
Qed.

Lemma convert_subdir_cases (voc_dir model_dir : path) (val_split : float)
    (subdir : string) (w w' : @world rng) :
  convert_subdir voc_dir model_dir val_split subdir w = Ok w' ->
  (exists m, w' = print m (entered model_dir subdir w) /\
             (m = MsgNoTrainFolder subdir \/
              m = MsgNoImagesOrAnnotations (voc_dir ++ [subdir; "train"]))) \/
  (exists annotation_dir,
      find_annotation_dir (w_fs (entered model_dir subdir w)) (voc_dir ++ [subdir; "train"])
      = Some annotation_dir /\
      process_dataset subdir ((voc_dir ++ [subdir; "train"]) ++ ["images"]) annotation_dir
        (model_dir ++ [subdir; "train"]) (model_dir ++ [subdir; "val"]) val_split
        (entered model_dir subdir w) = Ok w').
Proof.
  intros Hrun.
  destruct (convert_subdir_Ok_clear _ _ _ _ _ _ Hrun) as [Hclear_train Hclear_val].
  destruct (isdir (w_fs (entered model_dir subdir w)) (voc_dir ++ [subdir; "train"]))
    eqn:Htrain.
  2:{ destruct (convert_subdir_skip voc_dir model_dir val_split subdir w
                  Hclear_train Hclear_val (or_introl Htrain)) as (m & Hskip & Hm).
      left. exists m. split; [congruence | done]. }
  destruct (find_annotation_dir (w_fs (entered model_dir subdir w))
              (voc_dir ++ [subdir; "train"])) as [annotation_dir|] eqn:Hanno.
  2:{ destruct (convert_subdir_skip voc_dir model_dir val_split subdir w
                  Hclear_train Hclear_val (or_intror (or_intror Hanno))) as (m & Hskip & Hm).
      left. exists m. split; [congruence | done]. }
  destruct (isdir (w_fs (entered model_dir subdir w))
              ((voc_dir ++ [subdir; "train"]) ++ ["images"])) eqn:Himages.
  2:{ destruct (convert_subdir_skip voc_dir model_dir val_split subdir w
                  Hclear_train Hclear_val (or_intror (or_introl Himages)))
        as (m & Hskip & Hm).
      left. exists m. split; [congruence | done]. }
  right. exists annotation_dir. split; [done|].
  by rewrite <- (convert_subdir_found _ _ _ _ _ _ Hclear_train Hclear_val Htrain Himages Hanno).
Qed.

Lemma convert_subdir_writes_below (voc_dir model_dir : path) (val_split : float)
    (subdir : string) (w w' : @world rng) :
  convert_subdir voc_dir model_dir val_split subdir w = Ok w' ->
  writes_below model_dir (w_fs w) (w_fs w').
Proof.
  intros [(m & -> & _)|(annotation_dir & _ & Hrun)]%convert_subdir_cases.
  - apply entered_writes_below.
  - eapply writes_below_trans; [apply entered_writes_below|].
    by eapply process_dataset_writes_below.
Qed.

Lemma convert_to_yolo_writes_below (voc_dir model_dir : path) (val_split : float)
    (w w' : @world rng) :
  convert_to_yolo voc_dir model_dir val_split w = Ok w' ->
  writes_below model_dir (w_fs w) (w_fs w').
Proof.
  unfold convert_to_yolo. intros Hrun. bind_inv Hrun as names Hnames.
  destruct (filter _ names) as [|first rest]; [injection Hrun as <-; apply writes_below_refl|].
  change (w_fs w) with (w_fs (print (MsgLooking voc_dir) w)).
  revert Hrun.
  apply (for_each_preserves (fun w1 w2 => writes_below model_dir (w_fs w1) (w_fs w2))).
  - intros s. apply writes_below_refl.
  - intros s1 s2 s3. apply writes_below_trans.
  - intros subdir s1 s2 _. apply convert_subdir_writes_below.
Qed.

End RunFrame.

(** X5.  A run of the converter that does not raise touches nothing outside
    the output tree: every node that is not below the model directory is
    after the run what it was before, every new or changed node is below the
    model directory or is a directory made on the way to it, and no path is
    removed.  In particular the annotations and images are never modified
    unless they lie below the model directory. *)
Theorem convert_to_yolo_leaves_inputs `{PyLib rng} (voc_dir model_dir : path)
    (val_split : float) (w w' : @world rng) :
  convert_to_yolo voc_dir model_dir val_split w = Ok w' ->
  (forall p n, w_fs w !! p = Some n -> ~ model_dir `prefix_of` p ->
               w_fs w' !! p = Some n) /\
  (forall p n, w_fs w' !! p = Some n ->
     w_fs w !! p = Some n \/ model_dir `prefix_of` p \/
     (n = Dir /\ p `prefix_of` model_dir)) /\
  (forall p, is_Some (w_fs w !! p) -> is_Some (w_fs w' !! p)).
Proof.
  intros Hrun. destruct (convert_to_yolo_writes_below _ _ _ _ _ Hrun) as (Hstay & Hnew & Hkeep).
  by split_and!.
Qed.

Lemma convert_to_yolo_leaves_inputs_witness :
  exists w',
    convert_to_yolo ["voc"] ["model"] 0.25 (sample_world "<road/>") = Ok w' /\
    (forall p n, w_fs (sample_world "<road/>") !! p = Some n ->
                 ~ ["model"] `prefix_of` p -> w_fs w' !! p = Some n) /\
    (forall p, is_Some (w_fs (sample_world "<road/>") !! p) -> is_Some (w_fs w' !! p)).
Proof.
  destruct (convert_to_yolo ["voc"] ["model"] 0.25 (sample_world "<road/>"))
    as [w'|e] eqn:Hrun; [|vm_compute in Hrun; discriminate Hrun].
  destruct (@convert_to_yolo_leaves_inputs nat sample_lib ["voc"] ["model"] 0.25%float
              (sample_world "<road/>") w' Hrun) as (Hstay & _ & Hkept).
  exists w'. split_and!; [reflexivity | exact Hstay | exact Hkept].
Defined.

Section SubdirOutputs.
Context {rng : Type} `{!PyLib rng}.

Lemma process_set_outside (xml_files : list path) (images_dir output_dir : path)
    (set_name : string) (w w' : @world rng) (p : path) :
  process_set xml_files images_dir output_dir set_name w = Ok w' ->
  ~ (exists name rest, p = output_dir ++ name :: rest) ->
  w_fs w' !! p = w_fs w !! p.
Proof.
  intros Hrun Hp. apply process_set_Ok_writes in Hrun as (writes & Hset & -> & _).
  apply apply_writes_other. intros ((q & n) & -> & Hin)%list_elem_of_fmap.
  destruct (set_writes_below _ _ _ _ _ _ _ Hset Hin) as (_ & Hbelow). by apply Hp.
Qed.

Lemma process_set_out (xml_files : list path) (images_dir output_dir : path)
    (set_name : string) (w w' : @world rng) :
  process_set xml_files images_dir output_dir set_name w = Ok w' ->
  exists warnings,
    w_out w' = w_out w ++ warnings /\
    forall m, m ∈ warnings -> exists base_name, m = WarnNoImage base_name \/ m = WarnNoBoxes base_name.
Proof.
  unfold process_set. revert w. induction xml_files as [|xml_file rest IH]; intros w; simpl.
  - intros [= <-]. exists []. split; [by rewrite app_nil_r|]. intros m Hm. by apply elem_of_nil in Hm.
  - intros Hrun. bind_inv Hrun as w1 Hfile.
    apply IH in Hrun as (warnings & Hout & Hwarnings).
    assert (Hstep : exists first, w_out w1 = w_out w ++ first /\
              forall m, m ∈ first ->
                exists base_name, m = WarnNoImage base_name \/ m = WarnNoBoxes base_name).
    { unfold process_file in Hfile.
      destruct (find_image _ _ _).
      - bind_inv Hfile as boxes Hparse. destruct boxes as [|b boxes].
        + injection Hfile as <-. exists [WarnNoBoxes (basename xml_file)].
          split; [done|]. intros m ->%list_elem_of_singleton. eauto.
        + bind_inv Hfile as copied Hcopy. injection Hfile as <-. exists [].
          split; [by rewrite app_nil_r|]. intros m Hm. by apply elem_of_nil in Hm.
      - injection Hfile as <-. exists [WarnNoImage (basename xml_file)].
        split; [done|]. intros m ->%list_elem_of_singleton. eauto. }
    destruct Hstep as (first & Hfirst & Hfirst_warn).
    exists (first ++ warnings). split; [by rewrite Hout, Hfirst, app_assoc|].
    intros m [Hm|Hm]%elem_of_app; auto.
Qed.

End SubdirOutputs.

(** X6.  After the body of the loop over the subdirectories has run without
    raising, the output train and val directories of the subdirectory are
    directories, also when the subdirectory was skipped, provided neither
    path held a regular file before. *)
Theorem convert_subdir_makes_output_dirs `{PyLib rng} (voc_dir model_dir : path)
    (val_split : float) (subdir : string) (w w' : @world rng) :
  convert_subdir voc_dir model_dir val_split subdir w = Ok w' ->
  (forall data, w_fs w !! (model_dir ++ [subdir; "train"]) <> Some (File data)) ->
  (forall data, w_fs w !! (model_dir ++ [subdir; "val"]) <> Some (File data)) ->
  isdir (w_fs w') (model_dir ++ [subdir; "train"]) = true /\
  isdir (w_fs w') (model_dir ++ [subdir; "val"]) = true.
Proof.
  intros Hrun Htrain Hval.
  assert (Hmade : forall name, name = "train" \/ name = "val" ->
            w_fs (entered model_dir subdir w) !! (model_dir ++ [subdir; name]) = Some Dir).
  { intros name Hname. unfold entered. simpl.
    assert (Hnot : forall data, w_fs w !! (model_dir ++ [subdir; name]) <> Some (File data))
      by (destruct Hname as [-> | ->]; done).
    assert (Hne : model_dir ++ [subdir; name] <> []) by (by destruct model_dir).
    destruct (w_fs w !! (model_dir ++ [subdir; name])) as [[|data]|] eqn:Hold.
    - apply with_dirs_lookup. left. apply with_dirs_lookup. by left.
    - by destruct (Hnot data).
    - destruct Hname as [-> | ->].
      + apply with_dirs_lookup. left. apply with_dirs_lookup. right. by split_and!.
      + destruct (with_dirs (model_dir ++ [subdir; "train"]) (w_fs w)
                    !! (model_dir ++ [subdir; "val"])) as [n|] eqn:Hmid.
        * apply with_dirs_lookup in Hmid as Hmid'.
          destruct Hmid' as [?|(_ & -> & _)]; [congruence|].
          apply with_dirs_lookup. by left.
        * apply with_dirs_lookup. right. by split_and!. }
  assert (Hkept : forall name, name = "train" \/ name = "val" ->
            w_fs w' !! (model_dir ++ [subdir; name]) = Some Dir).
  { intros name Hname.
    apply convert_subdir_cases in Hrun as [(m & -> & _)|(annotation_dir & _ & Hrun)];
      [by apply Hmade|].
    rewrite <- (Hmade name Hname). revert Hrun. unfold process_dataset. simpl.
    destruct (glob_xml _ annotation_dir) as [|first rest]; [by intros [= <-]|].
    destruct (shuffle _ (first :: rest)) as [shuffled g].
    intros Hrun. bind_inv Hrun as split Hsplit. destruct split as [train_files val_files].
    bind_inv Hrun as w1 Hrun1. bind_inv Hrun as w2 Hrun2. injection Hrun as <-.
    simpl.
    rewrite (process_set_outside _ _ _ _ _ _ _ Hrun2), (process_set_outside _ _ _ _ _ _ _ Hrun1);
      [done|..]; intros (name' & rest' & Heq); rewrite <- app_assoc in Heq;
      apply app_inv_head in Heq; destruct Hname as [-> | ->]; discriminate. }
  unfold isdir. by rewrite !Hkept by auto.
Qed.

Lemma convert_subdir_makes_output_dirs_witness :
  exists w',
    convert_subdir ["voc"] ["model"] 0.25 "lanes" (sample_world "<road/>") = Ok w' /\
    isdir (w_fs w') (["model"] ++ ["lanes"; "train"]) = true /\
    isdir (w_fs w') (["model"] ++ ["lanes"; "val"]) = true.
Proof.
  destruct (convert_subdir ["voc"] ["model"] 0.25 "lanes" (sample_world "<road/>"))
    as [w'|e] eqn:Hrun; [|vm_compute in Hrun; discriminate Hrun].
  exists w'. split; [reflexivity|].
  apply (@convert_subdir_makes_output_dirs nat sample_lib ["voc"] ["model"] 0.25%float
           "lanes" (sample_world "<road/>") w' Hrun).
  - intros data. vm_compute. discriminate.
  - intros data. vm_compute. discriminate.
Defined.

(** X7.  When the body of the loop over the subdirectories does not raise,
    it ends its console output with one closing line: the reason for
    skipping, or the success line, whose two counts are the sizes of the two
    file sets and add up to the number of XML files that the line printed
    before the loops reports as found, whatever number of entries the file
    loops skipped.  Between these two lines the loops print nothing but
    their warnings. *)
Theorem convert_subdir_reports `{PyLib rng} (voc_dir model_dir : path)
    (val_split : float) (subdir : string) (w w' : @world rng) :
  (forall g l, Permutation l (shuffle g l).1) ->
  convert_subdir voc_dir model_dir val_split subdir w = Ok w' ->
  exists m,
    last (w_out w') = Some m /\
    (m = MsgNoTrainFolder subdir \/
     m = MsgNoImagesOrAnnotations (voc_dir ++ [subdir; "train"]) \/
     exists annotation_dir,
       find_annotation_dir (w_fs (entered model_dir subdir w)) (voc_dir ++ [subdir; "train"])
       = Some annotation_dir /\
       (m = MsgNoXml annotation_dir \/
        exists found training validation warnings,
          m = MsgSuccess subdir training validation /\
          (0 < found)%nat /\
          (training + validation = found)%nat /\
          w_out w'
          = w_out w ++ [MsgProcessing subdir;
                        MsgFoundImages ((voc_dir ++ [subdir; "train"]) ++ ["images"]);
                        MsgFoundAnnotations annotation_dir;
                        MsgFoundXml found annotation_dir] ++ warnings ++ [m] /\
          forall m', m' ∈ warnings ->
            exists base_name, m' = WarnNoImage base_name \/ m' = WarnNoBoxes base_name)).
Proof.
  intros Hperm Hrun.
  apply convert_subdir_cases in Hrun as [(m & -> & Hm)|(annotation_dir & Hanno & Hrun)].
  - exists m. split; [simpl; apply last_snoc | tauto].
  - revert Hrun. unfold process_dataset. simpl.
    destruct (glob_xml _ annotation_dir) as [|first rest] eqn:Hglob.
    + intros [= <-]. exists (MsgNoXml annotation_dir). split; [simpl; apply last_snoc|].
      right. right. exists annotation_dir. split; [done|]. by left.
    + destruct (shuffle _ (first :: rest)) as [shuffled g] eqn:Hshuffle.
      intros Hrun. bind_inv Hrun as split Hsplit. destruct split as [train_files val_files].
      bind_inv Hrun as w1 Hrun1. bind_inv Hrun as w2 Hrun2. injection Hrun as <-.
      exists (MsgSuccess subdir (length train_files) (length val_files)).
      split; [simpl; apply last_snoc|]. right. right. exists annotation_dir.
      split; [done|]. right.
      apply process_set_out in Hrun1 as (warn1 & Hout1 & Hwarn1).
      apply process_set_out in Hrun2 as (warn2 & Hout2 & Hwarn2).
      exists (length (first :: rest)), (length train_files), (length val_files),
        (warn1 ++ warn2).
      split; [done|]. split_and!.
      * simpl. lia.
      * apply split_files_Ok_inv in Hsplit as (n & k & _ & _ & -> & ->).
        rewrite slice_lengths.
        specialize (Hperm (w_rng (entered model_dir subdir w)) (first :: rest)).
        simpl in Hperm. rewrite Hshuffle in Hperm. simpl in Hperm.
        symmetry. by apply Permutation_length.
      * simpl. rewrite Hout2, Hout1. simpl. by rewrite <- !app_assoc.
      * intros m' [Hm'|Hm']%elem_of_app; auto.
Qed.

Lemma convert_subdir_reports_witness :
  exists w' m,
    convert_subdir ["voc"] ["model"] 0.25 "roads" (sample_world "<road/>") = Ok w' /\
    last (w_out w') = Some m /\
    (m = MsgNoTrainFolder "roads" \/
     m = MsgNoImagesOrAnnotations (["voc"] ++ ["roads"; "train"]) \/
     exists annotation_dir,
       find_annotation_dir (w_fs (entered ["model"] "roads" (sample_world "<road/>")))
         (["voc"] ++ ["roads"; "train"]) = Some annotation_dir /\
       (m = MsgNoXml annotation_dir \/
        exists found training validation warnings,
          m = MsgSuccess "roads" training validation /\
          (0 < found)%nat /\
          (training + validation = found)%nat /\
          w_out w'
          = w_out (sample_world "<road/>")
            ++ [MsgProcessing "roads";
                MsgFoundImages ((["voc"] ++ ["roads"; "train"]) ++ ["images"]);
                MsgFoundAnnotations annotation_dir;
                MsgFoundXml found annotation_dir] ++ warnings ++ [m] /\
          forall m', m' ∈ warnings ->
            exists base_name, m' = WarnNoImage base_name \/ m' = WarnNoBoxes base_name)).
Proof.
  destruct (convert_subdir ["voc"] ["model"] 0.25 "roads" (sample_world "<road/>"))
    as [w'|e] eqn:Hrun; [|vm_compute in Hrun; discriminate Hrun].
  destruct (@convert_subdir_reports nat sample_lib ["voc"] ["model"] 0.25%float "roads"
              (sample_world "<road/>") w') as (m & Hlast & Hm).
  - intros g l. apply Permutation_rev.
  - exact Hrun.
  - exists w', m. split; [reflexivity|]. split; [exact Hlast | exact Hm].
Defined.

(** The console of the sample run: one file found, none for training, one
    for validation. *)
Example convert_subdir_reports_sample :
  match convert_subdir ["voc"] ["model"] 0.25 "roads" (sample_world "<road/>") with
  | Ok w' => w_out w'
  | Raise _ => []
  end
  = [MsgProcessing "roads"; MsgFoundImages sample_images;
     MsgFoundAnnotations sample_annotations; MsgFoundXml 1 sample_annotations;
     MsgSuccess "roads" 0 1].
Proof. vm_compute. reflexivity. Qed.

(** ** From the annotations of the dataset to the output files *)

Lemma strip_prefix_Some (d p rest : path) : strip_prefix d p = Some rest <-> p = d ++ rest.
Proof.
  revert p. induction d as [|a d IH]; intros p; simpl.
  - split; [by intros [= ->] | by intros ->].
  - destruct p as [|b p]; [split; discriminate|]. case_decide as Hab.
    + subst. rewrite IH. split; [by intros -> | by intros [= ->]].
    + split; [done | intros [= ? _]; done].
Qed.

Lemma keys_elem (fs : gmap path node) (p : path) :
  p ∈ (map_to_list fs).*1 <-> is_Some (fs !! p).
Proof.
  rewrite list_elem_of_fmap. split.
  - intros ((q & n) & -> & Hin). apply elem_of_map_to_list in Hin. by exists n.
  - intros (n & Hn). exists (p, n). split; [done|]. by apply elem_of_map_to_list.
Qed.

Lemma glob_literal_elem (fs : gmap path node) (d p : path) :
  p ∈ glob_literal fs d <->
  isdir fs d = true /\ is_Some (fs !! p) /\
  exists rest name,
    p = d ++ rest /\ last rest = Some name /\ matches_xml name = true /\
    walkable fs d (take (pred (length rest)) rest) = true.
Proof.
  unfold glob_literal. rewrite list_elem_of_filter. destruct (isdir fs d).
  - rewrite keys_elem. split.
    + intros [Hmatch Hp]. split_and!; [done..|].
      destruct (strip_prefix d p) as [rest|] eqn:Hrest; [|done].
      apply strip_prefix_Some in Hrest. destruct (last rest) as [name|] eqn:Hlast; [|done].
      apply andb_true_iff in Hmatch as [? ?]. by exists rest, name.
    + intros (_ & Hp & rest & name & -> & Hlast & Hm & Hw). split; [|done].
      by rewrite (proj2 (strip_prefix_Some d (d ++ rest) rest) eq_refl), Hlast, Hm, Hw.
  - split; [intros [_ Hp]; by apply elem_of_nil in Hp | intros [? _]; done].
Qed.

Lemma glob_literal_NoDup (fs : gmap path node) (d : path) : NoDup (glob_literal fs d).
Proof.
  unfold glob_literal. apply NoDup_filter.
  destruct (isdir fs d); [apply NoDup_fst_map_to_list | apply NoDup_nil_2].
Qed.

Lemma agree_below_app (d rest : path) (fs fs' : gmap path node) :
  agree_below d fs fs' -> agree_below (d ++ rest) fs fs'.
Proof. intros Hsame p Hp. apply Hsame. etrans; [|exact Hp]. by apply prefix_app_r. Qed.

Lemma agree_below_isdir (d p : path) (fs fs' : gmap path node) :
  agree_below d fs fs' -> d `prefix_of` p -> isdir fs p = isdir fs' p.
Proof. intros Hsame Hp. unfold isdir. by rewrite (Hsame p Hp). Qed.

Lemma walkable_agree (fs fs' : gmap path node) (base mid : path) :
  agree_below base fs fs' -> walkable fs base mid = walkable fs' base mid.
Proof.
  revert base. induction mid as [|name mid IH]; intros base Hsame; simpl; [done|].
  rewrite (agree_below_isdir base (base ++ [name]) fs fs') by (done || by apply prefix_app_r).
  rewrite (IH (base ++ [name])) by (by apply agree_below_app). done.
Qed.

Lemma glob_literal_agree (fs fs' : gmap path node) (d : path) :
  agree_below d fs fs' -> glob_literal fs d ≡ₚ glob_literal fs' d.
Proof.
  intros Hsame. apply NoDup_Permutation; [apply glob_literal_NoDup..|].
  intros p. rewrite !glob_literal_elem.
  rewrite (agree_below_isdir d d fs fs') by done.
  split; intros (Hd & Hp & rest & name & -> & Hlast & Hm & Hw); (split_and!; [done| |]).
  - by rewrite <- (Hsame (d ++ rest)) by (by apply prefix_app_r).
  - exists rest, name. by rewrite <- (walkable_agree fs fs').
  - by rewrite (Hsame (d ++ rest)) by (by apply prefix_app_r).
  - exists rest, name. by rewrite (walkable_agree fs fs').
Qed.

(** For a directory that [glob] takes as it is written, the files found
    are below it, and are the same on file systems that agree below it. *)
Lemma glob_xml_literal `{PyLib rng} (fs : gmap path node) (d : path) :
  literal d = true -> glob_xml fs d = glob_literal fs d.
Proof. unfold glob_xml. by intros ->. Qed.

Lemma glob_xml_below `{PyLib rng} (fs : gmap path node) (d x : path) :
  literal d = true -> x ∈ glob_xml fs d -> d `prefix_of` x.
Proof.
  intros Hd. rewrite glob_xml_literal by done.
  intros (_ & _ & rest & _ & -> & _)%glob_literal_elem. by apply prefix_app_r.
Qed.

Lemma glob_xml_agree `{PyLib rng} (fs fs' : gmap path node) (d : path) :
  literal d = true -> agree_below d fs fs' -> glob_xml fs d ≡ₚ glob_xml fs' d.
Proof. intros Hd. rewrite !glob_xml_literal by done. apply glob_literal_agree. Qed.

Lemma find_annotation_dir_agree (fs fs' : gmap path node) (train_folder : path) :
  agree_below train_folder fs fs' ->
  find_annotation_dir fs train_folder = find_annotation_dir fs' train_folder.
Proof.
  intros Hsame. apply find_same_test.
  intros p (name & -> & _)%list_elem_of_fmap.
  apply (agree_below_isdir train_folder); [done | by apply prefix_app_r].
Qed.

Lemma find_image_agree (fs fs' : gmap path node) (images_dir : path) (name : string) :
  agree_below images_dir fs fs' ->
  find_image fs images_dir name = find_image fs' images_dir name.
Proof.
  intros Hsame. apply find_same_test.
  intros p (ext & -> & _)%list_elem_of_fmap.
  unfold path_exists. by rewrite (Hsame (images_dir ++ [name +:+ ext])) by (by apply prefix_app_r).
Qed.

Lemma find_annotation_dir_below (fs : gmap path node) (train_folder d : path) :
  find_annotation_dir fs train_folder = Some d -> train_folder `prefix_of` d.
Proof.
  unfold find_annotation_dir. intros Hfind. apply find_some in Hfind as [Hin _].
  apply list_elem_of_In, list_elem_of_fmap in Hin as (name & -> & _). by apply prefix_app_r.
Qed.

Lemma find_image_below (fs : gmap path node) (images_dir : path) (name : string) (p : path) :
  find_image fs images_dir name = Some p -> exists file_name, p = images_dir ++ [file_name].
Proof. intros (_ & ext & _ & -> & _)%find_image_Some. eauto. Qed.

Section DatasetOutputs.
Context {rng : Type} `{!PyLib rng}.

Lemma parse_file_agree (fs fs' : gmap path node) (xml_file : path) :
  fs !! xml_file = fs' !! xml_file -> parse_file fs xml_file = parse_file fs' xml_file.
Proof. unfold parse_file. by intros ->. Qed.

(** Both file loops of a subdirectory together: an annotation that has an
    image and at least one box is converted into one of the two output
    directories. *)
Lemma process_dataset_complete (subdir : string)
    (images_dir annotation_dir train_dir val_dir : path) (val_split : float)
    (w w' : @world rng) :
  (forall g l, Permutation l (shuffle g l).1) ->
  (forall p, annotation_dir `prefix_of` p ->
     ~ train_dir `prefix_of` p /\ ~ val_dir `prefix_of` p) ->
  (forall p, images_dir `prefix_of` p ->
     ~ train_dir `prefix_of` p /\ ~ val_dir `prefix_of` p) ->
  (forall rest rest', train_dir ++ rest <> val_dir ++ rest') ->
  (forall x, x ∈ glob_xml (w_fs w) annotation_dir -> annotation_dir `prefix_of` x) ->
  process_dataset subdir images_dir annotation_dir train_dir val_dir val_split w = Ok w' ->
  forall (xml_file image_path : path) (data : string) (boxes : list box),
    xml_file ∈ glob_xml (w_fs w) annotation_dir ->
    (forall other, other ∈ glob_xml (w_fs w) annotation_dir ->
       splitext_root (basename other) = splitext_root (basename xml_file) ->
       other = xml_file) ->
    find_image (w_fs w) images_dir (splitext_root (basename xml_file)) = Some image_path ->
    w_fs w !! image_path = Some (File data) ->
    parse_file (w_fs w) xml_file = Ok boxes -> boxes <> [] ->
    exists output_dir,
      (output_dir = train_dir \/ output_dir = val_dir) /\
      w_fs w' !! (output_dir ++ [splitext_root (basename xml_file) +:+ ".txt"])
      = Some (File (label_text boxes)) /\
      w_fs w' !! (if isdir (w_fs w) (output_dir ++ [basename image_path])
                  then output_dir ++ [basename image_path; basename image_path]
                  else output_dir ++ [basename image_path])
      = Some (File data).
Proof.
  intros Hperm Hanno Himages Hapart Hbelow Hrun xml_file image_path data boxes Hin Hunique
    Himage Hdata Hparse Hboxes.
  revert Hrun. unfold process_dataset. simpl.
  destruct (glob_xml (w_fs w) annotation_dir) as [|first rest] eqn:Hglob;
    [by apply elem_of_nil in Hin|].
  specialize (Hperm (w_rng w) (first :: rest)).
  destruct (shuffle (w_rng w) (first :: rest)) as [shuffled g]. simpl in Hperm.
  intros Hrun. bind_inv Hrun as split Hsplit. destruct split as [train_files val_files].
  bind_inv Hrun as w1 Hrun1. bind_inv Hrun as w2 Hrun2. injection Hrun as <-. simpl.
  apply split_files_Ok_inv in Hsplit as (n & k & _ & _ & Htrain & Hval).
  assert (Hall : train_files ++ val_files = shuffled) by (subst; apply slice_app).
  assert (Hfound : forall x, x ∈ train_files ++ val_files -> annotation_dir `prefix_of` x).
  { intros x Hx. rewrite Hall, <- Hperm in Hx. by apply Hbelow. }
  assert (Hmine : forall other, other ∈ train_files ++ val_files ->
            splitext_root (basename other) = splitext_root (basename xml_file) ->
            other = xml_file).
  { intros other Hother. apply Hunique. by rewrite Hperm, <- Hall. }
  rewrite Hperm, <- Hall in Hin.
  assert (Hout1 : forall p, ~ train_dir `prefix_of` p -> w_fs w1 !! p = w_fs w !! p).
  { intros p Hp. rewrite (process_set_outside _ _ _ _ _ _ _ Hrun1); [done|].
    intros (name & rest' & ->). apply Hp. by apply prefix_app_r. }
  assert (Hout2 : forall p, ~ val_dir `prefix_of` p -> w_fs w2 !! p = w_fs w1 !! p).
  { intros p Hp. rewrite (process_set_outside _ _ _ _ _ _ _ Hrun2); [done|].
    intros (name & rest' & ->). apply Hp. by apply prefix_app_r. }
  assert (Hnot_val : forall rest', ~ val_dir `prefix_of` train_dir ++ rest').
  { intros rest' [more Hmore]. by apply (Hapart rest' more). }
  assert (Hnot_train : forall rest', ~ train_dir `prefix_of` val_dir ++ rest').
  { intros rest' [more Hmore]. by apply (Hapart more rest'). }
  apply process_set_Ok_writes in Hrun1 as Hwrites1.
  destruct Hwrites1 as (writes1 & Hset1 & Hfs1 & _). simpl in Hset1, Hfs1.
  apply process_set_Ok_writes in Hrun2 as Hwrites2.
  destruct Hwrites2 as (writes2 & Hset2 & Hfs2 & _).
  apply elem_of_app in Hin as [Hin|Hin].
  - exists train_dir. split; [by left|].
    destruct (set_writes_complete images_dir train_dir train_files (w_fs w) writes1)
      with (xml_file := xml_file) (image_path := image_path) (data := data) (boxes := boxes)
      as [Hlabel Himg]; try done.
    { intros x Hx. apply Hanno, Hfound, elem_of_app. by left. }
    { intros name. apply Himages. by apply prefix_app_r. }
    { intros other Hother. apply Hmine, elem_of_app. by left. }
    rewrite <- Hfs1 in Hlabel, Himg.
    rewrite !Hout2; [done|..].
    + destruct (isdir (w_fs w) (train_dir ++ [basename image_path])); apply Hnot_val.
    + apply Hnot_val.
  - exists val_dir. split; [by right|].
    destruct (find_image_below _ _ _ _ Himage) as (file_name & Hname).
    assert (Hsame : agree_below images_dir (w_fs w) (w_fs w1)).
    { intros p Hp. symmetry. by apply Hout1, Himages. }
    destruct (set_writes_complete images_dir val_dir val_files (w_fs w1) writes2)
      with (xml_file := xml_file) (image_path := image_path) (data := data) (boxes := boxes)
      as [Hlabel Himg]; try done.
    { intros x Hx. apply Hanno, Hfound, elem_of_app. by right. }
    { intros name. apply Himages. by apply prefix_app_r. }
    { intros other Hother. apply Hmine, elem_of_app. by right. }
    { by rewrite <- (find_image_agree (w_fs w) (w_fs w1)). }
    { rewrite Hout1; [done|]. apply Himages. rewrite Hname. by apply prefix_app_r. }
    { rewrite <- Hparse. apply parse_file_agree, Hout1, Hanno, Hfound, elem_of_app.
      by right. }
    rewrite <- Hfs2 in Hlabel, Himg.
    assert (Hisdir : isdir (w_fs w1) (val_dir ++ [basename image_path])
                     = isdir (w_fs w) (val_dir ++ [basename image_path]))
      by (unfold isdir; rewrite Hout1; [done | apply Hnot_train]).
    by rewrite Hisdir in Himg.
Qed.

End DatasetOutputs.

Lemma prefix_snoc_inv {A : Type} (p l : list A) (x : A) :
  p `prefix_of` l ++ [x] -> p `prefix_of` l \/ p = l ++ [x].
Proof.
  intros [k Hk]. destruct k as [|y k _] using rev_ind.
  - right. by rewrite app_nil_r in Hk.
  - left. rewrite app_assoc in Hk. apply app_inj_tail in Hk as [-> _]. by apply prefix_app_r.
Qed.

Lemma agree_below_prefix (d d' : path) (fs fs' : gmap path node) :
  d `prefix_of` d' -> agree_below d fs fs' -> agree_below d' fs fs'.
Proof. intros Hd Hsame p Hp. apply Hsame. by etrans. Qed.

(** Two directories of which neither is below the other have no path below
    both. *)
Lemma apart_below (voc_dir model_dir rest p : path) :
  ~ voc_dir `prefix_of` model_dir -> ~ model_dir `prefix_of` voc_dir ->
  voc_dir `prefix_of` p -> ~ (model_dir ++ rest) `prefix_of` p.
Proof.
  intros Hvm Hmv Hp Hq.
  destruct (prefix_weak_total voc_dir model_dir p); [done| |done..].
  etrans; [|exact Hq]. by apply prefix_app_r.
Qed.

Lemma apart_above (voc_dir model_dir rest p : path) :
  ~ voc_dir `prefix_of` model_dir -> ~ model_dir `prefix_of` voc_dir ->
  voc_dir `prefix_of` p -> ~ p `prefix_of` model_dir ++ rest.
Proof.
  intros Hvm Hmv Hp Hq.
  destruct (prefix_weak_total voc_dir model_dir (model_dir ++ rest)); [|by apply prefix_app_r|done..].
  by etrans.
Qed.

Lemma away_from_inputs (voc_dir model_dir : path) (subdirs : list string) (p : path) :
  ~ voc_dir `prefix_of` model_dir -> ~ model_dir `prefix_of` voc_dir ->
  voc_dir `prefix_of` p -> away_from model_dir subdirs p.
Proof.
  intros Hvm Hmv Hp subdir _.
  split; [by apply (apart_below voc_dir) | by apply (apart_above voc_dir)].
Qed.

Lemma away_from_other (model_dir : path) (subdirs : list string) (subdir : string)
    (p : path) :
  subdir ∉ subdirs -> (model_dir ++ [subdir]) `prefix_of` p -> away_from model_dir subdirs p.
Proof.
  intros Hnot Hp other Hother.
  assert (Hsame : forall q, (model_dir ++ [subdir]) `prefix_of` q ->
                            (model_dir ++ [other]) `prefix_of` q -> False).
  { intros q Hq Hq'.
    assert (Heq : model_dir ++ [subdir] = model_dir ++ [other]).
    { destruct (prefix_weak_total _ _ _ Hq Hq') as [Hle|Hle].
      - apply prefix_length_eq; [done|]. rewrite !length_app. simpl. lia.
      - symmetry. apply prefix_length_eq; [done|]. rewrite !length_app. simpl. lia. }
    apply app_inv_head in Heq. injection Heq as ->. done. }
  split.
  - intros Hq. by apply (Hsame p).
  - intros Hq. apply (Hsame (model_dir ++ [other])); [by etrans | done].
Qed.

Lemma NoDup_omap_inj {A B : Type} (f : A -> option B) (l : list A) :
  (forall x y z, f x = Some z -> f y = Some z -> x = y) -> NoDup l -> NoDup (omap f l).
Proof.
  intros Hinj. induction 1 as [|x l Hx Hl IH]; simpl; [constructor|].
  destruct (f x) as [z|] eqn:Hfx; [|done]. apply NoDup_cons. split; [|done].
  intros (y & Hy & Hfy)%list_elem_of_omap. by rewrite (Hinj x y z) in Hx.
Qed.

Lemma listdir_Ok_inv (fs : gmap path node) (d : path) (names : list string) :
  listdir fs d = Ok names ->
  NoDup names /\ forall name, is_Some (fs !! (d ++ [name])) -> name ∈ names.
Proof.
  unfold listdir. destruct (fs !! d) as [[|data]|]; [|discriminate..].
  intros [= <-]. split.
  - apply NoDup_omap_inj; [|apply NoDup_fst_map_to_list].
    intros p q name Hp Hq.
    destruct (strip_prefix d p) as [[|a [|]]|] eqn:Hp'; try discriminate.
    destruct (strip_prefix d q) as [[|b [|]]|] eqn:Hq'; try discriminate.
    apply strip_prefix_Some in Hp', Hq'. congruence.
  - intros name Hname. apply list_elem_of_omap. exists (d ++ [name]).
    split; [by apply keys_elem|].
    by rewrite (proj2 (strip_prefix_Some d (d ++ [name]) [name]) eq_refl).
Qed.

Section RunOutputs.
Context {rng : Type} `{!PyLib rng}.

Lemma process_dataset_outside (subdir : string)
    (images_dir annotation_dir train_dir val_dir : path) (val_split : float)
    (w w' : @world rng) (p : path) :
  process_dataset subdir images_dir annotation_dir train_dir val_dir val_split w = Ok w' ->
  ~ train_dir `prefix_of` p -> ~ val_dir `prefix_of` p ->
  w_fs w' !! p = w_fs w !! p.
Proof.
  unfold process_dataset. simpl.
  destruct (glob_xml _ annotation_dir) as [|first rest]; [by intros [= <-]|].
  destruct (shuffle _ (first :: rest)) as [shuffled g].
  intros Hrun Htrain Hval. bind_inv Hrun as split Hsplit.
  destruct split as [train_files val_files].
  bind_inv Hrun as w1 Hrun1. bind_inv Hrun as w2 Hrun2. injection Hrun as <-. simpl.
  rewrite (process_set_outside _ _ _ _ _ _ _ Hrun2), (process_set_outside _ _ _ _ _ _ _ Hrun1);
    [done|..]; intros (name & rest' & ->); [apply Htrain | apply Hval]; by apply prefix_app_r.
Qed.

(** The turn of one subdirectory changes nothing away from its output
    directories. *)
Lemma convert_subdir_outside (voc_dir model_dir : path) (val_split : float)
    (subdir : string) (w w' : @world rng) (p : path) :
  convert_subdir voc_dir model_dir val_split subdir w = Ok w' ->
  ~ (model_dir ++ [subdir]) `prefix_of` p -> ~ p `prefix_of` model_dir ++ [subdir] ->
  w_fs w' !! p = w_fs w !! p.
Proof.
  intros Hrun Hbelow Hway.
  assert (Hnot : forall t, ~ p `prefix_of` model_dir ++ [subdir; t]).
  { intros t Hp. change (model_dir ++ [subdir; t]) with (model_dir ++ [subdir] ++ [t]) in Hp.
    rewrite app_assoc in Hp. apply prefix_snoc_inv in Hp as [?| ->]; [done|].
    apply Hbelow. by apply prefix_app_r. }
  assert (Hout : forall t, ~ (model_dir ++ [subdir; t]) `prefix_of` p).
  { intros t Hp. apply Hbelow. etrans; [|exact Hp].
    change (model_dir ++ [subdir; t]) with (model_dir ++ [subdir] ++ [t]).
    rewrite app_assoc. by apply prefix_app_r. }
  apply convert_subdir_cases in Hrun as [(m & -> & _)|(annotation_dir & _ & Hrun)].
  - simpl. by apply entered_outside.
  - rewrite (process_dataset_outside _ _ _ _ _ _ _ _ _ Hrun) by done.
    by apply entered_outside.
Qed.

Lemma convert_subdirs_outside (voc_dir model_dir : path) (val_split : float)
    (subdirs : list string) (w w' : @world rng) (p : path) :
  for_each (convert_subdir voc_dir model_dir val_split) subdirs w = Ok w' ->
  away_from model_dir subdirs p -> w_fs w' !! p = w_fs w !! p.
Proof.
  intros Hrun Haway. revert Hrun.
  apply (for_each_preserves (fun w1 w2 : @world rng => w_fs w2 !! p = w_fs w1 !! p)).
  - done.
  - intros w1 w2 w3 H12 H23. by rewrite H23.
  - intros subdir w1 w2 Hin Hturn. destruct (Haway subdir Hin).
    by eapply convert_subdir_outside.
Qed.

End RunOutputs.

(** X8.  The converter converts every annotation it can: when the dataset
    directory and the output directory are not inside one another and the
    run does not raise, then for every subdirectory of the dataset that has
    a train folder with an images folder and an annotation folder whose path
    [glob] takes as it is written (no name on it holds one of the
    characters [*], [?], [[]), every XML file found below the annotation
    folder that has an image (a regular file) and at least one box, and
    whose base name no other XML file found there has, leaves its label
    file, holding exactly the lines of its boxes, and a copy of its image,
    holding exactly the bytes of the image, in the train or the val output
    directory of the subdirectory. *)
Theorem convert_to_yolo_converts `{PyLib rng} (voc_dir model_dir : path)
    (val_split : float) (w w' : @world rng) :
  (forall g l, Permutation l (shuffle g l).1) ->
  ~ voc_dir `prefix_of` model_dir -> ~ model_dir `prefix_of` voc_dir ->
  convert_to_yolo voc_dir model_dir val_split w = Ok w' ->
  forall (subdir : string) (annotation_dir xml_file image_path : path) (data : string)
         (boxes : list box),
    isdir (w_fs w) (voc_dir ++ [subdir]) = true ->
    isdir (w_fs w) (voc_dir ++ [subdir; "train"]) = true ->
    isdir (w_fs w) ((voc_dir ++ [subdir; "train"]) ++ ["images"]) = true ->
    find_annotation_dir (w_fs w) (voc_dir ++ [subdir; "train"]) = Some annotation_dir ->
    literal annotation_dir = true ->
    xml_file ∈ glob_xml (w_fs w) annotation_dir ->
    (forall other, other ∈ glob_xml (w_fs w) annotation_dir ->
       splitext_root (basename other) = splitext_root (basename xml_file) ->
       other = xml_file) ->
    find_image (w_fs w) ((voc_dir ++ [subdir; "train"]) ++ ["images"])
      (splitext_root (basename xml_file)) = Some image_path ->
    w_fs w !! image_path = Some (File data) ->
    parse_file (w_fs w) xml_file = Ok boxes -> boxes <> [] ->
    exists output_dir,
      (output_dir = model_dir ++ [subdir; "train"] \/
       output_dir = model_dir ++ [subdir; "val"]) /\
      w_fs w' !! (output_dir ++ [splitext_root (basename xml_file) +:+ ".txt"])
      = Some (File (label_text boxes)) /\
      w_fs w' !! (if isdir (w_fs w) (output_dir ++ [basename image_path])
                  then output_dir ++ [basename image_path; basename image_path]
                  else output_dir ++ [basename image_path])
      = Some (File data).
Proof.
  intros Hperm Hvm Hmv Hrun subdir annotation_dir xml_file image_path data boxes
    Hsubdir Htrain Himages Hanno Hliteral Hin Hunique Himage Hdata Hparse Hboxes.
  unfold convert_to_yolo in Hrun. bind_inv Hrun as names Hnames. simpl in Hnames, Hrun.
  apply listdir_Ok_inv in Hnames as [Hnames_nodup Hnames].
  assert (Hsub : subdir ∈ filter (fun d => isdir (w_fs w) (voc_dir ++ [d]) = true) names).
  { apply list_elem_of_filter. split; [done|]. apply Hnames.
    unfold isdir in Hsubdir. destruct (w_fs w !! (voc_dir ++ [subdir])); [eauto | done]. }
  assert (Hsubdirs : NoDup (filter (fun d => isdir (w_fs w) (voc_dir ++ [d]) = true) names))
    by (by apply NoDup_filter).
  destruct (filter (fun d => isdir (w_fs w) (voc_dir ++ [d]) = true) names)
    as [|first others]; [by apply elem_of_nil in Hsub|].
  apply list_elem_of_split in Hsub as (before & after & Hsplit).
  rewrite Hsplit in Hsubdirs, Hrun.
  apply NoDup_app in Hsubdirs as (_ & Hbefore & [Hafter _]%NoDup_cons).
  assert (Hnot_before : subdir ∉ before) by (intros Hb; apply (Hbefore _ Hb); by left).
  rewrite for_each_app in Hrun. bind_inv Hrun as w1 Hrun1. simpl in Hrun.
  bind_inv Hrun as w2 Hturn.
  pose proof (fun p => convert_subdirs_outside _ _ _ _ _ _ p Hrun1) as Hframe1.
  simpl in Hframe1.
  pose proof (fun p => convert_subdirs_outside _ _ _ _ _ _ p Hrun) as Hframe3.
  assert (Hvoc : voc_dir `prefix_of` (voc_dir ++ [subdir; "train"])) by (by apply prefix_app_r).
  assert (Hsame : agree_below voc_dir (w_fs w) (w_fs (entered model_dir subdir w1))).
  { intros p Hp. rewrite entered_outside, Hframe1;
      [done | by apply (away_from_inputs voc_dir) | by apply (apart_above voc_dir)..]. }
  assert (Hanno_below : (voc_dir ++ [subdir; "train"]) `prefix_of` annotation_dir)
    by (by eapply find_annotation_dir_below).
  assert (Hxml_below : annotation_dir `prefix_of` xml_file)
    by (by eapply glob_xml_below).
  destruct (find_image_below _ _ _ _ Himage) as (file_name & Hfile_name).
  destruct (convert_subdir_Ok_clear _ _ _ _ _ _ Hturn) as [Hclear_train Hclear_val].
  rewrite (convert_subdir_found voc_dir model_dir annotation_dir _ _ _
             Hclear_train Hclear_val) in Hturn; cycle 1.
  { by rewrite <- (agree_below_isdir voc_dir _ (w_fs w) _ Hsame). }
  { rewrite <- (agree_below_isdir voc_dir _ (w_fs w) _ Hsame); [done|].
    etrans; [exact Hvoc|]. by apply prefix_app_r. }
  { rewrite <- Hanno. symmetry. apply find_annotation_dir_agree.
    by apply (agree_below_prefix voc_dir). }
  assert (Hglob : glob_xml (w_fs w) annotation_dir
                  ≡ₚ glob_xml (w_fs (entered model_dir subdir w1)) annotation_dir).
  { apply glob_xml_agree; [done|].
    apply (agree_below_prefix voc_dir); [by etrans | done]. }
  destruct (process_dataset_complete subdir ((voc_dir ++ [subdir; "train"]) ++ ["images"])
              annotation_dir (model_dir ++ [subdir; "train"]) (model_dir ++ [subdir; "val"])
              val_split (entered model_dir subdir w1) w2 Hperm)
    with (xml_file := xml_file) (image_path := image_path) (data := data) (boxes := boxes)
    as (output_dir & Hout & Hlabel & Himg).
  - intros p Hp. assert (voc_dir `prefix_of` p) by (by do 2 (etrans; [|done])).
    split; by apply (apart_below voc_dir).
  - intros p Hp. assert (voc_dir `prefix_of` p).
    { etrans; [|exact Hp]. etrans; [exact Hvoc|]. by apply prefix_app_r. }
    split; by apply (apart_below voc_dir).
  - intros rest rest'. rewrite <- !app_assoc. intros Heq%app_inv_head. discriminate.
  - intros x Hx. by eapply glob_xml_below.
  - exact Hturn.
  - by rewrite <- Hglob.
  - intros other Hother. apply Hunique. by rewrite Hglob.
  - rewrite <- Himage. symmetry. apply find_image_agree, (agree_below_prefix voc_dir); [|done].
    etrans; [exact Hvoc|]. by apply prefix_app_r.
  - rewrite <- Hdata. symmetry. apply Hsame. rewrite Hfile_name.
    etrans; [exact Hvoc|]. rewrite <- app_assoc. by apply prefix_app_r.
  - rewrite <- Hparse. symmetry. apply parse_file_agree, Hsame. by do 2 (etrans; [|done]).
  - done.
  - exists output_dir. split; [done|].
    assert (Hkept : forall name rest,
              w_fs w' !! (output_dir ++ name :: rest) = w_fs w2 !! (output_dir ++ name :: rest)).
    { intros name rest. apply Hframe3, (away_from_other _ _ subdir); [done|].
      destruct Hout as [-> | ->];
        change (model_dir ++ [subdir; ?t]) with (model_dir ++ [subdir] ++ [t]);
        rewrite !app_assoc, <- app_assoc; by apply prefix_app_r. }
    assert (Hbefore_turn : forall name,
              w_fs (entered model_dir subdir w1) !! (output_dir ++ [name])
              = w_fs w !! (output_dir ++ [name])).
    { intros name.
      assert (Hlong : forall t, ~ (output_dir ++ [name]) `prefix_of` model_dir ++ [subdir; t]).
      { intros t Hle%prefix_length. destruct Hout as [-> | ->];
          rewrite !length_app in Hle; simpl in Hle; lia. }
      rewrite entered_outside by done.
      apply Hframe1, (away_from_other _ _ subdir); [done|].
      destruct Hout as [-> | ->];
        change (model_dir ++ [subdir; ?t]) with (model_dir ++ [subdir] ++ [t]);
        rewrite !app_assoc, <- app_assoc; by apply prefix_app_r. }
    assert (Hisdir : isdir (w_fs (entered model_dir subdir w1))
                       (output_dir ++ [basename image_path])
                     = isdir (w_fs w) (output_dir ++ [basename image_path]))
      by (unfold isdir; by rewrite Hbefore_turn).
    rewrite Hisdir in Himg. split.
    + by rewrite Hkept.
    + destruct (isdir (w_fs w) (output_dir ++ [basename image_path])); by rewrite Hkept.
Qed.

Lemma convert_to_yolo_converts_witness :
  exists w' boxes output_dir,
    convert_to_yolo ["voc"] ["model"] 0.25 (sample_world "<road/>") = Ok w' /\
    parse_file (w_fs (sample_world "<road/>")) (sample_annotations ++ ["a.xml"]) = Ok boxes /\
    (output_dir = ["model"] ++ ["roads"; "train"] \/
     output_dir = ["model"] ++ ["roads"; "val"]) /\
    w_fs w' !! (output_dir
                ++ [splitext_root (basename (sample_annotations ++ ["a.xml"])) +:+ ".txt"])
    = Some (File (label_text boxes)) /\
    w_fs w' !! (if isdir (w_fs (sample_world "<road/>"))
                     (output_dir ++ [basename (sample_images ++ ["a.jpg"])])
                then output_dir ++ [basename (sample_images ++ ["a.jpg"]);
                                    basename (sample_images ++ ["a.jpg"])]
                else output_dir ++ [basename (sample_images ++ ["a.jpg"])])
    = Some (File "JPEG").
Proof.
  destruct (convert_to_yolo ["voc"] ["model"] 0.25 (sample_world "<road/>"))
    as [w'|e] eqn:Hrun; [|vm_compute in Hrun; discriminate Hrun].
  destruct (parse_file (w_fs (sample_world "<road/>")) (sample_annotations ++ ["a.xml"]))
    as [boxes|e] eqn:Hparse; [|vm_compute in Hparse; discriminate Hparse].
  assert (Hglob : glob_xml (w_fs (sample_world "<road/>")) sample_annotations
                  = [sample_annotations ++ ["a.xml"]]) by (vm_compute; reflexivity).
  destruct (@convert_to_yolo_converts nat sample_lib ["voc"] ["model"] 0.25%float
              (sample_world "<road/>") w'
              ltac:(intros g l; apply Permutation_rev)
              ltac:(intros [k Hk]; discriminate) ltac:(intros [k Hk]; discriminate)
              Hrun "roads" sample_annotations (sample_annotations ++ ["a.xml"])
              (sample_images ++ ["a.jpg"]) "JPEG" boxes)
    as (output_dir & Hout & Hlabel & Himg).
  - vm_compute. reflexivity.
  - vm_compute. reflexivity.
  - vm_compute. reflexivity.
  - vm_compute. reflexivity.
  - vm_compute. reflexivity.
  - rewrite Hglob. apply list_elem_of_singleton. reflexivity.
  - rewrite Hglob. intros other ->%list_elem_of_singleton _. reflexivity.
  - vm_compute. reflexivity.
  - vm_compute. reflexivity.
  - exact Hparse.
  - intros ->. vm_compute in Hparse. discriminate Hparse.
  - exists w', boxes, output_dir.
    split; [reflexivity|]. split; [reflexivity|]. split; [exact Hout|].
    split; [exact Hlabel | exact Himg].
Defined.

(** X9.  An annotation that gives the image a width or a height of zero
    never yields a box.  The parser returns the empty list when no object
    carries a mapped label, and raises ZeroDivisionError at the first
    mapped object whose four coordinates can be read (for a zero height,
    when the width fits a float). *)
Theorem parse_voc_annotation_zero_size `{PyLib rng} (xml_text : string) (root : element)
    (img_width img_height : Z) :
  ET_parse xml_text = Some root ->
  image_size root "width" = Some img_width ->
  image_size root "height" = Some img_height ->
  img_width = 0 \/ img_height = 0 ->
  (forall boxes, parse_voc_annotation xml_text = Ok boxes ->
     boxes = [] /\ List.filter mapped (findall "object" root) = []) /\
  (forall (before after : list element) (obj : element) (class_id : Z)
          (xmin ymin xmax ymax : float),
     findall "object" root = before ++ obj :: after ->
     (forall o, o ∈ before ->
        exists name, find ["name"] o = Some name /\ class_lookup (text name) = None) ->
     object_class obj = Some class_id ->
     bndbox_value obj "xmin" = Some xmin -> bndbox_value obj "ymin" = Some ymin ->
     bndbox_value obj "xmax" = Some xmax -> bndbox_value obj "ymax" = Some ymax ->
     img_width = 0 \/ (exists W, float_of_int img_width = Ok W) ->
     parse_voc_annotation xml_text = Raise ZeroDivisionError).
Proof.
  intros Hroot Hw Hh Hzero. unfold parse_voc_annotation. rewrite Hroot. split.
  - intros boxes (W & H' & HW & HH & Hboxes)%parse_root_spec.
    rewrite Hw in HW. injection HW as <-. rewrite Hh in HH. injection HH as <-.
    destruct Hboxes as [|obj b objs bs Hb _]; [done|].
    destruct Hb as (? & ? & ? & ? & ? & ? & ? & _ & _ & _ & _ & _ & _ & _ & ? & ? & _).
    by destruct Hzero.
  - intros before after obj class_id xmin ymin xmax ymax Hobjs Hbefore Hclass H1 H2 H3 H4
      Hfits.
    unfold parse_root.
    rewrite (image_size_Some_inv _ _ _ Hw), (image_size_Some_inv _ _ _ Hh), Hobjs. simpl.
    apply convert_objects_raises; [done|].
    apply (convert_object_zero_size _ _ class_id _ xmin ymin xmax ymax); try done.
    destruct Hzero as [?|Hheight]; [by left|].
    destruct Hfits as [?|HW]; [by left|]. by right.
Qed.

Lemma parse_voc_annotation_zero_size_witness :
  @parse_voc_annotation nat flat_lib "<flat/>" = Raise ZeroDivisionError /\
  @parse_voc_annotation nat flat_lib "<thin/>" = Raise ZeroDivisionError /\
  (forall boxes, @parse_voc_annotation nat flat_lib "<bare/>" = Ok boxes -> boxes = []).
Proof.
  split_and!.
  - destruct (@parse_voc_annotation_zero_size nat flat_lib "<flat/>"
                (sample_annotation "0" "480" [sample_object "D00" "100" "100" "300" "200"])
                0 480 eq_refl eq_refl eq_refl (or_introl eq_refl)) as [_ Hraise].
    apply (Hraise [] [] (sample_object "D00" "100" "100" "300" "200") 0
             100%float 100%float 300%float 200%float); try reflexivity.
    + intros o Ho. by apply elem_of_nil in Ho.
    + by left.
  - destruct (@parse_voc_annotation_zero_size nat flat_lib "<thin/>"
                (sample_annotation "640" "0"
                   [sample_object "D43" "1" "2" "3" "4";
                    sample_object "D20" "100" "100" "300" "200"])
                640 0 eq_refl eq_refl eq_refl (or_intror eq_refl)) as [_ Hraise].
    apply (Hraise [sample_object "D43" "1" "2" "3" "4"] []
             (sample_object "D20" "100" "100" "300" "200") 2
             100%float 100%float 300%float 200%float); try reflexivity.
    + intros o ->%list_elem_of_singleton. exists (leaf "name" "D43").
      split; reflexivity.
    + right. exists 640%float. vm_compute. reflexivity.
  - intros boxes Hboxes.
    destruct (@parse_voc_annotation_zero_size nat flat_lib "<bare/>"
                (sample_annotation "0" "0" [sample_object "D43" "1" "2" "3" "4"])
                0 0 eq_refl eq_refl eq_refl (or_introl eq_refl)) as [Hempty _].
    exact (proj1 (Hempty boxes Hboxes)).
Defined.

(** X10.  The parser returns, with one box for every object that carries a
    mapped label, whenever the document is well formed: the image width and
    height can be read, are not zero and fit a float, every object has a
    name element, and the four coordinates of every object with a mapped
    label can be read. *)
Theorem parse_voc_annotation_returns `{PyLib rng} (xml_text : string) (root : element)
    (img_width img_height : Z) (W H' : float) :
  ET_parse xml_text = Some root ->
  image_size root "width" = Some img_width ->
  image_size root "height" = Some img_height ->
  float_of_int img_width = Ok W -> float_of_int img_height = Ok H' ->
  img_width <> 0 -> img_height <> 0 ->
  (forall obj, obj ∈ findall "object" root ->
     is_Some (find ["name"] obj) /\
     (mapped obj = true ->
      forall field, field ∈ ["xmin"; "ymin"; "xmax"; "ymax"] ->
        is_Some (bndbox_value obj field))) ->
  exists boxes,
    parse_voc_annotation xml_text = Ok boxes /\
    length boxes = length (List.filter mapped (findall "object" root)).
Proof.
  intros Hroot Hw Hh HW HH HW0 HH0 Hobjs.
  unfold parse_voc_annotation, parse_root. rewrite Hroot.
  rewrite (image_size_Some_inv _ _ _ Hw), (image_size_Some_inv _ _ _ Hh). simpl.
  destruct (convert_objects_run img_width img_height W H' (findall "object" root) []
              HW HH HW0 HH0 Hobjs) as (boxes & Hrun & Hlen).
  exists boxes. by rewrite Hrun.
Qed.

Lemma parse_voc_annotation_returns_witness :
  exists boxes,
    parse_voc_annotation "<mixed/>" = Ok boxes /\
    length boxes
    = length (List.filter mapped
                (findall "object"
                   (sample_annotation "640" "480"
                      [sample_object "D10" "0" "0" "160" "120";
                       sample_object "D43" "1" "2" "3" "4";
                       sample_object "D40" "320" "240" "640" "480"]))).
Proof.
  apply (@parse_voc_annotation_returns nat sample_lib "<mixed/>"
           (sample_annotation "640" "480"
              [sample_object "D10" "0" "0" "160" "120";
               sample_object "D43" "1" "2" "3" "4";
               sample_object "D40" "320" "240" "640" "480"])
           640 480 640%float 480%float); try (vm_compute; reflexivity); try discriminate.
  intros obj Hobj. apply list_elem_of_In in Hobj. vm_compute in Hobj.
  destruct Hobj as [<-|[<-|[<-|[]]]]; (split; [by eexists|]); intros Hmapped;
    try (vm_compute in Hmapped; discriminate Hmapped);
    intros field Hfield; apply list_elem_of_In in Hfield; vm_compute in Hfield;
    destruct Hfield as [<-|[<-|[<-|[<-|[]]]]]; vm_compute; eexists; reflexivity.
Defined.
